(** * rental-exchange: the deployment script [scripts/deploy.py]

    A shallow embedding of the script and the properties of its output
    scraping, of its deployment order and of its start-up configuration.

    Python [str] values are lists of Unicode code points.  The script's
    effects (text printed for the operator, external processes started and
    waited for) are recorded in a trace of events; the outputs of the
    external tools are given by oracles.  An uncaught Python exception is a
    [Raise] result that keeps the trace recorded up to that point. *)

From Stdlib Require Import String Ascii.
From Stdlib Require Import List ZArith NArith Lia Bool.
Import ListNotations.

Set Implicit Arguments.

(** ** Python strings *)

Module Py.

Definition char := N.
Definition str := list char.

(** A literal of the source, character by character. *)
Definition lit (s : string) : str := map N_of_ascii (list_ascii_of_string s).

Definition eqb (a b : str) : bool :=
  if list_eq_dec N.eq_dec a b then true else false.

(** [str.isspace] on one code point: the set CPython's [str.split()] and
    [str.strip()] use. *)
Definition isspace (c : char) : bool :=
  ((9 <=? c) && (c <=? 13) || (28 <=? c) && (c <=? 32)
   || (c =? 133) || (c =? 160) || (c =? 5760)
   || (8192 <=? c) && (c <=? 8202)
   || (c =? 8232) || (c =? 8233) || (c =? 8239) || (c =? 8287)
   || (c =? 12288))%N.

(** [s.startswith(prefix)] *)
Fixpoint startswith (s prefix : str) {struct prefix} : bool :=
  match prefix, s with
  | [], _ => true
  | p :: prefix', c :: s' => (c =? p)%N && startswith s' prefix'
  | _ :: _, [] => false
  end.

(** [s.split()]: the maximal runs of non-whitespace characters.  [tok] is
    the run being read. *)
Fixpoint split_from (tok s : str) : list str :=
  match s with
  | [] => match tok with [] => [] | _ => [tok] end
  | c :: rest =>
      if isspace c then
        match tok with
        | [] => split_from [] rest
        | _ => tok :: split_from [] rest
        end
      else split_from (tok ++ [c]) rest
  end.

Definition split (s : str) : list str := split_from [] s.

(** [s.split(sep)] for a separator of one character; the script uses
    ["\n"] and [":"].  The result is never empty. *)
Fixpoint split_on (sep : char) (s : str) : list str :=
  match s with
  | [] => [[]]
  | c :: rest =>
      if (c =? sep)%N then [] :: split_on sep rest
      else match split_on sep rest with
           | h :: t => (c :: h) :: t
           | [] => [[c]]
           end
  end.

(** [s.strip()] *)
Fixpoint lstrip (s : str) : str :=
  match s with
  | c :: rest => if isspace c then lstrip rest else s
  | [] => []
  end.

Definition rstrip (s : str) : str := rev (lstrip (rev s)).
Definition strip (s : str) : str := rstrip (lstrip s).

(** [s.find(sub, start)]: the lowest index at or after [start] where [sub]
    occurs, or [-1]. *)
Fixpoint find_at (i : Z) (sub s : str) : Z :=
  match s with
  | [] => if startswith [] sub then i else (-1)%Z
  | _ :: rest => if startswith s sub then i else find_at (i + 1) sub rest
  end.

Definition find (s sub : str) (start : Z) : Z :=
  let n := Z.of_nat (length s) in
  let st := if (start <? 0)%Z then Z.max (start + n) 0 else start in
  if (n <? st)%Z then (-1)%Z else find_at st sub (skipn (Z.to_nat st) s).

(** [s[lo:hi]]: a bound that is negative counts from the end, and both are
    clamped to the string. *)
Definition slice_index (n i : Z) : Z :=
  if (i <? 0)%Z then Z.max (i + n) 0 else Z.min i n.

Definition slice (s : str) (lo hi : option Z) : str :=
  let n := Z.of_nat (length s) in
  let l := match lo with None => 0%Z | Some i => slice_index n i end in
  let h := match hi with None => n | Some i => slice_index n i end in
  firstn (Z.to_nat (h - l)) (skipn (Z.to_nat l) s).

(** [str(n)] for an integer. *)
Definition digit (d : N) : char := (48 + d)%N.

Fixpoint digits_pos (fuel : nat) (p : N) (acc : str) : str :=
  match fuel with
  | O => acc
  | S fuel' =>
      let acc' := digit (p mod 10) :: acc in
      if (p / 10 =? 0)%N then acc' else digits_pos fuel' (p / 10) acc'
  end.

Definition str_of_N (n : N) : str := digits_pos (S (N.to_nat (N.log2 n))) n [].

Definition str_of_Z (z : Z) : str :=
  match z with
  | Z0 => str_of_N 0
  | Zpos p => str_of_N (Npos p)
  | Zneg p => 45%N :: str_of_N (Npos p)
  end.

(** Text-mode reading with [universal_newlines=True]: ["\r\n"] and ["\r"]
    arrive as ["\n"]. *)
Fixpoint universal_newlines (s : str) : str :=
  match s with
  | [] => []
  | c :: rest =>
      if (c =? 13)%N then
        10%N :: match rest with
                | [] => []
                | d :: rest' =>
                    if (d =? 10)%N then universal_newlines rest'
                    else universal_newlines rest
                end
      else c :: universal_newlines rest
  end.

(** [for line in stream]: each line keeps its ["\n"]; the last one may lack
    it. *)
Fixpoint lines_from (cur s : str) : list str :=
  match s with
  | [] => match cur with [] => [] | _ => [cur] end
  | c :: rest =>
      if (c =? 10)%N then (cur ++ [c]) :: lines_from [] rest
      else lines_from (cur ++ [c]) rest
  end.

Definition readlines (s : str) : list str := lines_from [] (universal_newlines s).

End Py.

Abbreviation py := Py.lit.
Abbreviation pystr := Py.str.

(** ** Values, exceptions and effects *)

(** A value that is a [str] or [None]: what [os.getenv] and [parseAddress]
    return. *)
Definition value := option pystr.

(** The uncaught exceptions the script can end with. *)
Inductive exn :=
| KeyError (key : pystr)
| IndexError
| ValueError
| TypeError
| TomlLoadError
| CalledProcessError.

Inductive result (A : Type) :=
| Ok (a : A)
| Raise (e : exn).

Arguments Ok {A} a.
Arguments Raise {A} e.

(** A [dict] with [str] keys, in insertion order. *)
Definition dict (V : Type) := list (pystr * V).

Fixpoint dict_get {V} (d : dict V) (k : pystr) : option V :=
  match d with
  | [] => None
  | (k', v) :: rest => if Py.eqb k' k then Some v else dict_get rest k
  end.

(** [d[k] = v] *)
Fixpoint dict_set {V} (d : dict V) (k : pystr) (v : V) : dict V :=
  match d with
  | [] => [(k, v)]
  | (k', v') :: rest =>
      if Py.eqb k' k then (k', v) :: rest else (k', v') :: dict_set rest k v
  end.

(** The display [{k1: v1, ..., kn: vn}] *)
Definition dict_display {V} (items : list (pystr * V)) : dict V :=
  fold_left (fun d kv => dict_set d (fst kv) (snd kv)) items [].

(** [d[k]] *)
Definition getitem {V} (d : dict V) (k : pystr) : result V :=
  match dict_get d k with
  | Some v => Ok v
  | None => Raise (KeyError k)
  end.

(** [l[-1]] *)
Definition getitem_last {A} (l : list A) : result A :=
  match rev l with
  | x :: _ => Ok x
  | [] => Raise IndexError
  end.

(** A value of [foundry.toml]. *)
Inductive tomlval :=
| TStr (s : pystr)
| TInt (z : Z).

(** [str(v)], also what an f-string inserts. *)
Definition str_of_toml (v : tomlval) : pystr :=
  match v with
  | TStr s => s
  | TInt z => Py.str_of_Z z
  end.

Definition str_of_value (v : value) : pystr :=
  match v with
  | Some s => s
  | None => py "None"
  end.

(** Truth value of a [str], [bytes] or [None]. *)
Definition truthy (v : value) : bool :=
  match v with
  | Some (_ :: _) => true
  | _ => false
  end.

(** What one [print] call is given. *)
Inductive message :=
| Text (s : pystr)
| Values (vs : list value)
| Running (args : list pystr)
| Mapping (d : dict value).

Inductive workdir := Here | Home.

Inductive event :=
| Print (m : message)
| Spawn (cwd : workdir) (argv : list pystr)
| Wait (cwd : workdir) (argv : list pystr)
| CheckOutput (argv : list pystr).

Definition trace := list event.

(** A computation of the script: it extends the trace and returns a value or
    raises. *)
Definition M (A : Type) := trace -> result A * trace.

Definition ret {A} (a : A) : M A := fun t => (Ok a, t).

Definition raise {A} (e : exn) : M A := fun t => (Raise e, t).

Definition bind {A B} (m : M A) (f : A -> M B) : M B :=
  fun t =>
    match m t with
    | (Ok a, t') => f a t'
    | (Raise e, t') => (Raise e, t')
    end.

Definition lift {A} (r : result A) : M A := fun t => (r, t).

Definition emit (e : event) : M unit := fun t => (Ok tt, t ++ [e]).

Definition print (m : message) : M unit := emit (Print m).

Declare Scope script_scope.
Delimit Scope script_scope with script.
Notation "x <- m ;; k" := (bind m (fun x => k))
  (at level 61, m at next level, right associativity) : script_scope.
Notation "m ;; k" := (bind m (fun _ => k))
  (at level 61, right associativity) : script_scope.
Local Open Scope script_scope.

(** [for x in xs: acc = body(x, acc)] *)
Fixpoint for_each {A S} (xs : list A) (body : A -> S -> M S) (acc : S) : M S :=
  match xs with
  | [] => ret acc
  | x :: rest => acc' <- body x acc ;; for_each rest body acc'
  end.

(** The argument vector of a process: every element has to be a [str] (or
    [bytes]); [None] among them makes [Popen] raise [TypeError]. *)
Fixpoint all_str (args : list value) : option (list pystr) :=
  match args with
  | [] => Some []
  | Some s :: rest =>
      match all_str rest with
      | Some l => Some (s :: l)
      | None => None
      end
  | None :: _ => None
  end.

(** ** The script: constants and output parsing *)

Definition CHAIN_IDS : dict Z :=
  dict_display
    [(py "mainnet", 1%Z); (py "ropsten", 3%Z); (py "rinkeby", 4%Z);
     (py "goerli", 5%Z)].

Definition PROXY_FACTORY_ADDR : pystr := py "0x18bef085f6dD4Bf6c23aF90465c91cF68D5B74Cb".
Definition WETH : pystr := py "0x0Bb7509324cE409F7bbC4b701f932eAca9736AB7".
Definition PROTOCOL_FEE_RECIPIENT : pystr := py "0x891e3465fCD6A67D13762487D2E326e0bF55De2F".
Definition STRATEGY_EXCHANGE_FEE : pystr := py "400".

(** [for substr in substrs: if substr.startswith("0x"): return substr] *)
Fixpoint parseAddress_loop (substrs : list pystr) : value :=
  match substrs with
  | [] => None
  | substr :: rest =>
      if Py.startswith substr (py "0x") then Some substr
      else parseAddress_loop rest
  end.

Definition parseAddress (str : pystr) : value :=
  parseAddress_loop (Py.split str).

(** [for line in lines: if line.startswith("Deployed to:"): return
    parseAddress(line)] *)
Fixpoint parseDeployedAddress_loop (lines : list pystr) : value :=
  match lines with
  | [] => None
  | line :: rest =>
      if Py.startswith line (py "Deployed to:") then parseAddress line
      else parseDeployedAddress_loop rest
  end.

Definition parseDeployedAddress (output : pystr) : value :=
  parseDeployedAddress_loop (Py.split_on 10%N output).

Definition parseCompilerVersion (output : pystr) : result pystr :=
  match getitem_last (Py.split output) with
  | Raise e => Raise e
  | Ok output =>
      let beginningOfCommitSha :=
        (Py.find output (py "commit") 0
         + Z.of_nat (length (py "commit")) + 1)%Z in
      let endOfCommitSha := Py.find output (py ".") beginningOfCommitSha in
      Ok (py "v" ++ Py.slice output None (Some endOfCommitSha))
  end.

(** ** The script: start-up *)

(** What the process is started with: [sys.argv], the environment after
    [load_dotenv], and the parsed [foundry.toml] ([None] when [toml.load]
    raises).  The file is read as a table of tables of strings and
    integers. *)
Record environ := {
  sys_argv : list pystr;
  getenv : pystr -> value;
  foundry_toml : option (dict (dict tomlval))
}.

(** The module-level names. *)
Record globals := {
  ALCHEMY_KEY : value;
  PK : value;
  NETWORK : pystr;
  rpc_url : pystr;
  config : dict (dict tomlval);
  ETHERSCAN_KEY : value;
  network : pystr;
  chain_id : Z
}.

(** [sys.argv[1] if len(sys.argv) > 1 else "mainnet"] *)
Definition network_argument (argv : list pystr) : pystr :=
  if (1 <? length argv)%nat then nth 1 argv [] else py "mainnet".

(** Lines 10 to 33. *)
Definition startup (e : environ) : M globals :=
  let ALCHEMY_KEY := getenv e (py "ALCHEMY_KEY") in
  let PK := getenv e (py "PK") in
  let NETWORK := network_argument (sys_argv e) in
  let rpc_url :=
    py "https://eth-" ++ NETWORK ++ py ".alchemyapi.io/v2/"
       ++ str_of_value ALCHEMY_KEY in
  match foundry_toml e with
  | None => raise TomlLoadError
  | Some config =>
      let ETHERSCAN_KEY := getenv e (py "ETHERSCAN_API_KEY") in
      let network := network_argument (sys_argv e) in
      bind (lift (getitem CHAIN_IDS network)) (fun chain_id =>
      ret {| ALCHEMY_KEY := ALCHEMY_KEY; PK := PK; NETWORK := NETWORK;
             rpc_url := rpc_url; config := config;
             ETHERSCAN_KEY := ETHERSCAN_KEY; network := network;
             chain_id := chain_id |})
  end.

(** ** The script: deployment, verification, status *)

Section Script.

(** The combined standard output and standard error of the process started
    by the last [Spawn] of the trace, as decoded text. *)
Variable popen_stdout : trace -> pystr.

(** The standard output of the process run by the last [CheckOutput] of the
    trace; [None] for a non-zero exit status. *)
Variable check_output_stdout : trace -> option pystr.

Variable g : globals.

(** [with subprocess.Popen(args, cwd=..., stdout=PIPE, stderr=STDOUT,
    universal_newlines=True) as process: body].  The body is given
    [process.args] and the lines of [process.stdout]; the process is waited
    for when the block is left, also by an exception.  Of the checks [Popen]
    makes on its arguments the one for [None] is here; the arguments are
    taken to hold no U+0000, for which [Popen] raises [ValueError] where this
    definition starts the process.  The properties that say which processes
    a run starts are stated for such arguments ([null_free] below). *)
Definition with_Popen {A} (cwd : workdir) (args : list value)
    (body : list pystr -> list pystr -> M A) : M A :=
  match all_str args with
  | None => raise TypeError
  | Some argv =>
      fun t =>
        let t1 := t ++ [Spawn cwd argv] in
        let (r, t2) := body argv (Py.readlines (popen_stdout t1)) t1 in
        (r, t2 ++ [Wait cwd argv])
  end.

(** [subprocess.check_output(args)], on arguments without U+0000 as
    [with_Popen]. *)
Definition check_output (args : list value) : M pystr :=
  match all_str args with
  | None => raise TypeError
  | Some argv =>
      fun t =>
        let t1 := t ++ [CheckOutput argv] in
        match check_output_stdout t1 with
        | Some out => (Ok out, t1)
        | None => (Raise CalledProcessError, t1)
        end
  end.

Definition deploy_contract (contract : pystr) (constructor_args : list value)
    : M value :=
  let address : value := Some [] in
  let args :=
    [Some (py "forge"); Some (py "create"); Some (py "--rpc-url");
     Some (rpc_url g); Some (py "--private-key"); PK g; Some contract] in
  let args :=
    if (0 <? length constructor_args)%nat
    then args ++ Some (py "--constructor-args") :: constructor_args
    else args in
  contract_name <- lift (getitem_last (Py.split_on 58%N contract)) ;;
  print (Text (py "Deploying " ++ contract_name ++ py "...")) ;;
  with_Popen Here args (fun process_args stdout =>
    print (Running process_args) ;;
    for_each stdout (fun line address =>
      print (Text line) ;;
      if Py.startswith line (py "Deployed to:")
      then ret (parseAddress line)
      else ret address) address).

Definition deploy_contracts : M (dict value) :=
  print (Values [ALCHEMY_KEY g; PK g; Some (NETWORK g)]) ;;
  fixedPriceStrategy <-
    deploy_contract
      (py "src/strategies/StrategyStandardSaleForFixedPrice.sol:StrategyStandardSaleForFixedPrice")
      [Some STRATEGY_EXCHANGE_FEE] ;;
  currencyManager <-
    deploy_contract (py "src/CurrencyManager.sol:CurrencyManager") [] ;;
  executionManager <-
    deploy_contract (py "src/ExecutionManager.sol:ExecutionManager") [] ;;
  receiptToken <- deploy_contract (py "src/ReceiptToken.sol:ReceiptToken") [] ;;
  exchange <-
    deploy_contract (py "src/RentalExchange.sol:RentalExchange")
      [currencyManager; executionManager; Some PROXY_FACTORY_ADDR;
       receiptToken; Some WETH; Some PROTOCOL_FEE_RECIPIENT] ;;
  transferManagerERC721 <-
    deploy_contract
      (py "src/transferManagers/TransferManagerERC721.sol:TransferManagerERC721")
      [exchange] ;;
  transferManagerERC1155 <-
    deploy_contract
      (py "src/transferManagers/TransferManagerERC1155.sol:TransferManagerERC1155")
      [exchange] ;;
  transferSelector <-
    deploy_contract (py "src/TransferSelectorNFT.sol:TransferSelectorNFT")
      [transferManagerERC721; transferManagerERC1155] ;;
  print (Text (py "All contracts deployed.")) ;;
  print (Text (py "1. Transfer ownership of the ReceiptToken to the RentalExchange")) ;;
  print (Text (py "2. Add WETH to CurrencyManager")) ;;
  print (Text (py "3. Add the strategy to ExecutionManager")) ;;
  print (Text (py "4. Add TransferSelectorNFT to the Exchange via `updateTransferSelectorNFT`")) ;;
  ret (dict_display
         [(py "fixedPriceStrategy", fixedPriceStrategy);
          (py "currencyManager", currencyManager);
          (py "executionManager", executionManager);
          (py "receiptToken", receiptToken);
          (py "exchange", exchange);
          (py "transferManagerERC721", transferManagerERC721);
          (py "transferManagerERC1155", transferManagerERC1155);
          (py "transferSelector", transferSelector)]).

Definition verify_contract (optimizer_runs : tomlval)
    (compiler_version : pystr) (address : value) (contract : pystr)
    (encoded_constructor_args : value) : M pystr :=
  contract_name <- lift (getitem_last (Py.split_on 58%N contract)) ;;
  print (Text (py "Verifying " ++ contract_name ++ py "...")) ;;
  let args :=
    [Some (py "forge"); Some (py "verify-contract"); Some (py "--chain-id");
     Some (Py.str_of_Z (chain_id g)); Some (py "--num-of-optimizations");
     Some (str_of_toml optimizer_runs); Some (py "--compiler-version");
     Some compiler_version; address; Some contract] in
  let args :=
    if truthy encoded_constructor_args
    then args ++ [Some (py "--constructor-args"); encoded_constructor_args]
    else args in
  let guid : pystr := [] in
  with_Popen Here args (fun _ stdout =>
    for_each stdout (fun line guid =>
      print (Text line) ;;
      if Py.startswith (Py.strip line) (py "GUID:")
      then
        token <- lift (getitem_last (Py.split line)) ;;
        ret (Py.slice token (Some 1%Z) (Some (-1)%Z))
      else ret guid) guid).

(** [config['default'][key]] *)
Definition config_default (key : pystr) : M tomlval :=
  default <- lift (getitem (config g) (py "default")) ;;
  lift (getitem default key).

Definition verify_contracts (addresses : dict value) : M (dict pystr) :=
  solc <- config_default (py "solc") ;;
  let compiler_version : pystr := [] in
  compiler_version <-
    with_Popen Home
      [Some (py "./.svm/" ++ str_of_toml solc ++ py "/solc-" ++ str_of_toml solc);
       Some (py "--version")]
      (fun _ stdout =>
        for_each stdout (fun line compiler_version =>
          print (Text line) ;;
          if Py.startswith line (py "Version:")
          then lift (parseCompilerVersion line)
          else ret compiler_version) compiler_version) ;;
  optimizer_runs <- config_default (py "optimizer_runs") ;;
  print (Text (py "chain id: " ++ Py.str_of_Z (chain_id g)
               ++ py ", optimizer_runs: " ++ str_of_toml optimizer_runs
               ++ py ", compiler_version: " ++ compiler_version)) ;;
  let guids : dict pystr := [] in
  encoded_constructor_args <-
    check_output
      [Some (py "cast"); Some (py "abi-encode");
       Some (py "constructor(uint256)"); Some STRATEGY_EXCHANGE_FEE] ;;
  address <- lift (getitem addresses (py "fixedPriceStrategy")) ;;
  guid <-
    verify_contract optimizer_runs compiler_version address
      (py "src/strategies/StrategyStandardSaleForFixedPrice.sol:StrategyStandardSaleForFixedPrice")
      (Some encoded_constructor_args) ;;
  let guids := dict_set guids (py "fixedPriceStrategy") guid in
  address <- lift (getitem addresses (py "currencyManager")) ;;
  guid <-
    verify_contract optimizer_runs compiler_version address
      (py "src/CurrencyManager.sol:CurrencyManager") None ;;
  let guids := dict_set guids (py "currencyManager") guid in
  address <- lift (getitem addresses (py "executionManager")) ;;
  guid <-
    verify_contract optimizer_runs compiler_version address
      (py "src/ExecutionManager.sol:ExecutionManager") None ;;
  let guids := dict_set guids (py "executionManager") guid in
  address <- lift (getitem addresses (py "receiptToken")) ;;
  guid <-
    verify_contract optimizer_runs compiler_version address
      (py "src/ReceiptToken.sol:ReceiptToken") None ;;
  let guids := dict_set guids (py "receiptToken") guid in
  currencyManager <- lift (getitem addresses (py "currencyManager")) ;;
  executionManager <- lift (getitem addresses (py "executionManager")) ;;
  receiptToken <- lift (getitem addresses (py "receiptToken")) ;;
  encoded_constructor_args <-
    check_output
      [Some (py "cast"); Some (py "abi-encode");
       Some (py "constructor(address,address,address,address,address,address)");
       currencyManager; executionManager; Some PROXY_FACTORY_ADDR;
       receiptToken; Some WETH; Some PROTOCOL_FEE_RECIPIENT] ;;
  address <- lift (getitem addresses (py "exchange")) ;;
  guid <-
    verify_contract optimizer_runs compiler_version address
      (py "src/RentalExchange.sol:RentalExchange")
      (Some encoded_constructor_args) ;;
  let guids := dict_set guids (py "exchange") guid in
  exchange <- lift (getitem addresses (py "exchange")) ;;
  encoded_constructor_args <-
    check_output
      [Some (py "cast"); Some (py "abi-encode");
       Some (py "constructor(address)"); exchange] ;;
  address <- lift (getitem addresses (py "transferManagerERC721")) ;;
  guid <-
    verify_contract optimizer_runs compiler_version address
      (py "src/transferManagers/TransferManagerERC721.sol:TransferManagerERC721")
      (Some encoded_constructor_args) ;;
  let guids := dict_set guids (py "transferManagerERC721") guid in
  exchange <- lift (getitem addresses (py "exchange")) ;;
  encoded_constructor_args <-
    check_output
      [Some (py "cast"); Some (py "abi-encode");
       Some (py "constructor(address)"); exchange] ;;
  address <- lift (getitem addresses (py "transferManagerERC1155")) ;;
  guid <-
    verify_contract optimizer_runs compiler_version address
      (py "src/transferManagers/TransferManagerERC1155.sol:TransferManagerERC1155")
      (Some encoded_constructor_args) ;;
  let guids := dict_set guids (py "transferManagerERC1155") guid in
  transferManagerERC721 <-
    lift (getitem addresses (py "transferManagerERC721")) ;;
  transferManagerERC1155 <-
    lift (getitem addresses (py "transferManagerERC1155")) ;;
  encoded_constructor_args <-
    check_output
      [Some (py "cast"); Some (py "abi-encode");
       Some (py "constructor(address,address)");
       transferManagerERC721; transferManagerERC1155] ;;
  address <- lift (getitem addresses (py "transferSelector")) ;;
  guid <-
    verify_contract optimizer_runs compiler_version address
      (py "src/TransferSelectorNFT.sol:TransferSelectorNFT")
      (Some encoded_constructor_args) ;;
  let guids := dict_set guids (py "transferSelector") guid in
  ret guids.

(** [k, v = key] for a key that is a [str]: it has to have exactly two
    characters. *)
Definition unpack_pair (key : pystr) : result (pystr * pystr) :=
  match key with
  | [a; b] => Ok ([a], [b])
  | _ => Raise ValueError
  end.

(** The argument list of lines 209 to 212. *)
Definition verify_check_args (k : pystr) : list value :=
  [Some (py "forge"); Some (py "verify-check"); Some (py "--chain-id");
   Some (Py.str_of_Z (chain_id g)); Some k; ETHERSCAN_KEY g].

(** [for k, v in guids: ...]: iterating the dict gives its keys, and each
    key is unpacked into [k, v]. *)
Fixpoint check_verfication_status_loop (keys : list pystr) : M unit :=
  match keys with
  | [] => ret tt
  | key :: rest =>
      kv <- lift (unpack_pair key) ;;
      let k := fst kv in
      print (Text (py "Verification status for " ++ k ++ py "...")) ;;
      with_Popen Here (verify_check_args k) (fun _ stdout =>
        for_each stdout (fun line _ => print (Text line)) tt) ;;
      check_verfication_status_loop rest
  end.

Definition check_verfication_status (guids : dict pystr) : M unit :=
  check_verfication_status_loop (map fst guids).

End Script.

(** Lines 219 to 224, after the module-level names are bound. *)
Definition main (popen_stdout : trace -> pystr)
    (check_output_stdout : trace -> option pystr) (e : environ) : M unit :=
  g <- startup e ;;
  addresses <- deploy_contracts popen_stdout g ;;
  print (Mapping addresses) ;;
  guids <- verify_contracts popen_stdout check_output_stdout g addresses ;;
  check_verfication_status popen_stdout g guids.

(** ** Vocabulary of the properties *)

(** Only whitespace; no whitespace; empty or beginning with whitespace. *)
Definition blank (s : pystr) : Prop := Forall (fun c => Py.isspace c = true) s.
Definition solid (s : pystr) : Prop := Forall (fun c => Py.isspace c = false) s.
Definition detached (s : pystr) : Prop :=
  match s with
  | [] => True
  | c :: _ => Py.isspace c = true
  end.

(** Empty or ending with whitespace. *)
Definition closed (s : pystr) : Prop := detached (rev s).

(** [Tokens s toks]: [toks] are the whitespace-separated tokens of [s], from
    left to right. *)
Inductive Tokens : pystr -> list pystr -> Prop :=
| Tokens_nil ws : blank ws -> Tokens ws []
| Tokens_cons ws tok rest toks :
    blank ws -> tok <> [] -> solid tok -> detached rest ->
    Tokens rest toks -> Tokens (ws ++ tok ++ rest) (tok :: toks).

(** [sep.join(parts)] *)
Fixpoint join (sep : Py.char) (parts : list pystr) : pystr :=
  match parts with
  | [] => []
  | [p] => p
  | p :: rest => p ++ sep :: join sep rest
  end.

(** [Lines output lines]: [lines] are the lines of [output], cut at each
    ["\n"], which is dropped. *)
Definition Lines (output : pystr) (lines : list pystr) : Prop :=
  lines <> [] /\ Forall (fun l => ~ In 10%N l) lines /\ output = join 10%N lines.

(** [x] is the first, or the last, element of [l] that satisfies [p]. *)
Definition first_such {A} (p : A -> bool) (l : list A) (x : A) : Prop :=
  exists before after,
    l = before ++ x :: after /\ p x = true /\ forallb (fun y => negb (p y)) before = true.

Definition last_such {A} (p : A -> bool) (l : list A) (x : A) : Prop :=
  exists before after,
    l = before ++ x :: after /\ p x = true /\ forallb (fun y => negb (p y)) after = true.

Definition none_such {A} (p : A -> bool) (l : list A) : Prop :=
  forallb (fun y => negb (p y)) l = true.

Definition is_address (tok : pystr) : bool := Py.startswith tok (py "0x").
Definition is_deployed_line (line : pystr) : bool := Py.startswith line (py "Deployed to:").
Definition is_guid_line (line : pystr) : bool := Py.startswith (Py.strip line) (py "GUID:").

(** [sub] occurs in [s]. *)
Definition occurs (sub s : pystr) : Prop := exists p q, s = p ++ sub ++ q.

(** The value of [address] after the loop of [deploy_contract] has read
    [lines], and of [guid] after the loop of [verify_contract]. *)
Definition scan_deployed (lines : list pystr) : value :=
  fold_left (fun address line =>
               if Py.startswith line (py "Deployed to:") then parseAddress line
               else address) lines (Some []).

Definition scan_guid (lines : list pystr) : pystr :=
  fold_left (fun guid line =>
               if Py.startswith (Py.strip line) (py "GUID:")
               then Py.slice (last (Py.split line) []) (Some 1%Z) (Some (-1)%Z)
               else guid) lines [].

(** The part after the last [":"] of a contract reference. *)
Definition contract_name (contract : pystr) : pystr :=
  last (Py.split_on 58%N contract) [].

(** The command line [forge create --rpc-url <url> --private-key <key>
    <contract> [--constructor-args <args...>]]. *)
Definition deploy_argv (g : globals) (pk contract : pystr) (cargs : list pystr)
    : list pystr :=
  [py "forge"; py "create"; py "--rpc-url"; rpc_url g; py "--private-key"; pk;
   contract]
  ++ match cargs with
     | [] => []
     | _ => py "--constructor-args" :: cargs
     end.

(** The events of one deployment whose process wrote [out]. *)
Definition deployment_events (g : globals) (pk contract : pystr)
    (cargs : list pystr) (out : pystr) : trace :=
  [Print (Text (py "Deploying " ++ contract_name contract ++ py "..."));
   Spawn Here (deploy_argv g pk contract cargs);
   Print (Running (deploy_argv g pk contract cargs))]
  ++ map (fun line => Print (Text line)) (Py.readlines out)
  ++ [Wait Here (deploy_argv g pk contract cargs)].

(** The output of the process that [deploy_contract] starts when the trace
    is [t]. *)
Definition deployment_output (popen_stdout : trace -> pystr) (g : globals)
    (pk contract : pystr) (cargs : list pystr) (t : trace) : pystr :=
  popen_stdout
    (t ++ [Print (Text (py "Deploying " ++ contract_name contract ++ py "..."));
           Spawn Here (deploy_argv g pk contract cargs)]).

(** The command line [forge verify-contract --chain-id <id>
    --num-of-optimizations <n> --compiler-version <v> <address> <contract>
    [--constructor-args <encoded>]]. *)
Definition verify_argv (g : globals) (optimizer_runs : tomlval)
    (compiler_version address contract : pystr) (encoded : value)
    : list pystr :=
  [py "forge"; py "verify-contract"; py "--chain-id";
   Py.str_of_Z (chain_id g); py "--num-of-optimizations";
   str_of_toml optimizer_runs; py "--compiler-version"; compiler_version;
   address; contract]
  ++ match encoded with
     | Some (c :: e) => [py "--constructor-args"; c :: e]
     | _ => []
     end.

(** The output of the process that [verify_contract] starts when the trace
    is [t]. *)
Definition verification_output (popen_stdout : trace -> pystr) (g : globals)
    (optimizer_runs : tomlval) (compiler_version address contract : pystr)
    (encoded : value) (t : trace) : pystr :=
  popen_stdout
    (t ++ [Print (Text (py "Verifying " ++ contract_name contract ++ py "..."));
           Spawn Here (verify_argv g optimizer_runs compiler_version address
                         contract encoded)]).

(** The deployments of [deploy_contracts] as a table: the key of the result,
    the contract, and the constructor arguments, where [Ref k] is the
    variable that holds the address recorded for [k]. *)
Inductive carg :=
| Lit (s : pystr)
| Ref (key : pystr).

Record deployment := {
  dep_key : pystr;
  dep_contract : pystr;
  dep_args : list carg
}.

Definition deployment_plan : list deployment :=
  [ {| dep_key := py "fixedPriceStrategy";
       dep_contract := py "src/strategies/StrategyStandardSaleForFixedPrice.sol:StrategyStandardSaleForFixedPrice";
       dep_args := [Lit STRATEGY_EXCHANGE_FEE] |};
    {| dep_key := py "currencyManager";
       dep_contract := py "src/CurrencyManager.sol:CurrencyManager";
       dep_args := [] |};
    {| dep_key := py "executionManager";
       dep_contract := py "src/ExecutionManager.sol:ExecutionManager";
       dep_args := [] |};
    {| dep_key := py "receiptToken";
       dep_contract := py "src/ReceiptToken.sol:ReceiptToken";
       dep_args := [] |};
    {| dep_key := py "exchange";
       dep_contract := py "src/RentalExchange.sol:RentalExchange";
       dep_args := [Ref (py "currencyManager"); Ref (py "executionManager");
                    Lit PROXY_FACTORY_ADDR; Ref (py "receiptToken"); Lit WETH;
                    Lit PROTOCOL_FEE_RECIPIENT] |};
    {| dep_key := py "transferManagerERC721";
       dep_contract := py "src/transferManagers/TransferManagerERC721.sol:TransferManagerERC721";
       dep_args := [Ref (py "exchange")] |};
    {| dep_key := py "transferManagerERC1155";
       dep_contract := py "src/transferManagers/TransferManagerERC1155.sol:TransferManagerERC1155";
       dep_args := [Ref (py "exchange")] |};
    {| dep_key := py "transferSelector";
       dep_contract := py "src/TransferSelectorNFT.sol:TransferSelectorNFT";
       dep_args := [Ref (py "transferManagerERC721");
                    Ref (py "transferManagerERC1155")] |} ].

(** A constructor argument, given the addresses recorded. *)
Definition resolve (addresses : dict value) (a : carg) : pystr :=
  match a with
  | Lit s => s
  | Ref key =>
      match dict_get addresses key with
      | Some (Some address) => address
      | _ => []
      end
  end.

Definition plan_argv (g : globals) (pk : pystr) (addresses : dict value)
    (d : deployment) : list pystr :=
  deploy_argv g pk (dep_contract d) (map (resolve addresses) (dep_args d)).

(** The processes started in [added], a continuation of the trace [t], each
    with the output it wrote. *)
Fixpoint processes (popen_stdout : trace -> pystr) (t added : trace)
    : list (list pystr * pystr) :=
  match added with
  | [] => []
  | e :: rest =>
      match e with
      | Spawn _ argv =>
          (argv, popen_stdout (t ++ [e])) :: processes popen_stdout (t ++ [e]) rest
      | _ => processes popen_stdout (t ++ [e]) rest
      end
  end.

(** [e2] occurs after an occurrence of [e1]. *)
Definition precedes (e1 e2 : event) (t : trace) : Prop :=
  exists before after, t = before ++ e1 :: after /\ In e2 after.

Definition is_process_event (e : event) : bool :=
  match e with
  | Print _ => false
  | _ => true
  end.

(** The value of [compiler_version] after the loop of [verify_contracts] has
    read [lines]. *)
Definition scan_version (lines : list pystr) : pystr :=
  fold_left (fun compiler_version line =>
               if Py.startswith line (py "Version:")
               then match parseCompilerVersion line with
                    | Ok version => version
                    | Raise _ => compiler_version
                    end
               else compiler_version) lines [].

(** The command line of the compiler probe, run in the home directory. *)
Definition solc_argv (solc : tomlval) : list pystr :=
  [py "./.svm/" ++ str_of_toml solc ++ py "/solc-" ++ str_of_toml solc;
   py "--version"].

(** The output of the compiler probe started when the trace is [t], and the
    events of the probe. *)
Definition probe_output (popen_stdout : trace -> pystr) (solc : tomlval)
    (t : trace) : pystr :=
  popen_stdout (t ++ [Spawn Home (solc_argv solc)]).

Definition probe_events (solc : tomlval) (out : pystr) : trace :=
  [Spawn Home (solc_argv solc)]
  ++ map (fun line => Print (Text line)) (Py.readlines out)
  ++ [Wait Home (solc_argv solc)].

(** The events of one verification whose process wrote [out]. *)
Definition verification_events (g : globals) (optimizer_runs : tomlval)
    (compiler_version address contract : pystr) (encoded : value)
    (out : pystr) : trace :=
  [Print (Text (py "Verifying " ++ contract_name contract ++ py "..."));
   Spawn Here (verify_argv g optimizer_runs compiler_version address contract
                 encoded)]
  ++ map (fun line => Print (Text line)) (Py.readlines out)
  ++ [Wait Here (verify_argv g optimizer_runs compiler_version address contract
                   encoded)].

(** The [check_output] calls in [added], a continuation of the trace [t],
    each with what it returned. *)
Fixpoint encodings (check_output_stdout : trace -> option pystr)
    (t added : trace) : list (list pystr * option pystr) :=
  match added with
  | [] => []
  | e :: rest =>
      match e with
      | CheckOutput argv =>
          (argv, check_output_stdout (t ++ [e]))
            :: encodings check_output_stdout (t ++ [e]) rest
      | _ => encodings check_output_stdout (t ++ [e]) rest
      end
  end.

(** The eight keys of the two dicts. *)
Definition contract_keys : list pystr :=
  [py "fixedPriceStrategy"; py "currencyManager"; py "executionManager";
   py "receiptToken"; py "exchange"; py "transferManagerERC721";
   py "transferManagerERC1155"; py "transferSelector"].

(** An event that is not a [check_output] call. *)
Definition no_check_output (e : event) : Prop :=
  match e with
  | CheckOutput _ => False
  | _ => True
  end.

(** A process started has a command line that begins with [prefix]. *)
Definition spawns_with (prefix : list pystr) (e : event) : Prop :=
  match e with
  | Spawn _ argv => firstn (length prefix) argv = prefix
  | _ => True
  end.

(** The string holds no U+0000.  [subprocess.Popen] and
    [subprocess.check_output] check their arguments from left to right and
    raise [ValueError] at a string that holds one, before anything is
    started. *)
Definition null_free (s : pystr) : Prop := ~ In 0%N s.

Definition null_free_value (v : value) : Prop :=
  match v with
  | Some s => null_free s
  | None => True
  end.

(** [LookupError] and its subclasses, the exceptions of a failed subscript. *)
Definition lookup_error (e : exn) : bool :=
  match e with
  | KeyError _ | IndexError => true
  | _ => false
  end.

(** ** Sample runs *)

(** A start on goerli with the three keys set. *)
Definition sample_environ : environ :=
  {| sys_argv := [py "scripts/deploy.py"; py "goerli"];
     getenv := fun name =>
       if Py.eqb name (py "ALCHEMY_KEY") then Some (py "alchemy-key")
       else if Py.eqb name (py "PK") then Some (py "0xprivate")
       else if Py.eqb name (py "ETHERSCAN_API_KEY") then Some (py "etherscan-key")
       else None;
     foundry_toml :=
       Some [(py "default",
              [(py "solc", TStr (py "0.8.13"));
               (py "optimizer_runs", TInt 200)])] |}.

Definition sample_globals : globals :=
  {| ALCHEMY_KEY := Some (py "alchemy-key");
     PK := Some (py "0xprivate");
     NETWORK := py "goerli";
     rpc_url := py "https://eth-goerli.alchemyapi.io/v2/alchemy-key";
     config := [(py "default",
                 [(py "solc", TStr (py "0.8.13"));
                  (py "optimizer_runs", TInt 200)])];
     ETHERSCAN_KEY := Some (py "etherscan-key");
     network := py "goerli";
     chain_id := 5 |}.

(** Every process writes the same text. *)
Definition canned (out : pystr) : trace -> pystr := fun _ => out.

(** The n-th process started reports the address [0xA<n>] and the
    identifier [g<n>]. *)
Definition count_spawns (t : trace) : nat :=
  length (filter (fun e => match e with Spawn _ _ => true | _ => false end) t).

Definition numbered (t : trace) : pystr :=
  py "Compiling..." ++ [13; 10]%N
  ++ py "Deployed to: 0xA" ++ Py.str_of_Z (Z.of_nat (count_spawns t)) ++ [10]%N
  ++ py "  GUID: " ++ [34]%N ++ py "g" ++ Py.str_of_Z (Z.of_nat (count_spawns t))
  ++ [34; 10]%N.

Definition two_markers : pystr :=
  py "Deployed to: 0xAAA" ++ [10]%N ++ py "Deployed to: 0xBBB" ++ [10]%N.

(** Every [check_output] call returns the same bytes. *)
Definition encoded_as (out : pystr) : trace -> option pystr := fun _ => Some out.

(** The addresses of the run in which the n-th process reports [0xA<n>]. *)
Definition numbered_addresses : dict value :=
  [(py "fixedPriceStrategy", Some (py "0xA1"));
   (py "currencyManager", Some (py "0xA2"));
   (py "executionManager", Some (py "0xA3"));
   (py "receiptToken", Some (py "0xA4"));
   (py "exchange", Some (py "0xA5"));
   (py "transferManagerERC721", Some (py "0xA6"));
   (py "transferManagerERC1155", Some (py "0xA7"));
   (py "transferSelector", Some (py "0xA8"))].

(** A start with the network argument ["goerli"]. *)
Definition goerli_start (script : pystr) (rest : list pystr)
    (env : pystr -> value) (toml : dict (dict tomlval)) : environ :=
  {| sys_argv := script :: py "goerli" :: rest;
     getenv := env;
     foundry_toml := Some toml |}.

(** A start on a network that [CHAIN_IDS] does not have. *)
Definition kovan_environ : environ :=
  {| sys_argv := [py "scripts/deploy.py"; py "kovan"];
     getenv := getenv sample_environ;
     foundry_toml := foundry_toml sample_environ |}.

(** The same starts where [foundry.toml] does not load. *)
Definition without_toml (e : environ) : environ :=
  {| sys_argv := sys_argv e; getenv := getenv e; foundry_toml := None |}.

(** [sub in s], computed. *)
Fixpoint occursb (sub s : pystr) : bool :=
  match s with
  | [] => Py.startswith [] sub
  | _ :: rest => Py.startswith s sub || occursb sub rest
  end.

(** The names of a start on mainnet with no key set. *)
Definition keyless_globals : globals :=
  {| ALCHEMY_KEY := None;
     PK := None;
     NETWORK := py "mainnet";
     rpc_url := py "https://eth-mainnet.alchemyapi.io/v2/None";
     config := [];
     ETHERSCAN_KEY := None;
     network := py "mainnet";
     chain_id := 1 |}.

(** * Properties *)

(** ** Facts on strings *)

Lemma isspace_cases (c : Py.char) : {Py.isspace c = true} + {Py.isspace c = false}.
Proof. destruct (Py.isspace c); auto. Qed.

Lemma startswith_app (p s : pystr) : Py.startswith (p ++ s) p = true.
Proof.
  induction p as [|c p IH]; simpl; [reflexivity|].
  now rewrite N.eqb_refl.
Qed.

Lemma startswith_iff (s p : pystr) :
  Py.startswith s p = true <-> exists r, s = p ++ r.
Proof.
  split.
  - revert s; induction p as [|c p IH]; intros s H.
    + now exists s.
    + destruct s as [|d s]; simpl in H; [discriminate|].
      apply andb_prop in H as [Hc Hs].
      apply N.eqb_eq in Hc; subst d.
      destruct (IH _ Hs) as [r ->].
      now exists r.
  - intros [r ->]; apply startswith_app.
Qed.

Lemma blank_app (a b : pystr) : blank a -> blank b -> blank (a ++ b).
Proof. unfold blank; intros; apply Forall_app; auto. Qed.

Lemma solid_app (a b : pystr) : solid a -> solid b -> solid (a ++ b).
Proof. unfold solid; intros; apply Forall_app; auto. Qed.

Lemma solidb_solid (s : pystr) :
  forallb (fun c => negb (Py.isspace c)) s = true -> solid s.
Proof.
  intros H. apply Forall_forall. intros c Hc.
  rewrite forallb_forall in H. apply negb_true_iff. now apply H.
Qed.

Lemma blankb_blank (s : pystr) : forallb Py.isspace s = true -> blank s.
Proof.
  intros H. apply Forall_forall. intros c Hc.
  rewrite forallb_forall in H. now apply H.
Qed.

Lemma split_from_nonempty (s tok : pystr) : tok <> [] -> Py.split_from tok s <> [].
Proof.
  revert tok; induction s as [|c s IH]; intros tok Htok; simpl.
  - destruct tok; [congruence | discriminate].
  - destruct (Py.isspace c).
    + destruct tok; [congruence | discriminate].
    + apply IH. now destruct tok.
Qed.

Lemma split_from_solid (t : pystr) :
  forall tok s, solid t -> Py.split_from tok (t ++ s) = Py.split_from (tok ++ t) s.
Proof.
  induction t as [|c t IH]; intros tok s Ht; simpl.
  - now rewrite app_nil_r.
  - inversion Ht as [|? ? Hc Ht']; subst.
    rewrite Hc, IH by assumption.
    now rewrite <- app_assoc.
Qed.

Lemma split_from_blank (ws s : pystr) :
  blank ws -> Py.split_from [] (ws ++ s) = Py.split s.
Proof.
  induction ws as [|c ws IH]; intros Hws; simpl; [reflexivity|].
  inversion Hws as [|? ? Hc Hws']; subst.
  rewrite Hc. now apply IH.
Qed.

Lemma split_from_detached (tok rest : pystr) :
  tok <> [] -> detached rest -> Py.split_from tok rest = tok :: Py.split rest.
Proof.
  intros Htok Hrest.
  destruct rest as [|c rest]; unfold Py.split; simpl in *.
  - now destruct tok.
  - rewrite Hrest. now destruct tok.
Qed.

Lemma split_blank (ws : pystr) : blank ws -> Py.split ws = [].
Proof.
  intros H. rewrite <- (app_nil_r ws).
  unfold Py.split at 1. now rewrite split_from_blank.
Qed.

(** [Py.split] computes the tokens, and they are unique. *)
Lemma Tokens_unique (s : pystr) (toks : list pystr) :
  Tokens s toks -> Py.split s = toks.
Proof.
  induction 1 as [ws Hws | ws tok rest toks Hws Hne Htok Hrest _ IH].
  - now apply split_blank.
  - unfold Py.split. rewrite split_from_blank by assumption.
    unfold Py.split. rewrite split_from_solid by assumption. simpl.
    rewrite split_from_detached by assumption.
    now rewrite IH.
Qed.

Lemma Tokens_blank_cons (c : Py.char) (s : pystr) (toks : list pystr) :
  Py.isspace c = true -> Tokens s toks -> Tokens (c :: s) toks.
Proof.
  intros Hc H. destruct H as [ws Hws | ws tok rest toks Hws Hne Htok Hrest H].
  - apply Tokens_nil. now constructor.
  - change (c :: ws ++ tok ++ rest) with ((c :: ws) ++ tok ++ rest).
    apply Tokens_cons; auto. now constructor.
Qed.

Lemma Tokens_split_from (s : pystr) :
  Tokens s (Py.split s)
  /\ forall tok, tok <> [] -> solid tok ->
       exists t1 rest toks,
         s = t1 ++ rest /\ solid t1 /\ detached rest /\ Tokens rest toks
         /\ Py.split_from tok s = (tok ++ t1) :: toks.
Proof.
  induction s as [|c s [IH1 IH2]].
  - split.
    + apply Tokens_nil; constructor.
    + intros tok Hne Htok. exists [], [], []. simpl.
      repeat split; try constructor.
      * constructor.
      * rewrite app_nil_r. now destruct tok.
  - destruct (isspace_cases c) as [Hc|Hc].
    + assert (H1 : Tokens (c :: s) (Py.split (c :: s))).
      { unfold Py.split; simpl; rewrite Hc. now apply Tokens_blank_cons. }
      split; [exact H1|].
      intros tok Hne Htok. exists [], (c :: s), (Py.split (c :: s)).
      simpl. rewrite Hc, app_nil_r.
      repeat split; auto; try constructor.
      unfold Py.split at 1; simpl; rewrite Hc. now destruct tok.
    + split.
      * unfold Py.split; simpl; rewrite Hc.
        destruct (IH2 [c]) as (t1 & rest & toks & -> & Ht1 & Hrest & Htoks & ->);
          [discriminate | now repeat constructor |].
        change (c :: t1 ++ rest) with ([] ++ (c :: t1) ++ rest). simpl ([c] ++ t1).
        apply Tokens_cons; auto; try discriminate; constructor; auto.
      * intros tok Hne Htok. simpl; rewrite Hc.
        destruct (IH2 (tok ++ [c])) as (t1 & rest & toks & -> & Ht1 & Hrest & Htoks & ->).
        { now destruct tok. }
        { apply solid_app; auto. now repeat constructor. }
        exists (c :: t1), rest, toks. rewrite <- app_assoc. simpl.
        repeat split; auto. now constructor.
Qed.

Lemma Tokens_split (s : pystr) : Tokens s (Py.split s).
Proof. apply Tokens_split_from. Qed.

Lemma split_app_closed_cons (p : pystr) (c : Py.char) :
  Py.isspace c = true ->
  forall tok s, Py.split_from tok ((p ++ [c]) ++ s) = Py.split_from tok (p ++ [c]) ++ Py.split s.
Proof.
  intros Hc. induction p as [|d p IH]; intros tok s; simpl.
  - rewrite Hc. now destruct tok.
  - destruct (Py.isspace d).
    + destruct tok; simpl; now rewrite IH.
    + apply IH.
Qed.

Lemma closed_cases (p : pystr) :
  closed p -> p = [] \/ exists q c, p = q ++ [c] /\ Py.isspace c = true.
Proof.
  unfold closed. intros H.
  destruct (rev p) as [|c q] eqn:E.
  - left. apply (f_equal (@rev _)) in E. now rewrite rev_involutive in E.
  - right. exists (rev q), c. split; [|exact H].
    apply (f_equal (@rev _)) in E. now rewrite rev_involutive in E.
Qed.

Lemma split_app_closed (p s : pystr) :
  closed p -> Py.split (p ++ s) = Py.split p ++ Py.split s.
Proof.
  intros H. destruct (closed_cases p H) as [-> | (q & c & -> & Hc)].
  - reflexivity.
  - now apply split_app_closed_cons.
Qed.

(** A token followed by the end of the line or by whitespace. *)
Lemma split_token (tok rest : pystr) :
  tok <> [] -> solid tok -> detached rest ->
  Py.split (tok ++ rest) = tok :: Py.split rest.
Proof.
  intros Hne Htok Hrest. unfold Py.split at 1.
  rewrite split_from_solid by assumption. simpl.
  now apply split_from_detached.
Qed.

Lemma getitem_last_app {A} (l : list A) (x : A) : getitem_last (l ++ [x]) = Ok x.
Proof. unfold getitem_last. now rewrite rev_app_distr. Qed.

Lemma getitem_last_nonempty {A} (l : list A) :
  l <> [] -> exists l' x, l = l' ++ [x] /\ getitem_last l = Ok x.
Proof.
  intros H. destruct (exists_last H) as (l' & x & ->).
  exists l', x. split; [reflexivity | apply getitem_last_app].
Qed.

Lemma split_on_no_sep (sep : Py.char) (l : pystr) :
  ~ In sep l -> Py.split_on sep l = [l].
Proof.
  induction l as [|c l IH]; intros H; simpl; [reflexivity|].
  destruct (N.eqb_spec c sep) as [->|_].
  - exfalso; apply H; now left.
  - rewrite IH; [reflexivity|]. intros Hin; apply H; now right.
Qed.

Lemma split_on_app_sep (sep : Py.char) (l rest : pystr) :
  ~ In sep l -> Py.split_on sep (l ++ sep :: rest) = l :: Py.split_on sep rest.
Proof.
  induction l as [|c l IH]; intros H; simpl.
  - now rewrite N.eqb_refl.
  - destruct (N.eqb_spec c sep) as [->|_].
    + exfalso; apply H; now left.
    + rewrite IH; [reflexivity|]. intros Hin; apply H; now right.
Qed.

Lemma split_on_nonempty (sep : Py.char) (s : pystr) : Py.split_on sep s <> [].
Proof.
  destruct s as [|c s]; simpl; [discriminate|].
  destruct (c =? sep)%N; [discriminate|].
  destruct (Py.split_on sep s); discriminate.
Qed.

(** [Py.split_on 10] computes the lines, and they are unique. *)
Lemma Lines_unique (output : pystr) (lines : list pystr) :
  Lines output lines -> Py.split_on 10%N output = lines.
Proof.
  intros (Hne & Hnl & ->).
  induction lines as [|l rest IH]; [congruence|].
  inversion Hnl as [|? ? Hl Hrest]; subst.
  destruct rest as [|l2 rest].
  - simpl. now apply split_on_no_sep.
  - change (join 10%N (l :: l2 :: rest)) with (l ++ 10%N :: join 10%N (l2 :: rest)).
    rewrite split_on_app_sep by assumption.
    rewrite IH; [reflexivity | discriminate | assumption].
Qed.

Lemma Lines_split_on (output : pystr) : Lines output (Py.split_on 10%N output).
Proof.
  unfold Lines. split; [apply split_on_nonempty|].
  induction output as [|c s [IH1 IH2]]; simpl.
  - split; [repeat constructor; auto | reflexivity].
  - destruct (N.eqb_spec c 10%N) as [->|Hc].
    + split; [constructor; auto|].
      pose proof (split_on_nonempty 10%N s) as Hne.
      destruct (Py.split_on 10%N s) as [|h t]; [congruence|].
      change (join 10%N ([] :: h :: t)) with (10%N :: join 10%N (h :: t)).
      now rewrite <- IH2.
    + pose proof (split_on_nonempty 10%N s) as Hne.
      destruct (Py.split_on 10%N s) as [|h t]; [congruence|].
      inversion IH1 as [|? ? Hh Ht]; subst.
      split.
      * constructor; auto. intros [E|Hin]; [now apply Hc | now apply Hh].
      * now destruct t.
Qed.

(** ** The loops that return the first match *)

Lemma parseAddress_loop_first (toks : list pystr) (address : pystr) :
  parseAddress_loop toks = Some address <-> first_such is_address toks address.
Proof.
  unfold first_such, is_address. split.
  - induction toks as [|tok toks IH]; cbn [parseAddress_loop parseDeployedAddress_loop forallb app]; [discriminate|].
    destruct (Py.startswith tok (py "0x")) eqn:E.
    + intros [= <-]. now exists [], toks.
    + intros H. destruct (IH H) as (before & after & -> & Ha & Hb).
      exists (tok :: before), after. cbn [forallb app]. now rewrite E.
  - intros (before & after & -> & Ha & Hb).
    induction before as [|tok before IH]; cbn [parseAddress_loop parseDeployedAddress_loop forallb app] in *.
    + now rewrite Ha.
    + apply andb_prop in Hb as [Htok Hb].
      apply negb_true_iff in Htok. rewrite Htok. now apply IH.
Qed.

Lemma parseAddress_loop_none (toks : list pystr) :
  parseAddress_loop toks = None <-> none_such is_address toks.
Proof.
  unfold none_such, is_address.
  induction toks as [|tok toks IH]; cbn [parseAddress_loop parseDeployedAddress_loop forallb app]; [tauto|].
  destruct (Py.startswith tok (py "0x")); cbn [parseAddress_loop parseDeployedAddress_loop forallb app]; [split; discriminate | exact IH].
Qed.

Lemma parseAddress_loop_app (before rest : list pystr) :
  none_such is_address before ->
  parseAddress_loop (before ++ rest) = parseAddress_loop rest.
Proof.
  unfold none_such, is_address.
  induction before as [|tok before IH]; cbn [parseAddress_loop parseDeployedAddress_loop forallb app]; [reflexivity|].
  intros H. apply andb_prop in H as [Htok Hb].
  apply negb_true_iff in Htok. rewrite Htok. now apply IH.
Qed.

Lemma parseDeployedAddress_loop_first (lines : list pystr) (line : pystr) :
  first_such is_deployed_line lines line ->
  parseDeployedAddress_loop lines = parseAddress line.
Proof.
  unfold first_such, is_deployed_line.
  intros (before & after & -> & Hl & Hb).
  induction before as [|l before IH]; cbn [parseAddress_loop parseDeployedAddress_loop forallb app] in *.
  - now rewrite Hl.
  - apply andb_prop in Hb as [Hl' Hb].
    apply negb_true_iff in Hl'. rewrite Hl'. now apply IH.
Qed.

Lemma parseDeployedAddress_loop_none (lines : list pystr) :
  none_such is_deployed_line lines -> parseDeployedAddress_loop lines = None.
Proof.
  unfold none_such, is_deployed_line.
  induction lines as [|l lines IH]; cbn [parseAddress_loop parseDeployedAddress_loop forallb app]; [reflexivity|].
  intros H. apply andb_prop in H as [Hl Hb].
  apply negb_true_iff in Hl. rewrite Hl. now apply IH.
Qed.

(** ** Output parsing *)

(** C6: [parseAddress] returns the first whitespace-separated token of the
    line that begins with ["0x"], and [None] exactly when no token does.  In
    particular, on a line that reads ["Deployed to:"], whitespace, and an
    address token, after tokens of which none begins with ["0x"], it returns
    the address token. *)
Theorem parseAddress_first_0x_token (line : pystr) (toks : list pystr) :
  Tokens line toks ->
  (forall address,
      parseAddress line = Some address <-> first_such is_address toks address)
  /\ (parseAddress line = None <-> none_such is_address toks)
  /\ (forall preceding ptoks gap address rest,
        line = preceding ++ py "Deployed to:" ++ gap ++ address ++ rest ->
        closed preceding -> Tokens preceding ptoks ->
        none_such is_address ptoks ->
        gap <> [] -> blank gap ->
        solid address -> is_address address = true -> detached rest ->
        parseAddress line = Some address).
Proof.
  intros Htoks. unfold parseAddress.
  rewrite (Tokens_unique Htoks).
  split; [intros; apply parseAddress_loop_first|].
  split; [apply parseAddress_loop_none|].
  intros preceding ptoks gap address rest -> Hclosed Hptoks Hnone Hgap Hblank
         Hsolid Haddr Hrest.
  rewrite <- (Tokens_unique Htoks).
  rewrite split_app_closed by assumption.
  rewrite (Tokens_unique Hptoks).
  rewrite parseAddress_loop_app by assumption.
  assert (Ha : address <> []) by (intros ->; discriminate).
  assert (Htok : Tokens (py "Deployed to:" ++ gap ++ address ++ rest)
                   (py "Deployed" :: py "to:" :: address :: Py.split rest)).
  { change (py "Deployed to:" ++ gap ++ address ++ rest)
      with ([] ++ py "Deployed"
               ++ ([32%N] ++ py "to:" ++ (gap ++ address ++ rest))).
    apply Tokens_cons.
    - constructor.
    - discriminate.
    - apply solidb_solid. reflexivity.
    - reflexivity.
    - apply Tokens_cons.
      + apply blankb_blank. reflexivity.
      + discriminate.
      + apply solidb_solid. reflexivity.
      + destruct gap as [|c gap]; [congruence|]. now inversion Hblank.
      + apply Tokens_cons; auto. apply Tokens_split. }
  rewrite (Tokens_unique Htok). cbn [parseAddress_loop].
  change (Py.startswith (py "Deployed") (py "0x")) with false.
  change (Py.startswith (py "to:") (py "0x")) with false. cbn iota.
  unfold is_address in Haddr. now rewrite Haddr.
Qed.

(** C7: [parseDeployedAddress] returns [None] when no line of the output
    begins with ["Deployed to:"], and otherwise what [parseAddress] returns
    on the first line that does. *)
Theorem parseDeployedAddress_first_marker_line (output : pystr)
    (lines : list pystr) :
  Lines output lines ->
  (none_such is_deployed_line lines -> parseDeployedAddress output = None)
  /\ (forall line,
        first_such is_deployed_line lines line ->
        parseDeployedAddress output = parseAddress line).
Proof.
  intros Hlines. unfold parseDeployedAddress.
  rewrite (Lines_unique Hlines). split.
  - apply parseDeployedAddress_loop_none.
  - intros line. apply parseDeployedAddress_loop_first.
Qed.

(** ** Facts on [find] and slices *)

Lemma skipn_length_app {A} (a b : list A) : skipn (length a) (a ++ b) = b.
Proof. induction a; simpl; auto. Qed.

Lemma firstn_length_app {A} (a b : list A) : firstn (length a) (a ++ b) = a.
Proof. induction a; simpl; congruence. Qed.

Lemma find_at_here (i : Z) (sub s : pystr) :
  Py.startswith s sub = true -> Py.find_at i sub s = i.
Proof. destruct s; cbn [Py.find_at]; now intros ->. Qed.

Lemma find_from_start (s sub : pystr) : Py.find s sub 0 = Py.find_at 0 sub s.
Proof.
  unfold Py.find. cbn [Z.ltb Z.compare].
  destruct (Z.ltb_spec (Z.of_nat (length s)) 0); [lia | reflexivity].
Qed.

Lemma find_from_prefix (a rest sub : pystr) :
  Py.find (a ++ rest) sub (Z.of_nat (length a))
  = Py.find_at (Z.of_nat (length a)) sub rest.
Proof.
  unfold Py.find.
  destruct (Z.ltb_spec (Z.of_nat (length a)) 0); [lia|].
  rewrite length_app.
  destruct (Z.ltb_spec (Z.of_nat (length a + length rest)) (Z.of_nat (length a))); [lia|].
  now rewrite Nat2Z.id, skipn_length_app.
Qed.

Lemma slice_prefix (a rest : pystr) :
  Py.slice (a ++ rest) None (Some (Z.of_nat (length a))) = a.
Proof.
  unfold Py.slice, Py.slice_index.
  destruct (Z.ltb_spec (Z.of_nat (length a)) 0); [lia|].
  rewrite length_app, Z.min_l by lia.
  rewrite Z.sub_0_r, Nat2Z.id. change (Z.to_nat 0) with 0%nat. cbn [skipn].
  apply firstn_length_app.
Qed.

(** [s[1:-1]] drops the first and the last character. *)
Lemma slice_inner (s : pystr) :
  Py.slice s (Some 1%Z) (Some (-1)%Z) = removelast (tl s).
Proof.
  destruct s as [|c s]; [reflexivity|].
  induction s as [|e inner _] using rev_ind; [reflexivity|].
  cbn [tl]. rewrite removelast_last.
  unfold Py.slice, Py.slice_index. cbv zeta.
  change ((1 <? 0)%Z) with false. change ((-1 <? 0)%Z) with true. cbv iota.
  cbn [length]. rewrite length_app. cbn [length].
  rewrite Z.min_l, Z.max_l by lia.
  replace (Z.to_nat (-1 + Z.of_nat (S (length inner + 1)) - 1))
    with (length inner) by lia.
  change (Z.to_nat 1) with 1%nat. cbn [skipn].
  apply firstn_length_app.
Qed.

Lemma startswith_commit_false (v rest : pystr) :
  ~ occurs (py "commit") v ->
  Py.startswith (v ++ py "+commit" ++ rest) (py "commit") = false.
Proof.
  intros Hno. destruct (Py.startswith _ _) eqn:E; [|reflexivity].
  exfalso. apply startswith_iff in E as [r E].
  change (py "+commit") with [43; 99; 111; 109; 109; 105; 116]%N in E.
  change (py "commit") with [99; 111; 109; 109; 105; 116]%N in E.
  destruct v as [|a [|b [|c [|d [|e [|f v]]]]]]; cbn [app] in E;
    try discriminate E.
  injection E as -> -> -> -> -> -> _.
  apply Hno. exists [], v. reflexivity.
Qed.

Lemma occurs_tail (sub : pystr) (c : Py.char) (v : pystr) :
  ~ occurs sub (c :: v) -> ~ occurs sub v.
Proof. intros H (p & q & ->). apply H. now exists (c :: p), q. Qed.

Lemma find_at_commit (version : pystr) :
  forall i rest,
    ~ occurs (py "commit") version ->
    Py.find_at i (py "commit") (version ++ py "+commit" ++ rest)
    = (i + Z.of_nat (length version) + 1)%Z.
Proof.
  induction version as [|c v IH]; intros i rest Hno.
  - pose proof (startswith_commit_false rest Hno) as E.
    change (py "+commit") with (43%N :: py "commit") in *.
    cbn [app Py.find_at] in *. rewrite E.
    rewrite find_at_here by apply startswith_app.
    cbn [length]. lia.
  - pose proof (startswith_commit_false rest Hno) as E.
    cbn [app Py.find_at] in *. rewrite E.
    rewrite IH by (eapply occurs_tail; eassumption).
    cbn [length]. lia.
Qed.

Lemma find_at_dot (sha : pystr) :
  forall i rest,
    ~ In 46%N sha ->
    Py.find_at i (py ".") (sha ++ 46%N :: rest) = (i + Z.of_nat (length sha))%Z.
Proof.
  change (py ".") with [46%N].
  induction sha as [|c sha IH]; intros i rest Hno; cbn [app Py.find_at Py.startswith].
  - rewrite N.eqb_refl. cbn. lia.
  - destruct (N.eqb_spec c 46%N) as [->|_].
    + exfalso. apply Hno. now left.
    + cbn [andb]. rewrite IH by (intros Hin; apply Hno; now right).
      cbn [length]. lia.
Qed.

Lemma blank_detached (s : pystr) : blank s -> detached s.
Proof. destruct s; [easy|]. now inversion 1. Qed.

(** C5: on the line of the comment above [parseCompilerVersion] the result is
    ["v0.8.13+commit.abaa5c0e"]; and on every line whose last token reads
    [<version>+commit.<sha>.<platform>.<toolchain>], where ["commit"] does not
    occur in the version and the sha has no dot, the result is ["v"] and the
    token up to the dot that ends the sha. *)
Theorem parseCompilerVersion_commit_segment :
  parseCompilerVersion
    (py "... Version: 0.8.13+commit.abaa5c0e.Darwin.appleclang")
  = Ok (py "v0.8.13+commit.abaa5c0e")
  /\ forall before version sha platform toolchain trailing,
       closed before -> blank trailing ->
       solid version -> solid sha -> solid platform -> solid toolchain ->
       ~ occurs (py "commit") version -> ~ In 46%N sha ->
       parseCompilerVersion
         (before
          ++ (version ++ py "+commit." ++ sha ++ py "." ++ platform
                ++ py "." ++ toolchain)
          ++ trailing)
       = Ok (py "v" ++ version ++ py "+commit." ++ sha).
Proof.
  split; [reflexivity|].
  intros before version sha platform toolchain trailing Hbefore Htrailing
         Hversion Hsha Hplatform Htoolchain Hcommit Hdot.
  set (rest := py "." ++ platform ++ py "." ++ toolchain).
  set (token := version ++ py "+commit." ++ sha ++ rest).
  assert (Hne : token <> []).
  { unfold token. destruct version; discriminate. }
  assert (Hsolid : solid token).
  { unfold token, rest. repeat apply solid_app; auto; now repeat constructor. }
  unfold parseCompilerVersion.
  rewrite split_app_closed by assumption.
  rewrite split_token by (auto using blank_detached).
  rewrite (split_blank Htrailing).
  rewrite getitem_last_app.
  rewrite find_from_start.
  assert (E1 : Py.find_at 0 (py "commit") token
               = (Z.of_nat (length version) + 1)%Z).
  { unfold token. change (py "+commit.") with (py "+commit" ++ py ".").
    rewrite <- (app_assoc (py "+commit")).
    rewrite find_at_commit by assumption. lia. }
  rewrite E1.
  replace (Z.of_nat (length version) + 1 + Z.of_nat (length (py "commit")) + 1)%Z
    with (Z.of_nat (length (version ++ py "+commit."))).
  2:{ rewrite length_app. change (length (py "+commit.")) with 8%nat.
      change (length (py "commit")) with 6%nat. lia. }
  assert (E2 : token = (version ++ py "+commit.") ++ sha ++ rest).
  { unfold token. now rewrite <- app_assoc. }
  assert (E4 : Py.find token (py ".")
                 (Z.of_nat (length (version ++ py "+commit.")))
               = Z.of_nat (length ((version ++ py "+commit.") ++ sha))).
  { rewrite E2, find_from_prefix. unfold rest.
    change (py "." ++ platform ++ py "." ++ toolchain)
      with (46%N :: platform ++ py "." ++ toolchain).
    rewrite find_at_dot by assumption.
    now rewrite <- Nat2Z.inj_add, <- length_app. }
  rewrite E4.
  assert (E3 : token = ((version ++ py "+commit.") ++ sha) ++ rest).
  { rewrite E2. apply app_assoc. }
  rewrite E3, slice_prefix.
  now rewrite <- (app_assoc version).
Qed.

(** ** Facts on the loops that keep the last match *)

Lemma fold_last_such {A B} (p : A -> bool) (f : A -> B) (l : list A)
    (init : B) (x : A) :
  last_such p l x ->
  fold_left (fun acc y => if p y then f y else acc) l init = f x.
Proof.
  intros (before & after & -> & Hx & Hafter).
  rewrite fold_left_app. cbn [fold_left]. rewrite Hx.
  generalize (fold_left (fun acc y => if p y then f y else acc) before init).
  intros _. induction after as [|y after IH]; cbn [fold_left forallb] in *.
  - reflexivity.
  - apply andb_prop in Hafter as [Hy Hafter].
    apply negb_true_iff in Hy. rewrite Hy. now apply IH.
Qed.

Lemma fold_none_such {A B} (p : A -> bool) (f : A -> B) (l : list A)
    (init : B) :
  none_such p l ->
  fold_left (fun acc y => if p y then f y else acc) l init = init.
Proof.
  unfold none_such. induction l as [|y l IH]; cbn [fold_left forallb].
  - reflexivity.
  - intros H. apply andb_prop in H as [Hy Hl].
    apply negb_true_iff in Hy. rewrite Hy. now apply IH.
Qed.

Lemma lstrip_split_nonempty (s : pystr) : Py.lstrip s <> [] -> Py.split s <> [].
Proof.
  unfold Py.split. induction s as [|c s IH]; cbn [Py.lstrip Py.split_from].
  - congruence.
  - destruct (Py.isspace c); [exact IH|].
    intros _. now apply split_from_nonempty.
Qed.

(** A line whose trimmed form begins with ["GUID:"] has a last token. *)
Lemma guid_line_last_token (line : pystr) :
  is_guid_line line = true ->
  exists toks token,
    Py.split line = toks ++ [token]
    /\ getitem_last (Py.split line) = Ok token
    /\ last (Py.split line) [] = token.
Proof.
  unfold is_guid_line, Py.strip, Py.rstrip. intros H.
  assert (Hne : Py.split line <> []).
  { apply lstrip_split_nonempty. intros E. rewrite E in H. discriminate H. }
  destruct (getitem_last_nonempty Hne) as (toks & token & E & Hlast).
  exists toks, token. rewrite Hlast, E, last_last. auto.
Qed.

(** ** Running the script *)

Section Runs.

Variable popen_stdout : trace -> pystr.
Variable g : globals.

Lemma bind_ok {A B} (m : M A) (f : A -> M B) (t t' : trace) (a : A) :
  m t = (Ok a, t') -> bind m f t = f a t'.
Proof. unfold bind. now intros ->. Qed.

Lemma bind_raise {A B} (m : M A) (f : A -> M B) (t t' : trace) (e : exn) :
  m t = (Raise e, t') -> bind m f t = (Raise e, t').
Proof. unfold bind. now intros ->. Qed.

(** A loop whose body prints the line and updates the accumulator. *)
Lemma for_each_printing {S} (body : pystr -> S -> M S) (f : S -> pystr -> S) :
  (forall line acc t, body line acc t = (Ok (f acc line), t ++ [Print (Text line)])) ->
  forall lines acc t,
    for_each lines body acc t
    = (Ok (fold_left f lines acc), t ++ map (fun line => Print (Text line)) lines).
Proof.
  intros Hbody. induction lines as [|line lines IH]; intros acc t.
  - cbn. now rewrite app_nil_r.
  - cbn [for_each fold_left map].
    rewrite (@bind_ok _ _ _ _ _ _ _ (Hbody line acc t)), IH.
    now rewrite <- app_assoc.
Qed.

Lemma getitem_last_contract (contract : pystr) :
  getitem_last (Py.split_on 58%N contract) = Ok (contract_name contract).
Proof.
  unfold contract_name.
  destruct (getitem_last_nonempty (split_on_nonempty 58%N contract))
    as (l & x & E & ->).
  now rewrite E, last_last.
Qed.

Lemma all_str_cons_inv (a : value) (args : list value) (strs : list pystr) :
  all_str (a :: args) = Some strs ->
  exists s rest, a = Some s /\ all_str args = Some rest /\ strs = s :: rest.
Proof.
  cbn [all_str]. destruct a as [s|]; [|discriminate].
  destruct (all_str args) as [rest|]; [|discriminate].
  intros [= <-]. now exists s, rest.
Qed.

(** One deployment whose arguments are all strings: the process is started,
    its lines are printed, and the address the loop ends with is
    returned. *)
Lemma deploy_contract_run (contract : pystr) (cargs : list value)
    (strs : list pystr) (pk : pystr) (t : trace) :
  PK g = Some pk -> all_str cargs = Some strs ->
  deploy_contract popen_stdout g contract cargs t
  = (Ok (scan_deployed
           (Py.readlines (deployment_output popen_stdout g pk contract strs t))),
     t ++ deployment_events g pk contract strs
            (deployment_output popen_stdout g pk contract strs t)).
Proof.
  intros Hpk Hargs. unfold deploy_contract.
  rewrite Hpk, getitem_last_contract.
  unfold lift at 1. cbn [bind].
  unfold print at 1, emit. cbn [bind].
  set (args := if (0 <? length cargs)%nat then _ else _).
  assert (E : all_str args = Some (deploy_argv g pk contract strs)).
  { unfold args, deploy_argv. destruct cargs as [|a cargs].
    - injection Hargs as <-. reflexivity.
    - apply all_str_cons_inv in Hargs as (s & rest & -> & Hrest & ->).
      cbn [length Nat.ltb Nat.leb app all_str]. now rewrite Hrest. }
  unfold with_Popen. rewrite E.
  unfold deployment_output, deployment_events.
  rewrite <- app_assoc. cbn [app].
  set (t1 := t ++ _ :: _ :: nil).
  unfold print at 1, emit. cbn [bind].
  rewrite for_each_printing
    with (f := fun address line =>
                 if Py.startswith line (py "Deployed to:")
                 then parseAddress line else address).
  - unfold scan_deployed, t1. f_equal.
    repeat rewrite <- app_assoc. reflexivity.
  - intros line acc t0. unfold print, emit. cbn [bind].
    now destruct (Py.startswith line (py "Deployed to:")).
Qed.

(** One verification of a deployed address. *)
Lemma verify_contract_run (optimizer_runs : tomlval)
    (compiler_version address contract : pystr) (encoded : value) (t : trace) :
  let out :=
    verification_output popen_stdout g optimizer_runs compiler_version address
      contract encoded t in
  let argv :=
    verify_argv g optimizer_runs compiler_version address contract encoded in
  verify_contract popen_stdout g optimizer_runs compiler_version
    (Some address) contract encoded t
  = (Ok (scan_guid (Py.readlines out)),
     t ++ [Print (Text (py "Verifying " ++ contract_name contract ++ py "..."));
           Spawn Here argv]
       ++ map (fun line => Print (Text line)) (Py.readlines out)
       ++ [Wait Here argv]).
Proof.
  intros out argv. unfold verify_contract.
  rewrite getitem_last_contract.
  unfold lift at 1. cbn [bind].
  unfold print at 1, emit. cbn [bind].
  set (args := if truthy encoded then _ else _).
  assert (E : all_str args = Some argv).
  { unfold args, argv, verify_argv.
    destruct encoded as [[|c e]|]; reflexivity. }
  unfold with_Popen. rewrite E.
  fold argv. unfold out, verification_output. fold argv.
  rewrite <- app_assoc. cbn [app].
  set (t1 := t ++ _ :: _ :: nil).
  rewrite for_each_printing
    with (f := fun guid line =>
                 if Py.startswith (Py.strip line) (py "GUID:")
                 then Py.slice (last (Py.split line) []) (Some 1%Z) (Some (-1)%Z)
                 else guid).
  - unfold scan_guid, t1. f_equal.
    repeat rewrite <- app_assoc. reflexivity.
  - intros line acc t0. unfold print, emit. cbn [bind].
    destruct (Py.startswith (Py.strip line) (py "GUID:")) eqn:Hguid; [|reflexivity].
    destruct (guid_line_last_token line Hguid) as (toks & token & _ & -> & ->).
    reflexivity.
Qed.

End Runs.

(** ** Deployment and verification of one contract *)

(** C4, as the code has it: [deploy_contract] returns what [parseAddress]
    gives on the last line of the process output that begins with
    ["Deployed to:"], and the empty string when no line does. *)
Theorem deploy_contract_last_marker_line (popen_stdout : trace -> pystr)
    (g : globals) (contract : pystr) (cargs : list value)
    (strs : list pystr) (pk : pystr) (t : trace) :
  PK g = Some pk -> all_str cargs = Some strs ->
  let lines :=
    Py.readlines (deployment_output popen_stdout g pk contract strs t) in
  let returned := fst (deploy_contract popen_stdout g contract cargs t) in
  (forall line,
      last_such is_deployed_line lines line -> returned = Ok (parseAddress line))
  /\ (none_such is_deployed_line lines -> returned = Ok (Some [])).
Proof.
  intros Hpk Hargs lines returned. unfold returned.
  rewrite (@deploy_contract_run popen_stdout g contract cargs strs pk t Hpk Hargs).
  cbn [fst]. fold lines. unfold scan_deployed. split.
  - intros line Hline. f_equal.
    exact (@fold_last_such _ _ is_deployed_line parseAddress lines (Some []) line Hline).
  - intros Hnone. f_equal.
    exact (@fold_none_such _ _ is_deployed_line parseAddress lines (Some []) Hnone).
Qed.

Lemma quoted_token_line (indent gap identifier trailing : pystr) :
  blank indent -> gap <> [] -> blank gap -> solid identifier -> blank trailing ->
  Tokens (indent ++ py "GUID:" ++ gap ++ [34%N] ++ identifier ++ [34%N] ++ trailing)
         [py "GUID:"; 34%N :: identifier ++ [34%N]].
Proof.
  intros Hindent Hne Hgap Hid Htrailing.
  apply Tokens_cons; auto.
  - discriminate.
  - now repeat constructor.
  - destruct gap as [|c gap]; [congruence|]. now inversion Hgap.
  - replace ([34%N] ++ identifier ++ [34%N] ++ trailing)
      with ((34%N :: identifier ++ [34%N]) ++ trailing)
      by (cbn [app]; now rewrite <- app_assoc).
    apply Tokens_cons; auto using blank_detached.
    + discriminate.
    + constructor; [reflexivity|]. apply solid_app; auto. now repeat constructor.
    + now apply Tokens_nil.
Qed.

(** C8: when the last line of the verification output whose trimmed form
    begins with ["GUID:"] reads [GUID: "abc123"], [verify_contract] returns
    [abc123]; and so for every identifier without whitespace between the
    quotes. *)
Theorem verify_contract_quoted_guid (popen_stdout : trace -> pystr)
    (g : globals) (optimizer_runs : tomlval)
    (compiler_version address contract : pystr) (encoded : value) (t : trace) :
  let lines :=
    Py.readlines
      (verification_output popen_stdout g optimizer_runs compiler_version
         address contract encoded t) in
  let returned :=
    fst (verify_contract popen_stdout g optimizer_runs compiler_version
           (Some address) contract encoded t) in
  (forall trailing,
      blank trailing ->
      last_such is_guid_line lines
        (py "  GUID: " ++ [34%N] ++ py "abc123" ++ [34%N] ++ trailing) ->
      returned = Ok (py "abc123"))
  /\ (forall indent gap identifier trailing,
        blank indent -> gap <> [] -> blank gap -> solid identifier ->
        blank trailing ->
        last_such is_guid_line lines
          (indent ++ py "GUID:" ++ gap ++ [34%N] ++ identifier ++ [34%N]
             ++ trailing) ->
        returned = Ok identifier).
Proof.
  intros lines returned.
  assert (General : forall indent gap identifier trailing,
        blank indent -> gap <> [] -> blank gap -> solid identifier ->
        blank trailing ->
        last_such is_guid_line lines
          (indent ++ py "GUID:" ++ gap ++ [34%N] ++ identifier ++ [34%N]
             ++ trailing) ->
        returned = Ok identifier).
  { intros indent gap identifier trailing Hindent Hne Hgap Hid Htrailing Hline.
    unfold returned. rewrite verify_contract_run. cbn [fst]. fold lines.
    unfold scan_guid.
    f_equal. etransitivity.
    { exact (@fold_last_such _ _ is_guid_line
               (fun line => Py.slice (last (Py.split line) []) (Some 1%Z) (Some (-1)%Z))
               lines [] _ Hline). }
    rewrite (Tokens_unique (quoted_token_line Hindent Hne Hgap Hid Htrailing)).
    cbn [last]. rewrite slice_inner. cbn [tl].
    now rewrite removelast_last. }
  split; [|exact General].
  intros trailing Htrailing Hline.
  apply (General (py "  ") (py " ") (py "abc123") trailing); auto.
  - now repeat constructor.
  - discriminate.
  - now repeat constructor.
  - now repeat constructor.
Qed.

(** C10: [verify_contract] returns the last token of the last line whose
    trimmed form begins with ["GUID:"], without its first and its last
    character, whatever they are: a line [GUID: abc123] gives [bc12]. *)
Theorem verify_contract_last_token_trimmed (popen_stdout : trace -> pystr)
    (g : globals) (optimizer_runs : tomlval)
    (compiler_version address contract : pystr) (encoded : value) (t : trace) :
  let lines :=
    Py.readlines
      (verification_output popen_stdout g optimizer_runs compiler_version
         address contract encoded t) in
  let returned :=
    fst (verify_contract popen_stdout g optimizer_runs compiler_version
           (Some address) contract encoded t) in
  (forall line,
      last_such is_guid_line lines line ->
      exists toks token,
        Tokens line (toks ++ [token])
        /\ returned = Ok (removelast (tl token)))
  /\ (forall trailing,
        blank trailing ->
        last_such is_guid_line lines (py "GUID: abc123" ++ trailing) ->
        returned = Ok (py "bc12"))
  /\ (forall before first between second after toks token,
        lines = before ++ first :: between ++ second :: after ->
        is_guid_line first = true -> is_guid_line second = true ->
        none_such is_guid_line after ->
        Tokens second (toks ++ [token]) ->
        returned = Ok (removelast (tl token))).
Proof.
  intros lines returned.
  assert (Last : forall line toks token,
             last_such is_guid_line lines line ->
             Tokens line (toks ++ [token]) ->
             returned = Ok (removelast (tl token))).
  { intros line toks token Hline Htoks.
    unfold returned. rewrite verify_contract_run. cbn [fst]. fold lines.
    unfold scan_guid.
    f_equal. etransitivity.
    { exact (@fold_last_such _ _ is_guid_line
               (fun line => Py.slice (last (Py.split line) []) (Some 1%Z) (Some (-1)%Z))
               lines [] _ Hline). }
    now rewrite (Tokens_unique Htoks), last_last, slice_inner. }
  split; [|split].
  - intros line Hline.
    destruct Hline as (before & after & E & Hguid & Hafter).
    destruct (guid_line_last_token line Hguid) as (toks & token & Hsplit & _).
    exists toks, token.
    assert (Htoks : Tokens line (toks ++ [token])).
    { rewrite <- Hsplit. apply Tokens_split. }
    split; [exact Htoks|].
    apply (Last line toks token); [|exact Htoks].
    now exists before, after.
  - intros trailing Htrailing Hline.
    apply (Last _ [py "GUID:"] (py "abc123") Hline).
    change (py "GUID: abc123" ++ trailing)
      with ([] ++ py "GUID:" ++ (32%N :: py "abc123" ++ trailing)).
    apply Tokens_cons; try (now repeat constructor); try discriminate.
    change (32%N :: py "abc123" ++ trailing)
      with ([32%N] ++ py "abc123" ++ trailing).
    apply Tokens_cons; try (now repeat constructor); try discriminate.
    now apply blank_detached.
  - intros before first between second after toks token E _ Hsecond Hafter Htoks.
    apply (Last second toks token); [|exact Htoks].
    exists (before ++ first :: between), after.
    rewrite <- app_assoc. auto.
Qed.

(** ** Start-up and status check *)

Lemma eqb_eq (a b : pystr) : Py.eqb a b = true <-> a = b.
Proof.
  unfold Py.eqb. destruct (list_eq_dec N.eq_dec a b); split; congruence.
Qed.

Lemma dict_get_absent {V} (d : dict V) (k : pystr) :
  ~ In k (map fst d) -> dict_get d k = None.
Proof.
  induction d as [|[k' v] d IH]; cbn [dict_get map fst In]; [reflexivity|].
  intros H. destruct (Py.eqb k' k) eqn:E.
  - apply eqb_eq in E. exfalso. apply H. now left.
  - apply IH. intros Hin. apply H. now right.
Qed.

Lemma network_argument_second (script net : pystr) (rest : list pystr) :
  network_argument (script :: net :: rest) = net.
Proof. reflexivity. Qed.

(** C3: with a network argument that is not a key of [CHAIN_IDS] the script
    ends with an exception and the trace is as it was: nothing was printed
    and no process was started.  When [foundry.toml] loads, the exception is
    the [KeyError] of the lookup in line 33; when it does not, it is the
    failure of [toml.load] in line 16. *)
Theorem unknown_network_fails_before_any_process
    (popen_stdout : trace -> pystr)
    (check_output_stdout : trace -> option pystr) (e : environ) (t : trace)
    (script net : pystr) (rest : list pystr) :
  sys_argv e = script :: net :: rest ->
  ~ In net [py "mainnet"; py "ropsten"; py "rinkeby"; py "goerli"] ->
  map fst CHAIN_IDS = [py "mainnet"; py "ropsten"; py "rinkeby"; py "goerli"]
  /\ (exists err, main popen_stdout check_output_stdout e t = (Raise err, t))
  /\ (foundry_toml e <> None ->
      main popen_stdout check_output_stdout e t = (Raise (KeyError net), t))
  /\ (foundry_toml e = None ->
      main popen_stdout check_output_stdout e t = (Raise TomlLoadError, t)).
Proof.
  intros Hargv Hnet.
  assert (Hkeys : map fst CHAIN_IDS
                  = [py "mainnet"; py "ropsten"; py "rinkeby"; py "goerli"])
    by reflexivity.
  assert (Hget : getitem CHAIN_IDS net = Raise (KeyError net)).
  { unfold getitem. rewrite dict_get_absent; [reflexivity|]. now rewrite Hkeys. }
  assert (Hstart : forall config,
             foundry_toml e = Some config ->
             main popen_stdout check_output_stdout e t = (Raise (KeyError net), t)).
  { intros config Hconfig. unfold main, startup.
    rewrite Hconfig, Hargv, network_argument_second, Hget. reflexivity. }
  split; [exact Hkeys|]. split.
  - destruct (foundry_toml e) as [config|] eqn:Hconfig.
    + exists (KeyError net). now apply (Hstart config).
    + exists TomlLoadError. unfold main, startup. now rewrite Hconfig.
  - split.
    + destruct (foundry_toml e) as [config|]; [intros _|congruence].
      now apply (Hstart config).
    + intros Hconfig. unfold main, startup. now rewrite Hconfig.
Qed.

(** The loop that only prints the lines. *)
Lemma for_each_print_lines (lines : list pystr) (t : trace) :
  for_each lines (fun line (_ : unit) => print (Text line)) tt t
  = (Ok tt, t ++ map (fun line => Print (Text line)) lines).
Proof.
  rewrite for_each_printing with (f := fun _ _ => tt).
  - f_equal. f_equal. now induction lines.
  - intros line [] t0. reflexivity.
Qed.

Lemma all_str_firstn (args : list value) (argv prefix : list pystr) :
  all_str args = Some argv ->
  firstn (length prefix) args = map Some prefix ->
  firstn (length prefix) argv = prefix.
Proof.
  revert args argv. induction prefix as [|p prefix IH]; intros args argv Hall Hfirst.
  - reflexivity.
  - destruct args as [|a args]; [discriminate|].
    cbn [length firstn map] in Hfirst. injection Hfirst as -> Hfirst.
    apply all_str_cons_inv in Hall as (s & rest & [= <-] & Hrest & ->).
    cbn [length firstn]. f_equal. now apply (IH args).
Qed.

Lemma with_Popen_print_lines (popen_stdout : trace -> pystr)
    (args : list value) (argv : list pystr) (t : trace) :
  all_str args = Some argv ->
  with_Popen popen_stdout Here args
    (fun _ stdout => for_each stdout (fun line (_ : unit) => print (Text line)) tt) t
  = (Ok tt,
     t ++ [Spawn Here argv]
       ++ map (fun line => Print (Text line))
            (Py.readlines (popen_stdout (t ++ [Spawn Here argv])))
       ++ [Wait Here argv]).
Proof.
  intros Hargs. unfold with_Popen. rewrite Hargs. cbv beta zeta.
  rewrite for_each_print_lines. now repeat rewrite <- app_assoc.
Qed.

Lemma with_Popen_type_error {A} (popen_stdout : trace -> pystr)
    (cwd : workdir) (args : list value)
    (body : list pystr -> list pystr -> M A) (t : trace) :
  all_str args = None ->
  with_Popen popen_stdout cwd args body t = (Raise TypeError, t).
Proof. intros Hargs. unfold with_Popen. now rewrite Hargs. Qed.

(** Every process [check_verfication_status] starts is [forge verify-check
    --chain-id <chain_id>]. *)
Lemma check_verfication_status_spawns (popen_stdout : trace -> pystr)
    (g : globals) (keys : list pystr) :
  forall t,
  exists added,
    snd (check_verfication_status_loop popen_stdout g keys t) = t ++ added
    /\ Forall (spawns_with [py "forge"; py "verify-check"; py "--chain-id";
                            Py.str_of_Z (chain_id g)]) added.
Proof.
  induction keys as [|key keys IH]; intros t.
  - exists []. cbn. now rewrite app_nil_r.
  - cbn [check_verfication_status_loop].
    destruct (unpack_pair key) as [[k v]|err] eqn:Hkey.
    + unfold lift at 1. cbn [bind fst].
      unfold print at 1, emit. cbn [bind].
      destruct (all_str (verify_check_args g k)) as [argv|] eqn:Hargs.
      * rewrite (@bind_ok _ _ _ _ _ _ _
                   (@with_Popen_print_lines popen_stdout _ argv _ Hargs)).
        match goal with
        | |- context [check_verfication_status_loop _ _ _ ?t1] =>
            destruct (IH t1) as (added & -> & Hadded)
        end.
        eexists. split.
        { repeat rewrite <- app_assoc. reflexivity. }
        constructor; [exact I|]. constructor.
        { apply (@all_str_firstn (verify_check_args g k) argv
                   [py "forge"; py "verify-check"; py "--chain-id";
                    Py.str_of_Z (chain_id g)] Hargs).
          reflexivity. }
        apply Forall_app. split.
        { apply Forall_forall. intros x Hx.
          apply in_map_iff in Hx as (line & <- & _). exact I. }
        constructor; [exact I | exact Hadded].
      * rewrite (@bind_raise _ _ _ _ _ _ _
                   (@with_Popen_type_error _ popen_stdout Here _ _ _ Hargs)).
        exists [Print (Text (py "Verification status for " ++ k ++ py "..."))].
        split; [reflexivity | now repeat constructor].
    + exists []. cbn. now rewrite app_nil_r.
Qed.

(** C2: on a tracking map as [verify_contracts] builds it the loop of
    [check_verfication_status] raises [ValueError] at its first key, since it
    iterates over the keys and unpacks each into [k, v]; nothing is printed
    and no process is started. *)
Theorem check_verfication_status_unpacks_keys (popen_stdout : trace -> pystr)
    (g : globals) (t : trace) (g1 g2 g3 g4 g5 g6 g7 g8 : pystr) :
  check_verfication_status popen_stdout g
    [(py "fixedPriceStrategy", g1); (py "currencyManager", g2);
     (py "executionManager", g3); (py "receiptToken", g4);
     (py "exchange", g5); (py "transferManagerERC721", g6);
     (py "transferManagerERC1155", g7); (py "transferSelector", g8)] t
  = (Raise ValueError, t).
Proof. reflexivity. Qed.

(** With a key of two characters the loop runs, and the command line gets
    the first character of the key where the identifier belongs. *)
Example check_verfication_status_two_character_key :
  check_verfication_status (canned []) sample_globals
    [(py "ab", py "identifier")] []
  = (Ok tt,
     [Print (Text (py "Verification status for a..."));
      Spawn Here [py "forge"; py "verify-check"; py "--chain-id"; py "5";
                  py "a"; py "etherscan-key"];
      Wait Here [py "forge"; py "verify-check"; py "--chain-id"; py "5";
                 py "a"; py "etherscan-key"]]).
Proof. reflexivity. Qed.

(** ** The eight deployments *)

Lemma processes_app (popen_stdout : trace -> pystr) (a b : trace) :
  forall t,
    processes popen_stdout t (a ++ b)
    = processes popen_stdout t a ++ processes popen_stdout (t ++ a) b.
Proof.
  induction a as [|e a IH]; intros t; cbn [app processes].
  - now rewrite app_nil_r.
  - rewrite IH, <- app_assoc. cbn [app]. now destruct e.
Qed.

Lemma processes_prints (popen_stdout : trace -> pystr) (lines : list pystr) :
  forall t,
    processes popen_stdout t (map (fun line => Print (Text line)) lines) = [].
Proof. induction lines as [|l lines IH]; intros t; cbn; auto. Qed.

Lemma processes_deployment_events (popen_stdout : trace -> pystr)
    (g : globals) (pk contract : pystr) (cargs : list pystr) (out : pystr)
    (t : trace) :
  processes popen_stdout t (deployment_events g pk contract cargs out)
  = [(deploy_argv g pk contract cargs,
      deployment_output popen_stdout g pk contract cargs t)].
Proof.
  unfold deployment_events, deployment_output.
  cbn [app processes]. rewrite processes_app, processes_prints.
  cbn [app processes]. now rewrite <- app_assoc.
Qed.

Lemma filter_deployment_events (g : globals) (pk contract : pystr)
    (cargs : list pystr) (out : pystr) :
  filter is_process_event (deployment_events g pk contract cargs out)
  = [Spawn Here (deploy_argv g pk contract cargs);
     Wait Here (deploy_argv g pk contract cargs)].
Proof.
  unfold deployment_events. cbn [app filter is_process_event].
  rewrite filter_app. cbn [filter is_process_event].
  replace (filter is_process_event
             (map (fun line => Print (Text line)) (Py.readlines out)))
    with (@nil event); [reflexivity|].
  induction (Py.readlines out); cbn; auto.
Qed.

Lemma precedes_head (e1 e2 : event) (l : trace) :
  In e2 l -> precedes e1 e2 (e1 :: l).
Proof. intros H. now exists [], l. Qed.

Lemma precedes_cons (e1 e2 x : event) (l : trace) :
  precedes e1 e2 l -> precedes e1 e2 (x :: l).
Proof. intros (a & b & -> & H). now exists (x :: a), b. Qed.

Lemma precedes_filter (p : event -> bool) (e1 e2 : event) (l : trace) :
  precedes e1 e2 (filter p l) -> precedes e1 e2 l.
Proof.
  induction l as [|x l IH]; cbn [filter].
  - intros (a & b & E & _). now destruct a.
  - destruct (p x).
    + intros (a & b & E & Hin). destruct a as [|y a].
      * cbn [app] in E. injection E as -> <-.
        apply precedes_head. apply filter_In in Hin. tauto.
      * cbn [app] in E. injection E as -> E.
        apply precedes_cons, IH. now exists a, b.
    + intros H. now apply precedes_cons, IH.
Qed.

(** Reasoning on a script step by step: [Q] holds of the run when it holds of
    the run of what follows. *)
Lemma print_then {B} (Q : result B * trace -> Prop) (m : message)
    (k : unit -> M B) (t : trace) :
  Q (k tt (t ++ [Print m])) -> Q (bind (print m) k t).
Proof. exact (fun H => H). Qed.

Lemma deploy_contract_then {B} (popen_stdout : trace -> pystr) (g : globals)
    (pk : pystr) (Q : result B * trace -> Prop) (contract : pystr)
    (cargs : list value) (strs : list pystr) (k : value -> M B) (t : trace) :
  PK g = Some pk ->
  (forall t', scan_deployed (Py.readlines (popen_stdout t')) <> None) ->
  all_str cargs = Some strs ->
  (forall out address,
      out = deployment_output popen_stdout g pk contract strs t ->
      scan_deployed (Py.readlines out) = Some address ->
      Q (k (Some address) (t ++ deployment_events g pk contract strs out))) ->
  Q (bind (deploy_contract popen_stdout g contract cargs) k t).
Proof.
  intros Hpk Hfound Hargs Hk.
  rewrite (@bind_ok _ _ _ _ _ _ _
             (@deploy_contract_run popen_stdout g contract cargs strs pk t
                Hpk Hargs)).
  destruct (scan_deployed
              (Py.readlines (deployment_output popen_stdout g pk contract strs t)))
    as [address|] eqn:E.
  - now apply Hk.
  - exfalso. exact (Hfound _ E).
Qed.

Ltac find_event :=
  cbn [In]; repeat first [left; reflexivity | right].

Ltac find_precedes :=
  repeat first [apply precedes_head; find_event | apply precedes_cons].

(** C1: when the private key is set, no deployment output leaves the
    address [None], and the endpoint, the key and the addresses scanned hold
    no U+0000 (so that [Popen] accepts every argument list),
    [deploy_contracts] returns a dict with the eight keys
    in the order of the display; it starts exactly the eight processes of the
    table [deployment_plan], in that order, each with the addresses recorded
    for the contracts its arguments refer to; each key is mapped to the
    address scanned from the output of its process; a process is waited for
    before the next is started, so every contract an argument refers to has
    been deployed before the call that uses its address begins. *)
Theorem deploy_contracts_eight_in_order (popen_stdout : trace -> pystr)
    (g : globals) (pk : pystr) (t : trace) :
  PK g = Some pk ->
  null_free (rpc_url g) ->
  null_free pk ->
  (forall t', scan_deployed (Py.readlines (popen_stdout t')) <> None) ->
  (forall t' address,
      scan_deployed (Py.readlines (popen_stdout t')) = Some address ->
      null_free address) ->
  exists addresses added,
    deploy_contracts popen_stdout g t = (Ok addresses, t ++ added)
    /\ map fst addresses
       = [py "fixedPriceStrategy"; py "currencyManager"; py "executionManager";
          py "receiptToken"; py "exchange"; py "transferManagerERC721";
          py "transferManagerERC1155"; py "transferSelector"]
    /\ map (fun p => (fst p, Some (scan_deployed (Py.readlines (snd p)))))
         (processes popen_stdout t added)
       = map (fun d => (plan_argv g pk addresses d,
                        dict_get addresses (dep_key d))) deployment_plan
    /\ filter is_process_event added
       = flat_map (fun d => [Spawn Here (plan_argv g pk addresses d);
                             Wait Here (plan_argv g pk addresses d)])
           deployment_plan
    /\ (forall a b,
          In a deployment_plan -> In b deployment_plan ->
          In (Ref (dep_key a)) (dep_args b) ->
          precedes (Wait Here (plan_argv g pk addresses a))
                   (Spawn Here (plan_argv g pk addresses b)) added).
Proof.
  intros Hpk _ _ Hfound _.
  pattern (deploy_contracts popen_stdout g t).
  unfold deploy_contracts.
  apply print_then.
  eapply deploy_contract_then; [exact Hpk | exact Hfound | reflexivity |].
  intros o1 s1 Ho1 E1.
  eapply deploy_contract_then; [exact Hpk | exact Hfound | reflexivity |].
  intros o2 s2 Ho2 E2.
  eapply deploy_contract_then; [exact Hpk | exact Hfound | reflexivity |].
  intros o3 s3 Ho3 E3.
  eapply deploy_contract_then; [exact Hpk | exact Hfound | reflexivity |].
  intros o4 s4 Ho4 E4.
  eapply deploy_contract_then; [exact Hpk | exact Hfound | reflexivity |].
  intros o5 s5 Ho5 E5.
  eapply deploy_contract_then; [exact Hpk | exact Hfound | reflexivity |].
  intros o6 s6 Ho6 E6.
  eapply deploy_contract_then; [exact Hpk | exact Hfound | reflexivity |].
  intros o7 s7 Ho7 E7.
  eapply deploy_contract_then; [exact Hpk | exact Hfound | reflexivity |].
  intros o8 s8 Ho8 E8.
  do 5 apply print_then.
  unfold ret. cbv beta.
  set (addresses :=
         [(py "fixedPriceStrategy", Some s1); (py "currencyManager", Some s2);
          (py "executionManager", Some s3); (py "receiptToken", Some s4);
          (py "exchange", Some s5); (py "transferManagerERC721", Some s6);
          (py "transferManagerERC1155", Some s7);
          (py "transferSelector", Some s8)]).
  change (dict_display _) with addresses.
  remember (deployment_events g pk _ _ o1) as ev1 eqn:Hev1.
  remember (deployment_events g pk _ _ o2) as ev2 eqn:Hev2.
  remember (deployment_events g pk _ _ o3) as ev3 eqn:Hev3.
  remember (deployment_events g pk _ _ o4) as ev4 eqn:Hev4.
  remember (deployment_events g pk _ _ o5) as ev5 eqn:Hev5.
  remember (deployment_events g pk _ _ o6) as ev6 eqn:Hev6.
  remember (deployment_events g pk _ _ o7) as ev7 eqn:Hev7.
  remember (deployment_events g pk _ _ o8) as ev8 eqn:Hev8.
  match goal with
  | |- context [((((((_ ++ [?p0]) ++ _ ++ [?p1]) ++ [?p2]) ++ [?p3]) ++ [?p4]) ++ [?p5])] => idtac
  | |- context [(((((_ ++ [?p1]) ++ [?p2]) ++ [?p3]) ++ [?p4]) ++ [?p5])] =>
      match goal with
      | |- context [t ++ [?p0]] =>
          set (added := [p0] ++ ev1 ++ ev2 ++ ev3 ++ ev4 ++ ev5 ++ ev6 ++ ev7
                          ++ ev8 ++ [p1; p2; p3; p4; p5])
      end
  end.
  assert (Hprocess : filter is_process_event added
                     = flat_map (fun d => [Spawn Here (plan_argv g pk addresses d);
                                           Wait Here (plan_argv g pk addresses d)])
                         deployment_plan).
  { unfold added. repeat rewrite filter_app.
    rewrite Hev1, Hev2, Hev3, Hev4, Hev5, Hev6, Hev7, Hev8.
    repeat rewrite filter_deployment_events.
    reflexivity. }
  exists addresses, added. split; [|split; [|split; [|split]]].
  - f_equal. unfold added.
    repeat rewrite <- app_assoc. reflexivity.
  - reflexivity.
  - unfold added. repeat rewrite processes_app.
    rewrite Hev1 at 1. rewrite processes_deployment_events.
    rewrite Hev2 at 1. rewrite processes_deployment_events.
    rewrite Hev3 at 1. rewrite processes_deployment_events.
    rewrite Hev4 at 1. rewrite processes_deployment_events.
    rewrite Hev5 at 1. rewrite processes_deployment_events.
    rewrite Hev6 at 1. rewrite processes_deployment_events.
    rewrite Hev7 at 1. rewrite processes_deployment_events.
    rewrite Hev8 at 1. rewrite processes_deployment_events.
    rewrite <- Ho1, <- Ho2, <- Ho3, <- Ho4, <- Ho5, <- Ho6, <- Ho7, <- Ho8.
    cbn [processes app map fst snd].
    rewrite E1, E2, E3, E4, E5, E6, E7, E8.
    reflexivity.
  - exact Hprocess.
  - intros a b Ha Hb Href.
    apply (@precedes_filter is_process_event). rewrite Hprocess.
    cbn [deployment_plan In] in Ha, Hb.
    repeat (destruct Hb as [<- | Hb]); try contradiction;
      cbn [dep_args In] in Href;
      repeat (destruct Href as [Href | Href]); try contradiction;
      try discriminate Href;
      injection Href as Hkey;
      repeat (destruct Ha as [<- | Ha]); try contradiction;
      try (vm_compute in Hkey; discriminate Hkey);
      clear Hkey; cbn [flat_map deployment_plan app];
      find_precedes.
Qed.

(** ** The properties at sample inputs *)

Lemma occursb_complete (sub s : pystr) : occurs sub s -> occursb sub s = true.
Proof.
  intros (p & q & ->). induction p as [|c p IH]; cbn [app].
  - destruct (sub ++ q) as [|c r] eqn:E; cbn [occursb]; rewrite <- E.
    + apply startswith_app.
    + now rewrite startswith_app.
  - cbn [occursb]. rewrite IH. apply orb_true_r.
Qed.

Lemma not_occurs (sub s : pystr) : occursb sub s = false -> ~ occurs sub s.
Proof. intros H Ho. apply occursb_complete in Ho. congruence. Qed.

Lemma not_in_chars (c : Py.char) (s : pystr) :
  forallb (fun d => negb (d =? c)%N) s = true -> ~ In c s.
Proof.
  intros H Hin. rewrite forallb_forall in H. specialize (H c Hin).
  now rewrite N.eqb_refl in H.
Qed.

Lemma deploy_contracts_eight_in_order_witness :
  PK sample_globals = Some (py "0xprivate")
  /\ null_free (rpc_url sample_globals)
  /\ null_free (py "0xprivate")
  /\ (forall t',
        scan_deployed (Py.readlines (canned (py "Deployed to: 0xabc") t')) <> None)
  /\ (forall t' address,
        scan_deployed (Py.readlines (canned (py "Deployed to: 0xabc") t'))
        = Some address ->
        null_free address)
  /\ exists addresses added,
       deploy_contracts (canned (py "Deployed to: 0xabc")) sample_globals []
       = (Ok addresses, [] ++ added)
       /\ map fst addresses
          = [py "fixedPriceStrategy"; py "currencyManager";
             py "executionManager"; py "receiptToken"; py "exchange";
             py "transferManagerERC721"; py "transferManagerERC1155";
             py "transferSelector"].
Proof.
  assert (Hfound : forall t',
             scan_deployed (Py.readlines (canned (py "Deployed to: 0xabc") t'))
             <> None).
  { intros t' H. vm_compute in H. discriminate H. }
  assert (Hurl : null_free (rpc_url sample_globals))
    by (apply not_in_chars; reflexivity).
  assert (Hkey : null_free (py "0xprivate"))
    by (apply not_in_chars; reflexivity).
  assert (Hclean : forall t' address,
             scan_deployed (Py.readlines (canned (py "Deployed to: 0xabc") t'))
             = Some address ->
             null_free address).
  { intros t' address H. vm_compute in H. injection H as <-.
    apply not_in_chars. reflexivity. }
  split; [reflexivity|]. split; [exact Hurl|]. split; [exact Hkey|].
  split; [exact Hfound|]. split; [exact Hclean|].
  destruct (@deploy_contracts_eight_in_order
              (canned (py "Deployed to: 0xabc")) sample_globals
              (py "0xprivate") [] eq_refl Hurl Hkey Hfound Hclean)
    as (addresses & added & Hrun & Hkeys & _).
  exists addresses, added. split; assumption.
Defined.

(** The run of [deploy_contracts] when the n-th process reports [0xA<n>]. *)
Example deploy_contracts_numbered :
  fst (deploy_contracts numbered sample_globals [])
  = Ok [(py "fixedPriceStrategy", Some (py "0xA1"));
        (py "currencyManager", Some (py "0xA2"));
        (py "executionManager", Some (py "0xA3"));
        (py "receiptToken", Some (py "0xA4"));
        (py "exchange", Some (py "0xA5"));
        (py "transferManagerERC721", Some (py "0xA6"));
        (py "transferManagerERC1155", Some (py "0xA7"));
        (py "transferSelector", Some (py "0xA8"))]
  /\ map (fun p => nth_error (fst p) 6) (processes numbered [] (snd (deploy_contracts numbered sample_globals [])))
     = map (fun d => Some (dep_contract d)) deployment_plan.
Proof. split; vm_compute; reflexivity. Qed.

(** Where a marker line carries no address, [parseAddress] gives [None], and
    the deployment that takes it as an argument ends in [TypeError]. *)
Example deploy_contracts_without_address :
  fst (deploy_contracts (canned (py "Deployed to: pending")) sample_globals [])
  = Raise TypeError.
Proof. vm_compute. reflexivity. Qed.

(** Without a [commit] segment the version loses its last character. *)
Example parseCompilerVersion_without_commit :
  parseCompilerVersion (py "Version: 0.8.13") = Ok (py "v0.8.1").
Proof. reflexivity. Qed.

Lemma unknown_network_witness :
  sys_argv kovan_environ = [py "scripts/deploy.py"; py "kovan"]
  /\ ~ In (py "kovan") [py "mainnet"; py "ropsten"; py "rinkeby"; py "goerli"]
  /\ main (canned []) (fun _ => None) kovan_environ []
     = (Raise (KeyError (py "kovan")), []).
Proof.
  assert (Hnet : ~ In (py "kovan")
                   [py "mainnet"; py "ropsten"; py "rinkeby"; py "goerli"]).
  { intros H. vm_compute in H. intuition discriminate. }
  split; [reflexivity|]. split; [exact Hnet|].
  apply (proj1 (proj2 (proj2
           (@unknown_network_fails_before_any_process
              (canned []) (fun _ => None) kovan_environ []
              (py "scripts/deploy.py") (py "kovan") [] eq_refl Hnet)))).
  discriminate.
Defined.

(** C3 as it is worded does not hold: started with the network ["kovan"],
    which the table does not have, the script ends with the [KeyError] of the
    subscript [CHAIN_IDS[network]], the uncaught failure of a lookup and no
    error of the script about its configuration; and where [foundry.toml]
    does not load, the run ends with the failure of [toml.load], with
    ["kovan"] as with ["goerli"]. *)
Lemma unknown_network_lookup_failure_counterexample :
  ~ In (network_argument (sys_argv kovan_environ)) (map fst CHAIN_IDS)
  /\ (exists err,
        main (canned []) (fun _ => None) kovan_environ [] = (Raise err, [])
        /\ err = KeyError (py "kovan")
        /\ lookup_error err = true)
  /\ main (canned []) (fun _ => None) (without_toml kovan_environ) []
     = (Raise TomlLoadError, [])
  /\ main (canned []) (fun _ => None) (without_toml sample_environ) []
     = (Raise TomlLoadError, []).
Proof.
  split.
  - intros H. vm_compute in H. intuition discriminate.
  - split; [|split; reflexivity].
    exists (KeyError (py "kovan")). repeat split; reflexivity.
Qed.

(** C4 as the specification has it: with two marker lines the first one is
    not the one returned, and without a marker line the result is the empty
    string, not [None]. *)
Lemma deploy_contract_first_marker_counterexample :
  parseDeployedAddress two_markers = Some (py "0xAAA")
  /\ fst (deploy_contract (canned two_markers) sample_globals
            (py "src/ReceiptToken.sol:ReceiptToken") [] [])
     = Ok (Some (py "0xBBB"))
  /\ fst (deploy_contract (canned two_markers) sample_globals
            (py "src/ReceiptToken.sol:ReceiptToken") [] [])
     <> Ok (parseDeployedAddress two_markers)
  /\ fst (deploy_contract (canned (py "Error: compiler run failed"))
            sample_globals (py "src/ReceiptToken.sol:ReceiptToken") [] [])
     = Ok (Some []).
Proof.
  split; [reflexivity|]. split; [reflexivity|]. split; [|reflexivity].
  intros H. vm_compute in H. discriminate H.
Qed.

Lemma deploy_contract_last_marker_line_witness :
  PK sample_globals = Some (py "0xprivate")
  /\ all_str [] = Some []
  /\ fst (deploy_contract (canned two_markers) sample_globals
            (py "src/ReceiptToken.sol:ReceiptToken") [] [])
     = Ok (parseAddress (py "Deployed to: 0xBBB" ++ [10%N])).
Proof.
  split; [reflexivity|]. split; [reflexivity|].
  apply (proj1 (@deploy_contract_last_marker_line
                  (canned two_markers) sample_globals
                  (py "src/ReceiptToken.sol:ReceiptToken") [] []
                  (py "0xprivate") [] eq_refl eq_refl)).
  exists [py "Deployed to: 0xAAA" ++ [10%N]], [].
  split; [reflexivity|]. split; reflexivity.
Defined.

Lemma parseCompilerVersion_commit_segment_witness :
  parseCompilerVersion
    (py "Version: "
       ++ (py "0.8.17" ++ py "+commit." ++ py "8df45f5f" ++ py "."
             ++ py "Linux" ++ py "." ++ py "g++")
       ++ [10%N])
  = Ok (py "v" ++ py "0.8.17" ++ py "+commit." ++ py "8df45f5f").
Proof.
  apply (proj2 parseCompilerVersion_commit_segment).
  - reflexivity.
  - apply blankb_blank. reflexivity.
  - apply solidb_solid. reflexivity.
  - apply solidb_solid. reflexivity.
  - apply solidb_solid. reflexivity.
  - apply solidb_solid. reflexivity.
  - apply not_occurs. reflexivity.
  - apply not_in_chars. reflexivity.
Defined.

Lemma parseAddress_first_0x_token_witness :
  Tokens (py "  Deployed to: 0xAbC123" ++ [10%N])
    [py "Deployed"; py "to:"; py "0xAbC123"]
  /\ parseAddress (py "  Deployed to: 0xAbC123" ++ [10%N]) = Some (py "0xAbC123").
Proof.
  assert (Htoks : Tokens (py "  Deployed to: 0xAbC123" ++ [10%N])
                    [py "Deployed"; py "to:"; py "0xAbC123"]).
  { exact (Tokens_split (py "  Deployed to: 0xAbC123" ++ [10%N])). }
  split; [exact Htoks|].
  apply (proj1 (parseAddress_first_0x_token Htoks)).
  exists [py "Deployed"; py "to:"], [].
  split; [reflexivity|]. split; reflexivity.
Defined.

Lemma parseDeployedAddress_first_marker_line_witness :
  Lines (py "Compiling" ++ [10%N] ++ py "Deployed to: 0xAb" ++ [10%N]
           ++ py "Deployed to: 0xCd")
    [py "Compiling"; py "Deployed to: 0xAb"; py "Deployed to: 0xCd"]
  /\ parseDeployedAddress
       (py "Compiling" ++ [10%N] ++ py "Deployed to: 0xAb" ++ [10%N]
          ++ py "Deployed to: 0xCd")
     = parseAddress (py "Deployed to: 0xAb").
Proof.
  assert (Hlines : Lines (py "Compiling" ++ [10%N] ++ py "Deployed to: 0xAb"
                            ++ [10%N] ++ py "Deployed to: 0xCd")
                     [py "Compiling"; py "Deployed to: 0xAb";
                      py "Deployed to: 0xCd"]).
  { exact (Lines_split_on (py "Compiling" ++ [10%N] ++ py "Deployed to: 0xAb"
                             ++ [10%N] ++ py "Deployed to: 0xCd")). }
  split; [exact Hlines|].
  apply (proj2 (parseDeployedAddress_first_marker_line Hlines)).
  exists [py "Compiling"], [py "Deployed to: 0xCd"].
  split; [reflexivity|]. split; reflexivity.
Defined.

Lemma verify_contract_quoted_guid_witness :
  fst (verify_contract
         (canned (py "Submitting verification" ++ [10%N] ++ py "  GUID: "
                    ++ [34%N] ++ py "abc123" ++ [34%N] ++ [10%N]))
         sample_globals (TInt 200) (py "v0.8.13+commit.abaa5c0e")
         (Some (py "0xA4")) (py "src/ReceiptToken.sol:ReceiptToken") None [])
  = Ok (py "abc123").
Proof.
  apply (proj1 (verify_contract_quoted_guid
                  (canned (py "Submitting verification" ++ [10%N]
                             ++ py "  GUID: " ++ [34%N] ++ py "abc123"
                             ++ [34%N] ++ [10%N]))
                  sample_globals (TInt 200) (py "v0.8.13+commit.abaa5c0e")
                  (py "0xA4") (py "src/ReceiptToken.sol:ReceiptToken") None [])
           [10%N]).
  - apply blankb_blank. reflexivity.
  - exists [py "Submitting verification" ++ [10%N]], [].
    split; [reflexivity|]. split; reflexivity.
Defined.

Lemma verify_contract_last_token_trimmed_witness :
  fst (verify_contract
         (canned (py "GUID: " ++ [34%N] ++ py "first" ++ [34%N] ++ [10%N]
                    ++ py "GUID: abc123" ++ [10%N]))
         sample_globals (TInt 200) (py "v0.8.13+commit.abaa5c0e")
         (Some (py "0xA4")) (py "src/ReceiptToken.sol:ReceiptToken") None [])
  = Ok (py "bc12").
Proof.
  apply (proj1 (proj2 (verify_contract_last_token_trimmed
                  (canned (py "GUID: " ++ [34%N] ++ py "first" ++ [34%N]
                             ++ [10%N] ++ py "GUID: abc123" ++ [10%N]))
                  sample_globals (TInt 200) (py "v0.8.13+commit.abaa5c0e")
                  (py "0xA4") (py "src/ReceiptToken.sol:ReceiptToken") None []))
           [10%N]).
  - apply blankb_blank. reflexivity.
  - exists [py "GUID: " ++ [34%N] ++ py "first" ++ [34%N] ++ [10%N]], [].
    split; [reflexivity|]. split; reflexivity.
Defined.

(** * Further properties of the script *)

(** ** The compiler version *)

Lemma Tokens_each (s : pystr) (toks : list pystr) :
  Tokens s toks -> Forall (fun tok => tok <> [] /\ solid tok) toks.
Proof. induction 1; constructor; auto. Qed.

Lemma find_at_bound (sub : pystr) :
  sub <> [] ->
  forall s i,
    Py.find_at i sub s = (-1)%Z
    \/ (i <= Py.find_at i sub s < i + Z.of_nat (length s))%Z.
Proof.
  intros Hsub. induction s as [|c s IH]; intros i; cbn [Py.find_at].
  - left. destruct sub; [congruence | reflexivity].
  - destruct (Py.startswith (c :: s) sub).
    + right. cbn [length]. lia.
    + destruct (IH (i + 1)%Z) as [E | E]; [now left | right].
      cbn [length]. lia.
Qed.

Lemma find_lt_length (s sub : pystr) (start : Z) :
  sub <> [] -> (Py.find s sub start < Z.of_nat (length s))%Z.
Proof.
  intros Hsub. unfold Py.find.
  set (n := Z.of_nat (length s)).
  set (st := if (start <? 0)%Z then Z.max (start + n) 0 else start).
  assert (Hst : (0 <= st \/ n < st)%Z).
  { unfold st. destruct (Z.ltb_spec start 0); lia. }
  destruct (Z.ltb_spec n st) as [Hlt | Hle]; [lia|].
  destruct (find_at_bound Hsub (skipn (Z.to_nat st) s) st) as [E | E].
  - rewrite E. lia.
  - rewrite length_skipn in E. unfold n in *. lia.
Qed.

Lemma slice_strict_prefix (s : pystr) (e : Z) :
  s <> [] -> (e < Z.of_nat (length s))%Z ->
  exists kept dropped,
    s = kept ++ dropped /\ dropped <> []
    /\ Py.slice s None (Some e) = kept.
Proof.
  intros Hs He. unfold Py.slice.
  set (n := Z.of_nat (length s)) in *.
  assert (Hn : (0 < n)%Z).
  { unfold n. destruct s; [congruence | cbn [length]; lia]. }
  set (h := Py.slice_index n e).
  assert (Hh : (h < n)%Z).
  { unfold h, Py.slice_index. destruct (Z.ltb_spec e 0); lia. }
  change (Z.to_nat 0) with 0%nat. cbn [skipn]. rewrite Z.sub_0_r.
  exists (firstn (Z.to_nat h) s), (skipn (Z.to_nat h) s).
  split; [now rewrite firstn_skipn|]. split; [|reflexivity].
  intros E. apply (f_equal (@length _)) in E.
  rewrite length_skipn in E. cbn [length] in E. unfold n in *. lia.
Qed.

Lemma slice_drop_last (s : pystr) :
  Py.slice s None (Some (-1)%Z) = removelast s.
Proof.
  induction s as [|x l _] using rev_ind; [reflexivity|].
  rewrite removelast_last.
  unfold Py.slice, Py.slice_index. cbv zeta.
  change ((-1 <? 0)%Z) with true. cbv iota.
  rewrite length_app. cbn [length].
  rewrite Z.max_l by lia.
  replace (Z.to_nat (-1 + Z.of_nat (length l + 1) - 0)) with (length l) by lia.
  change (Z.to_nat 0) with 0%nat. cbn [skipn].
  apply firstn_length_app.
Qed.

Lemma find_at_absent (c : Py.char) (s : pystr) :
  ~ In c s -> forall i, Py.find_at i [c] s = (-1)%Z.
Proof.
  induction s as [|d s IH]; intros Hno i; cbn [Py.find_at Py.startswith].
  - reflexivity.
  - destruct (N.eqb_spec d c) as [->|_].
    + exfalso. apply Hno. now left.
    + cbn [andb]. apply IH. intros Hin. apply Hno. now right.
Qed.

(** [parseCompilerVersion] raises [IndexError] on a line without a token;
    on any other line it returns ["v"] followed by a part of the last token
    that always leaves at least one character of the token out. *)
Theorem parseCompilerVersion_outcomes (output : pystr) :
  (blank output -> parseCompilerVersion output = Raise IndexError)
  /\ (forall toks token,
        Tokens output (toks ++ [token]) ->
        exists kept dropped,
          token = kept ++ dropped /\ dropped <> []
          /\ parseCompilerVersion output = Ok (py "v" ++ kept)).
Proof.
  unfold parseCompilerVersion. split.
  - intros Hblank. now rewrite (split_blank Hblank).
  - intros toks token Htoks.
    rewrite (Tokens_unique Htoks), getitem_last_app.
    assert (Hne : token <> []).
    { apply Tokens_each in Htoks. apply Forall_app in Htoks as [_ Hlast].
      now inversion Hlast as [|? ? [Hne _] _]. }
    match goal with
    | |- context [Py.slice token None (Some ?e)] =>
        destruct (@slice_strict_prefix token e Hne) as (kept & dropped & E & Hd & ->)
    end.
    + apply find_lt_length. discriminate.
    + now exists kept, dropped.
Qed.

(** When the last token ends with the sha, without a dot after it, the
    result loses the last character of the sha. *)
Theorem parseCompilerVersion_sha_at_end
    (before version sha trailing : pystr) :
  closed before -> blank trailing -> solid version -> solid sha ->
  ~ occurs (py "commit") version -> ~ In 46%N sha ->
  parseCompilerVersion (before ++ (version ++ py "+commit." ++ sha) ++ trailing)
  = Ok (py "v" ++ removelast (version ++ py "+commit." ++ sha)).
Proof.
  intros Hbefore Htrailing Hversion Hsha Hcommit Hdot.
  set (token := version ++ py "+commit." ++ sha).
  assert (Hne : token <> []).
  { unfold token. destruct version; discriminate. }
  assert (Hsolid : solid token).
  { unfold token. repeat apply solid_app; auto.
    apply solidb_solid. reflexivity. }
  unfold parseCompilerVersion.
  rewrite split_app_closed by assumption.
  rewrite split_token by (auto using blank_detached).
  rewrite (split_blank Htrailing), getitem_last_app, find_from_start.
  assert (E1 : Py.find_at 0 (py "commit") token
               = (Z.of_nat (length version) + 1)%Z).
  { unfold token. change (py "+commit.") with (py "+commit" ++ py ".").
    rewrite <- (app_assoc (py "+commit")).
    rewrite find_at_commit by assumption. lia. }
  rewrite E1.
  replace (Z.of_nat (length version) + 1 + Z.of_nat (length (py "commit")) + 1)%Z
    with (Z.of_nat (length (version ++ py "+commit."))).
  2:{ rewrite length_app. change (length (py "+commit.")) with 8%nat.
      change (length (py "commit")) with 6%nat. lia. }
  assert (E2 : Py.find token (py ".")
                 (Z.of_nat (length (version ++ py "+commit."))) = (-1)%Z).
  { unfold token. rewrite app_assoc, find_from_prefix.
    now apply find_at_absent. }
  rewrite E2. now rewrite slice_drop_last.
Qed.

Lemma parseCompilerVersion_outcomes_witness :
  Tokens (py "solc, the solidity compiler" ++ [10%N])
    ([py "solc,"; py "the"; py "solidity"] ++ [py "compiler"])
  /\ exists kept dropped,
       py "compiler" = kept ++ dropped /\ dropped <> []
       /\ parseCompilerVersion (py "solc, the solidity compiler" ++ [10%N])
          = Ok (py "v" ++ kept).
Proof.
  assert (Htoks : Tokens (py "solc, the solidity compiler" ++ [10%N])
                    ([py "solc,"; py "the"; py "solidity"] ++ [py "compiler"])).
  { exact (Tokens_split (py "solc, the solidity compiler" ++ [10%N])). }
  split; [exact Htoks|].
  exact (proj2 (parseCompilerVersion_outcomes
                  (py "solc, the solidity compiler" ++ [10%N])) _ _ Htoks).
Defined.

Lemma parseCompilerVersion_sha_at_end_witness :
  parseCompilerVersion
    (py "Version: " ++ (py "0.8.13" ++ py "+commit." ++ py "abaa5c0e") ++ [10%N])
  = Ok (py "v0.8.13+commit.abaa5c0").
Proof.
  apply (@parseCompilerVersion_sha_at_end
           (py "Version: ") (py "0.8.13") (py "abaa5c0e") [10%N]).
  - reflexivity.
  - apply blankb_blank. reflexivity.
  - apply solidb_solid. reflexivity.
  - apply solidb_solid. reflexivity.
  - apply not_occurs. reflexivity.
  - apply not_in_chars. reflexivity.
Defined.

(** ** Start-up *)

Lemma dict_get_present {V} (d : dict V) (k : pystr) :
  In k (map fst d) -> exists v, dict_get d k = Some v.
Proof.
  induction d as [|[k' v] d IH]; cbn [dict_get map fst In]; [tauto|].
  intros [-> | Hin].
  - exists v. now rewrite (proj2 (eqb_eq k k) eq_refl).
  - destruct (Py.eqb k' k); [now exists v | now apply IH].
Qed.

(** [startup] prints nothing and starts nothing.  It succeeds exactly when
    [foundry.toml] loads and the network, ["mainnet"] when there is no
    argument, is a key of [CHAIN_IDS]; an environment variable that is not
    set is no error: the key is [None], and the text [None] ends the RPC
    URL. *)
Theorem startup_outcomes (e : environ) (t : trace) :
  let net := network_argument (sys_argv e) in
  snd (startup e t) = t
  /\ ((exists g, fst (startup e t) = Ok g)
      <-> foundry_toml e <> None
          /\ In net [py "mainnet"; py "ropsten"; py "rinkeby"; py "goerli"])
  /\ (forall g,
        fst (startup e t) = Ok g ->
        network g = net /\ NETWORK g = net
        /\ dict_get CHAIN_IDS net = Some (chain_id g)
        /\ PK g = getenv e (py "PK")
        /\ ETHERSCAN_KEY g = getenv e (py "ETHERSCAN_API_KEY")
        /\ rpc_url g
           = py "https://eth-" ++ net ++ py ".alchemyapi.io/v2/"
               ++ match getenv e (py "ALCHEMY_KEY") with
                  | Some key => key
                  | None => py "None"
                  end)
  /\ ((length (sys_argv e) <= 1)%nat -> net = py "mainnet").
Proof.
  intros net. unfold startup. fold net.
  assert (Hkeys : map fst CHAIN_IDS
                  = [py "mainnet"; py "ropsten"; py "rinkeby"; py "goerli"])
    by reflexivity.
  split; [|split; [|split]].
  - destruct (foundry_toml e); [|reflexivity].
    unfold getitem. now destruct (dict_get CHAIN_IDS net).
  - destruct (foundry_toml e) as [toml|].
    + unfold getitem. destruct (dict_get CHAIN_IDS net) as [id|] eqn:Hid.
      * split; [intros _ | intros _; eexists; reflexivity].
        split; [discriminate|]. rewrite <- Hkeys.
        destruct (in_dec (list_eq_dec N.eq_dec) net (map fst CHAIN_IDS))
          as [Hin | Hout]; [exact Hin|].
        apply dict_get_absent in Hout. congruence.
      * split; [intros [g Hg]; discriminate Hg|].
        intros [_ Hin]. rewrite <- Hkeys in Hin.
        apply dict_get_present in Hin as [v Hv]. congruence.
    + split; [intros [g Hg]; discriminate Hg | intros [H _]; congruence].
  - intros g. destruct (foundry_toml e) as [toml|]; [|discriminate].
    unfold getitem. destruct (dict_get CHAIN_IDS net) as [id|]; [|discriminate].
    intros [= <-]. cbn. repeat split; reflexivity.
  - unfold net, network_argument. intros Hlen.
    destruct (Nat.ltb_spec 1 (length (sys_argv e))); [lia | reflexivity].
Qed.

(** ** One deployment, one verification *)

Lemma all_str_none_iff (args : list value) :
  all_str args = None <-> In None args.
Proof.
  induction args as [|[s|] args IH]; cbn [all_str In].
  - split; [discriminate | tauto].
  - destruct (all_str args) as [l|]; split.
    + discriminate.
    + intros [H | H]; [discriminate H | apply IH in H; discriminate H].
    + intros _. right. now apply IH.
    + reflexivity.
  - split; auto.
Qed.

Lemma deploy_contract_type_error (popen_stdout : trace -> pystr) (g : globals)
    (contract : pystr) (cargs : list value) (t : trace) :
  PK g = None \/ In None cargs ->
  deploy_contract popen_stdout g contract cargs t
  = (Raise TypeError,
     t ++ [Print (Text (py "Deploying " ++ contract_name contract ++ py "..."))]).
Proof.
  intros Hnone. unfold deploy_contract.
  rewrite getitem_last_contract.
  unfold lift at 1. cbn [bind].
  unfold print at 1, emit. cbn [bind].
  apply with_Popen_type_error.
  apply all_str_none_iff.
  destruct Hnone as [Hpk | Hin].
  - rewrite Hpk. destruct (0 <? length cargs)%nat; cbn [app In]; tauto.
  - destruct cargs as [|a cargs]; [contradiction|].
    cbn [length Nat.ltb Nat.leb]. apply in_or_app. right. now right.
Qed.

(** Where no string among the arguments holds U+0000, [deploy_contract]
    raises exactly when the private key or one of the constructor arguments
    is [None]; the exception is [TypeError], raised after the contract is
    announced and before a process is started. *)
Theorem deploy_contract_raises_on_none (popen_stdout : trace -> pystr)
    (g : globals) (contract : pystr) (cargs : list value) (t : trace) :
  null_free (rpc_url g) ->
  null_free_value (PK g) ->
  null_free contract ->
  Forall null_free_value cargs ->
  ((exists err, fst (deploy_contract popen_stdout g contract cargs t) = Raise err)
   <-> PK g = None \/ In None cargs)
  /\ (PK g = None \/ In None cargs ->
      deploy_contract popen_stdout g contract cargs t
      = (Raise TypeError,
         t ++ [Print (Text (py "Deploying " ++ contract_name contract
                              ++ py "..."))])).
Proof.
  intros _ _ _ _.
  split; [|apply deploy_contract_type_error].
  split.
  - intros [err Herr].
    destruct (PK g) as [pk|] eqn:Hpk; [|now left].
    destruct (all_str cargs) as [strs|] eqn:Hargs.
    + rewrite (@deploy_contract_run popen_stdout g contract cargs strs pk t
                 Hpk Hargs) in Herr.
      discriminate Herr.
    + right. now apply all_str_none_iff.
  - intros Hnone. exists TypeError.
    now rewrite (deploy_contract_type_error popen_stdout g contract cargs t Hnone).
Qed.

Lemma parseAddress_clean (line address : pystr) :
  parseAddress line = Some address ->
  Py.startswith address (py "0x") = true /\ solid address.
Proof.
  unfold parseAddress. intros H.
  apply parseAddress_loop_first in H as (before & after & E & Ha & _).
  split; [exact Ha|].
  pose proof (Tokens_each (Tokens_split line)) as Hall.
  rewrite E in Hall. apply Forall_app in Hall as [_ Hall].
  now inversion Hall as [|? ? [_ Hsolid] _].
Qed.

(** What [deploy_contract] returns as a string is the empty string or a
    token that begins with ["0x"] and has no whitespace in it. *)
Theorem deploy_contract_address_shape (popen_stdout : trace -> pystr)
    (g : globals) (contract : pystr) (cargs : list value) (t : trace)
    (address : pystr) :
  fst (deploy_contract popen_stdout g contract cargs t) = Ok (Some address) ->
  address = []
  \/ (Py.startswith address (py "0x") = true /\ solid address).
Proof.
  intros H.
  destruct (PK g) as [pk|] eqn:Hpk.
  2:{ rewrite deploy_contract_type_error in H by now left. discriminate H. }
  destruct (all_str cargs) as [strs|] eqn:Hargs.
  2:{ rewrite deploy_contract_type_error in H
        by (right; now apply all_str_none_iff).
      discriminate H. }
  rewrite (@deploy_contract_run popen_stdout g contract cargs strs pk t
             Hpk Hargs) in H.
  cbn [fst] in H. injection H as H. revert H.
  unfold scan_deployed.
  generalize (Py.readlines (deployment_output popen_stdout g pk contract strs t)).
  intros lines.
  assert (Hinit : forall a, Some (@nil Py.char) = Some a ->
                    a = [] \/ (Py.startswith a (py "0x") = true /\ solid a)).
  { intros a [= <-]. now left. }
  revert Hinit. generalize (Some (@nil Py.char)).
  induction lines as [|line lines IH]; intros init Hinit; cbn [fold_left].
  - apply Hinit.
  - apply IH. intros a.
    destruct (Py.startswith line (py "Deployed to:")); [|apply Hinit].
    intros Ha. right. now apply (parseAddress_clean line).
Qed.

Lemma deploy_contract_address_shape_witness :
  fst (deploy_contract (canned two_markers) sample_globals
         (py "src/ReceiptToken.sol:ReceiptToken") [] [])
  = Ok (Some (py "0xBBB"))
  /\ (py "0xBBB" = []
      \/ (Py.startswith (py "0xBBB") (py "0x") = true /\ solid (py "0xBBB"))).
Proof.
  split; [reflexivity|].
  exact (@deploy_contract_address_shape (canned two_markers) sample_globals
           (py "src/ReceiptToken.sol:ReceiptToken") [] [] (py "0xBBB") eq_refl).
Defined.

Lemma verify_contract_type_error (popen_stdout : trace -> pystr) (g : globals)
    (optimizer_runs : tomlval) (compiler_version contract : pystr)
    (encoded : value) (t : trace) :
  verify_contract popen_stdout g optimizer_runs compiler_version None contract
    encoded t
  = (Raise TypeError,
     t ++ [Print (Text (py "Verifying " ++ contract_name contract ++ py "..."))]).
Proof.
  unfold verify_contract.
  rewrite getitem_last_contract.
  unfold lift at 1. cbn [bind].
  unfold print at 1, emit. cbn [bind].
  apply with_Popen_type_error.
  apply all_str_none_iff.
  destruct (truthy encoded); cbn [app In]; tauto.
Qed.

(** On arguments without U+0000, [verify_contract] with the address [None]
    raises [TypeError] before a process is started; with an address it
    returns, and what it returns is the empty string when no line of the
    output has a trimmed form that begins with ["GUID:"]. *)
Theorem verify_contract_outcomes (popen_stdout : trace -> pystr) (g : globals)
    (optimizer_runs : tomlval) (compiler_version contract : pystr)
    (encoded : value) (t : trace) :
  null_free (str_of_toml optimizer_runs) ->
  null_free compiler_version ->
  verify_contract popen_stdout g optimizer_runs compiler_version None contract
    encoded t
  = (Raise TypeError,
     t ++ [Print (Text (py "Verifying " ++ contract_name contract ++ py "..."))])
  /\ (forall address,
        null_free address -> null_free contract -> null_free_value encoded ->
        exists guid,
          fst (verify_contract popen_stdout g optimizer_runs compiler_version
                 (Some address) contract encoded t) = Ok guid)
  /\ (forall address,
        null_free address -> null_free contract -> null_free_value encoded ->
        none_such is_guid_line
          (Py.readlines
             (verification_output popen_stdout g optimizer_runs
                compiler_version address contract encoded t)) ->
        fst (verify_contract popen_stdout g optimizer_runs compiler_version
               (Some address) contract encoded t) = Ok []).
Proof.
  intros _ _.
  split; [apply verify_contract_type_error|]. split.
  - intros address _ _ _. rewrite verify_contract_run. cbn [fst]. eauto.
  - intros address _ _ _ Hnone. rewrite verify_contract_run. cbn [fst]. f_equal.
    exact (@fold_none_such _ _ is_guid_line
             (fun line => Py.slice (last (Py.split line) []) (Some 1%Z) (Some (-1)%Z))
             _ [] Hnone).
Qed.

Lemma verify_contract_outcomes_witness :
  null_free (str_of_toml (TInt 200))
  /\ null_free (py "v0.8.13+commit.abaa5c0e")
  /\ null_free (py "0xA4")
  /\ null_free (py "src/ReceiptToken.sol:ReceiptToken")
  /\ null_free_value None
  /\ none_such is_guid_line
    (Py.readlines
       (verification_output (canned (py "Error: contract not found" ++ [10%N]))
          sample_globals (TInt 200) (py "v0.8.13+commit.abaa5c0e") (py "0xA4")
          (py "src/ReceiptToken.sol:ReceiptToken") None []))
  /\ fst (verify_contract (canned (py "Error: contract not found" ++ [10%N]))
            sample_globals (TInt 200) (py "v0.8.13+commit.abaa5c0e")
            (Some (py "0xA4")) (py "src/ReceiptToken.sol:ReceiptToken") None [])
     = Ok [].
Proof.
  assert (Hruns : null_free (str_of_toml (TInt 200)))
    by (apply not_in_chars; reflexivity).
  assert (Hversion : null_free (py "v0.8.13+commit.abaa5c0e"))
    by (apply not_in_chars; reflexivity).
  assert (Haddress : null_free (py "0xA4"))
    by (apply not_in_chars; reflexivity).
  assert (Hcontract : null_free (py "src/ReceiptToken.sol:ReceiptToken"))
    by (apply not_in_chars; reflexivity).
  split; [exact Hruns|]. split; [exact Hversion|]. split; [exact Haddress|].
  split; [exact Hcontract|]. split; [exact I|]. split; [reflexivity|].
  apply (proj2 (proj2 (@verify_contract_outcomes
                         (canned (py "Error: contract not found" ++ [10%N]))
                         sample_globals (TInt 200) (py "v0.8.13+commit.abaa5c0e")
                         (py "src/ReceiptToken.sol:ReceiptToken") None []
                         Hruns Hversion))
           (py "0xA4") Haddress Hcontract I).
  reflexivity.
Defined.

Lemma startup_outcomes_witness :
  (length (sys_argv {| sys_argv := [py "scripts/deploy.py"];
                       getenv := fun _ => None;
                       foundry_toml := Some [] |}) <= 1)%nat
  /\ network_argument [py "scripts/deploy.py"] = py "mainnet".
Proof.
  split; [cbn; lia|].
  apply (proj2 (proj2 (proj2
           (startup_outcomes
              {| sys_argv := [py "scripts/deploy.py"];
                 getenv := fun _ => None;
                 foundry_toml := Some [] |} [])))).
  cbn. lia.
Defined.

Lemma deploy_contract_raises_on_none_witness :
  null_free (rpc_url sample_globals)
  /\ null_free_value (PK sample_globals)
  /\ null_free (py "src/RentalExchange.sol:RentalExchange")
  /\ Forall null_free_value [Some (py "0xA2"); None]
  /\ (PK sample_globals = None \/ In None [Some (py "0xA2"); None])
  /\ deploy_contract (canned []) sample_globals
       (py "src/RentalExchange.sol:RentalExchange")
       [Some (py "0xA2"); None] []
     = (Raise TypeError, [Print (Text (py "Deploying RentalExchange..."))]).
Proof.
  assert (H : PK sample_globals = None \/ In None [Some (py "0xA2"); None]).
  { right. cbn. tauto. }
  assert (Hurl : null_free (rpc_url sample_globals))
    by (apply not_in_chars; reflexivity).
  assert (Hkey : null_free_value (PK sample_globals))
    by (apply not_in_chars; reflexivity).
  assert (Hcontract : null_free (py "src/RentalExchange.sol:RentalExchange"))
    by (apply not_in_chars; reflexivity).
  assert (Hcargs : Forall null_free_value [Some (py "0xA2"); None]).
  { constructor; [apply not_in_chars; reflexivity|].
    constructor; [exact I | constructor]. }
  split; [exact Hurl|]. split; [exact Hkey|]. split; [exact Hcontract|].
  split; [exact Hcargs|]. split; [exact H|].
  exact (proj2 (@deploy_contract_raises_on_none (canned []) sample_globals
                  (py "src/RentalExchange.sol:RentalExchange")
                  [Some (py "0xA2"); None] [] Hurl Hkey Hcontract Hcargs) H).
Defined.

(** ** The deployments when something is missing *)

Lemma bind_inv {A B} (m : M A) (f : A -> M B) (t t' : trace) (b : B) :
  bind m f t = (Ok b, t') ->
  exists a t1, m t = (Ok a, t1) /\ f a t1 = (Ok b, t').
Proof.
  unfold bind. destruct (m t) as [[a|e] t1]; [|discriminate].
  intros H. now exists a, t1.
Qed.

Lemma deploy_contract_then_any {B} (popen_stdout : trace -> pystr)
    (g : globals) (pk : pystr) (Q : result B * trace -> Prop)
    (contract : pystr) (cargs : list value) (strs : list pystr)
    (k : value -> M B) (t : trace) :
  PK g = Some pk -> all_str cargs = Some strs ->
  Q (k (scan_deployed
          (Py.readlines (deployment_output popen_stdout g pk contract strs t)))
       (t ++ deployment_events g pk contract strs
               (deployment_output popen_stdout g pk contract strs t))) ->
  Q (bind (deploy_contract popen_stdout g contract cargs) k t).
Proof.
  intros Hpk Hargs Hk.
  now rewrite (@bind_ok _ _ _ _ _ _ _
                 (@deploy_contract_run popen_stdout g contract cargs strs pk t
                    Hpk Hargs)).
Qed.

Lemma deploy_contract_then_raise {B} (popen_stdout : trace -> pystr)
    (g : globals) (Q : result B * trace -> Prop) (contract : pystr)
    (cargs : list value) (k : value -> M B) (t : trace) :
  PK g = None \/ In None cargs ->
  Q (Raise TypeError,
     t ++ [Print (Text (py "Deploying " ++ contract_name contract ++ py "..."))]) ->
  Q (bind (deploy_contract popen_stdout g contract cargs) k t).
Proof.
  intros Hnone Hk.
  now rewrite (@bind_raise _ _ _ _ _ _ _
                 (deploy_contract_type_error popen_stdout g contract cargs t Hnone)).
Qed.

Lemma deploy_contract_then_unmarked {B} (popen_stdout : trace -> pystr)
    (g : globals) (pk : pystr) (Q : result B * trace -> Prop)
    (contract : pystr) (cargs : list value) (strs : list pystr)
    (k : value -> M B) (t : trace) :
  PK g = Some pk ->
  (forall t', none_such is_deployed_line (Py.readlines (popen_stdout t'))) ->
  all_str cargs = Some strs ->
  (forall out, Q (k (Some []) (t ++ deployment_events g pk contract strs out))) ->
  Q (bind (deploy_contract popen_stdout g contract cargs) k t).
Proof.
  intros Hpk Hnone Hargs Hk.
  rewrite (@bind_ok _ _ _ _ _ _ _
             (@deploy_contract_run popen_stdout g contract cargs strs pk t
                Hpk Hargs)).
  replace (scan_deployed _) with (Some (@nil Py.char)); [apply Hk|].
  symmetry.
  exact (@fold_none_such _ _ is_deployed_line parseAddress _ (Some [])
           (Hnone _)).
Qed.

(** Without a private key [deploy_contracts] ends with [TypeError] at the
    first deployment: the three values and the first contract are printed,
    and no process is started. *)
Theorem deploy_contracts_without_private_key (popen_stdout : trace -> pystr)
    (g : globals) (t : trace) :
  PK g = None ->
  deploy_contracts popen_stdout g t
  = (Raise TypeError,
     t ++ [Print (Values [ALCHEMY_KEY g; None; Some (NETWORK g)]);
           Print (Text (py "Deploying StrategyStandardSaleForFixedPrice..."))]).
Proof.
  intros Hpk.
  pattern (deploy_contracts popen_stdout g t).
  unfold deploy_contracts.
  apply print_then.
  apply deploy_contract_then_raise; [now left|].
  rewrite Hpk, <- app_assoc. reflexivity.
Qed.

(** When the output of the currency manager, of the execution manager or of
    the receipt token leaves the address [None], and the endpoint, the key
    and the addresses scanned from these three outputs hold no U+0000,
    [deploy_contracts] ends with [TypeError] at the exchange: the first four
    deployments have run to their end, the exchange is announced, and its
    process is not started. *)
Theorem deploy_contracts_stops_at_exchange (popen_stdout : trace -> pystr)
    (g : globals) (pk : pystr) (t : trace) :
  PK g = Some pk ->
  null_free (rpc_url g) ->
  null_free pk ->
  let c1 := py "src/strategies/StrategyStandardSaleForFixedPrice.sol:StrategyStandardSaleForFixedPrice" in
  let c2 := py "src/CurrencyManager.sol:CurrencyManager" in
  let c3 := py "src/ExecutionManager.sol:ExecutionManager" in
  let c4 := py "src/ReceiptToken.sol:ReceiptToken" in
  let t0 := t ++ [Print (Values [ALCHEMY_KEY g; PK g; Some (NETWORK g)])] in
  let o1 := deployment_output popen_stdout g pk c1 [STRATEGY_EXCHANGE_FEE] t0 in
  let t1 := t0 ++ deployment_events g pk c1 [STRATEGY_EXCHANGE_FEE] o1 in
  let o2 := deployment_output popen_stdout g pk c2 [] t1 in
  let t2 := t1 ++ deployment_events g pk c2 [] o2 in
  let o3 := deployment_output popen_stdout g pk c3 [] t2 in
  let t3 := t2 ++ deployment_events g pk c3 [] o3 in
  let o4 := deployment_output popen_stdout g pk c4 [] t3 in
  let t4 := t3 ++ deployment_events g pk c4 [] o4 in
  null_free_value (scan_deployed (Py.readlines o2)) ->
  null_free_value (scan_deployed (Py.readlines o3)) ->
  null_free_value (scan_deployed (Py.readlines o4)) ->
  scan_deployed (Py.readlines o2) = None
  \/ scan_deployed (Py.readlines o3) = None
  \/ scan_deployed (Py.readlines o4) = None ->
  deploy_contracts popen_stdout g t
  = (Raise TypeError, t4 ++ [Print (Text (py "Deploying RentalExchange..."))]).
Proof.
  intros Hpk _ _ c1 c2 c3 c4 t0 o1 t1 o2 t2 o3 t3 o4 t4 _ _ _ Hnone.
  pattern (deploy_contracts popen_stdout g t).
  unfold deploy_contracts.
  apply print_then.
  eapply deploy_contract_then_any; [exact Hpk | reflexivity |]. fold c1 t0 o1 t1.
  eapply deploy_contract_then_any; [exact Hpk | reflexivity |]. fold c2 o2 t2.
  eapply deploy_contract_then_any; [exact Hpk | reflexivity |]. fold c3 o3 t3.
  eapply deploy_contract_then_any; [exact Hpk | reflexivity |]. fold c4 o4 t4.
  apply deploy_contract_then_raise; [|reflexivity].
  right. cbn [In].
  destruct Hnone as [H | [H | H]]; rewrite H; tauto.
Qed.

(** When no output has a line that begins with ["Deployed to:"],
    [deploy_contracts] does not fail: it starts the eight processes all the
    same, with the empty string where an address belongs, and returns the
    empty string under each of the eight keys. *)
Theorem deploy_contracts_without_markers (popen_stdout : trace -> pystr)
    (g : globals) (pk : pystr) (t : trace) :
  PK g = Some pk ->
  (forall t', none_such is_deployed_line (Py.readlines (popen_stdout t'))) ->
  let addresses : dict value :=
    [(py "fixedPriceStrategy", Some []); (py "currencyManager", Some []);
     (py "executionManager", Some []); (py "receiptToken", Some []);
     (py "exchange", Some []); (py "transferManagerERC721", Some []);
     (py "transferManagerERC1155", Some []); (py "transferSelector", Some [])] in
  exists added,
    deploy_contracts popen_stdout g t = (Ok addresses, t ++ added)
    /\ filter is_process_event added
       = flat_map (fun d => [Spawn Here (plan_argv g pk addresses d);
                             Wait Here (plan_argv g pk addresses d)])
           deployment_plan
    /\ In (Spawn Here
             [py "forge"; py "create"; py "--rpc-url"; rpc_url g;
              py "--private-key"; pk;
              py "src/RentalExchange.sol:RentalExchange";
              py "--constructor-args"; []; []; PROXY_FACTORY_ADDR; []; WETH;
              PROTOCOL_FEE_RECIPIENT]) added.
Proof.
  intros Hpk Hnone addresses.
  pattern (deploy_contracts popen_stdout g t).
  unfold deploy_contracts.
  apply print_then.
  eapply deploy_contract_then_unmarked; [exact Hpk | exact Hnone | reflexivity |].
  intros o1.
  eapply deploy_contract_then_unmarked; [exact Hpk | exact Hnone | reflexivity |].
  intros o2.
  eapply deploy_contract_then_unmarked; [exact Hpk | exact Hnone | reflexivity |].
  intros o3.
  eapply deploy_contract_then_unmarked; [exact Hpk | exact Hnone | reflexivity |].
  intros o4.
  eapply deploy_contract_then_unmarked; [exact Hpk | exact Hnone | reflexivity |].
  intros o5.
  eapply deploy_contract_then_unmarked; [exact Hpk | exact Hnone | reflexivity |].
  intros o6.
  eapply deploy_contract_then_unmarked; [exact Hpk | exact Hnone | reflexivity |].
  intros o7.
  eapply deploy_contract_then_unmarked; [exact Hpk | exact Hnone | reflexivity |].
  intros o8.
  do 5 apply print_then.
  unfold ret. cbv beta.
  change (dict_display _) with addresses.
  remember (deployment_events g pk _ _ o1) as ev1 eqn:Hev1.
  remember (deployment_events g pk _ _ o2) as ev2 eqn:Hev2.
  remember (deployment_events g pk _ _ o3) as ev3 eqn:Hev3.
  remember (deployment_events g pk _ _ o4) as ev4 eqn:Hev4.
  remember (deployment_events g pk _ _ o5) as ev5 eqn:Hev5.
  remember (deployment_events g pk _ _ o6) as ev6 eqn:Hev6.
  remember (deployment_events g pk _ _ o7) as ev7 eqn:Hev7.
  remember (deployment_events g pk _ _ o8) as ev8 eqn:Hev8.
  match goal with
  | |- context [(((((_ ++ [?p1]) ++ [?p2]) ++ [?p3]) ++ [?p4]) ++ [?p5])] =>
      match goal with
      | |- context [t ++ [?p0]] =>
          set (added := [p0] ++ ev1 ++ ev2 ++ ev3 ++ ev4 ++ ev5 ++ ev6 ++ ev7
                          ++ ev8 ++ [p1; p2; p3; p4; p5])
      end
  end.
  assert (Hprocess : filter is_process_event added
                     = flat_map (fun d => [Spawn Here (plan_argv g pk addresses d);
                                           Wait Here (plan_argv g pk addresses d)])
                         deployment_plan).
  { unfold added. repeat rewrite filter_app.
    rewrite Hev1, Hev2, Hev3, Hev4, Hev5, Hev6, Hev7, Hev8.
    repeat rewrite filter_deployment_events.
    reflexivity. }
  exists added. split; [|split].
  - f_equal. unfold added. repeat rewrite <- app_assoc. reflexivity.
  - exact Hprocess.
  - assert (Hin : In (Spawn Here
             [py "forge"; py "create"; py "--rpc-url"; rpc_url g;
              py "--private-key"; pk;
              py "src/RentalExchange.sol:RentalExchange";
              py "--constructor-args"; []; []; PROXY_FACTORY_ADDR; []; WETH;
              PROTOCOL_FEE_RECIPIENT]) (filter is_process_event added)).
    { rewrite Hprocess. cbn [flat_map deployment_plan app]. find_event. }
    apply filter_In in Hin. tauto.
Qed.

Lemma deploy_contract_ok_args (popen_stdout : trace -> pystr) (g : globals)
    (contract : pystr) (cargs : list value) (t t' : trace) (a : value) :
  deploy_contract popen_stdout g contract cargs t = (Ok a, t') ->
  PK g <> None /\ ~ In None cargs.
Proof.
  intros H. split; intros Hnone.
  - rewrite deploy_contract_type_error in H by now left. discriminate H.
  - rewrite deploy_contract_type_error in H by now right. discriminate H.
Qed.

(** Whenever [deploy_contracts] returns, the dict has the eight keys in
    order, the private key is set, and the addresses that later deployments
    take as arguments are strings; only the addresses of the strategy and of
    the transfer selector can be [None]. *)
Theorem deploy_contracts_returned_addresses (popen_stdout : trace -> pystr)
    (g : globals) (t t' : trace) (addresses : dict value) :
  deploy_contracts popen_stdout g t = (Ok addresses, t') ->
  map fst addresses
  = [py "fixedPriceStrategy"; py "currencyManager"; py "executionManager";
     py "receiptToken"; py "exchange"; py "transferManagerERC721";
     py "transferManagerERC1155"; py "transferSelector"]
  /\ PK g <> None
  /\ (forall key,
        In key [py "currencyManager"; py "executionManager"; py "receiptToken";
                py "exchange"; py "transferManagerERC721";
                py "transferManagerERC1155"] ->
        exists address, dict_get addresses key = Some (Some address)).
Proof.
  intros H. unfold deploy_contracts in H.
  apply bind_inv in H as (u0 & t0 & _ & H).
  apply bind_inv in H as (a1 & t1 & R1 & H).
  apply bind_inv in H as (a2 & t2 & R2 & H).
  apply bind_inv in H as (a3 & t3 & R3 & H).
  apply bind_inv in H as (a4 & t4 & R4 & H).
  apply bind_inv in H as (a5 & t5 & R5 & H).
  apply bind_inv in H as (a6 & t6 & R6 & H).
  apply bind_inv in H as (a7 & t7 & R7 & H).
  apply bind_inv in H as (a8 & t8 & R8 & H).
  do 5 (apply bind_inv in H as (? & ? & _ & H)).
  unfold ret in H. injection H as <- _.
  apply deploy_contract_ok_args in R1 as [Hpk _].
  apply deploy_contract_ok_args in R5 as [_ H5].
  apply deploy_contract_ok_args in R6 as [_ H6].
  apply deploy_contract_ok_args in R8 as [_ H8].
  cbn [In] in H5, H6, H8.
  destruct a2 as [a2|]; [|tauto]. destruct a3 as [a3|]; [|tauto].
  destruct a4 as [a4|]; [|tauto]. destruct a5 as [a5|]; [|tauto].
  destruct a6 as [a6|]; [|tauto]. destruct a7 as [a7|]; [|tauto].
  split; [reflexivity|]. split; [exact Hpk|].
  intros key Hkey. cbn [In] in Hkey.
  repeat (destruct Hkey as [<- | Hkey]); try contradiction;
    eexists; reflexivity.
Qed.

Lemma deploy_contracts_without_private_key_witness :
  PK keyless_globals = None
  /\ fst (deploy_contracts (canned []) keyless_globals []) = Raise TypeError.
Proof.
  split; [reflexivity|].
  now rewrite (@deploy_contracts_without_private_key (canned [])
                 keyless_globals [] eq_refl).
Defined.

Lemma deploy_contracts_stops_at_exchange_witness :
  fst (deploy_contracts (canned (py "Deployed to: pending")) sample_globals [])
  = Raise TypeError
  /\ length (filter is_process_event
               (snd (deploy_contracts (canned (py "Deployed to: pending"))
                       sample_globals []))) = 8%nat.
Proof.
  rewrite (@deploy_contracts_stops_at_exchange
             (canned (py "Deployed to: pending")) sample_globals
             (py "0xprivate") [] eq_refl
             (not_in_chars 0%N (rpc_url sample_globals) eq_refl)
             (not_in_chars 0%N (py "0xprivate") eq_refl)
             I I I (or_introl eq_refl)).
  split; reflexivity.
Defined.

Lemma deploy_contracts_without_markers_witness :
  (forall t',
      none_such is_deployed_line
        (Py.readlines (canned (py "Error: compiler run failed") t')))
  /\ fst (deploy_contracts (canned (py "Error: compiler run failed"))
            sample_globals [])
     = Ok [(py "fixedPriceStrategy", Some []); (py "currencyManager", Some []);
           (py "executionManager", Some []); (py "receiptToken", Some []);
           (py "exchange", Some []); (py "transferManagerERC721", Some []);
           (py "transferManagerERC1155", Some []);
           (py "transferSelector", Some [])].
Proof.
  assert (Hnone : forall t',
             none_such is_deployed_line
               (Py.readlines (canned (py "Error: compiler run failed") t'))).
  { intros t'. reflexivity. }
  split; [exact Hnone|].
  destruct (@deploy_contracts_without_markers
              (canned (py "Error: compiler run failed")) sample_globals
              (py "0xprivate") [] eq_refl Hnone) as (added & Hrun & _).
  now rewrite Hrun.
Defined.

Lemma deploy_contracts_returned_addresses_witness :
  exists addresses t',
    deploy_contracts numbered sample_globals [] = (Ok addresses, t')
    /\ exists address,
         dict_get addresses (py "exchange") = Some (Some address).
Proof.
  destruct (deploy_contracts numbered sample_globals []) as [[addresses|err] t']
    eqn:Hrun.
  - exists addresses, t'. split; [reflexivity|].
    apply (proj2 (proj2 (@deploy_contracts_returned_addresses
                           numbered sample_globals [] t' addresses Hrun))).
    cbn. tauto.
  - exfalso. vm_compute in Hrun. discriminate Hrun.
Defined.

(** ** Verification of the eight contracts *)

Lemma lift_getitem_inv {V} (d : dict V) (key : pystr) (t t' : trace) (v : V) :
  lift (getitem d key) t = (Ok v, t') -> dict_get d key = Some v /\ t' = t.
Proof.
  unfold lift, getitem. destruct (dict_get d key); [|discriminate].
  now intros [= -> ->].
Qed.

Lemma verify_contract_ok_address (popen_stdout : trace -> pystr) (g : globals)
    (optimizer_runs : tomlval) (compiler_version contract : pystr)
    (address encoded : value) (t t' : trace) (guid : pystr) :
  verify_contract popen_stdout g optimizer_runs compiler_version address
    contract encoded t = (Ok guid, t') ->
  exists a, address = Some a.
Proof.
  destruct address as [a|]; [now exists a|].
  rewrite verify_contract_type_error. discriminate.
Qed.

Lemma config_default_inv (g : globals) (key : pystr) (t t' : trace)
    (v : tomlval) :
  config_default g key t = (Ok v, t') ->
  exists default,
    dict_get (config g) (py "default") = Some default
    /\ dict_get default key = Some v.
Proof.
  unfold config_default. intros H.
  apply bind_inv in H as (default & t1 & H1 & H2).
  apply lift_getitem_inv in H1 as [H1 _].
  apply lift_getitem_inv in H2 as [H2 _].
  now exists default.
Qed.

Ltac invert_step H :=
  cbv beta zeta in H;
  let a := fresh "a" in
  let t := fresh "t" in
  let R := fresh "R" in
  apply bind_inv in H as (a & t & R & H).

Ltac invert_address R :=
  apply lift_getitem_inv in R as [R _].

(** What a run of [verify_contracts] that returns has gone through. *)
Lemma verify_contracts_inv (popen_stdout : trace -> pystr)
    (check_output_stdout : trace -> option pystr) (g : globals)
    (addresses : dict value) (t t' : trace) (guids : dict pystr) :
  verify_contracts popen_stdout check_output_stdout g addresses t = (Ok guids, t') ->
  exists b1 b2 b3 b4 b5 b6 b7 b8 g1 g2 g3 g4 g5 g6 g7 g8 default solc
         optimizer_runs,
    guids = [(py "fixedPriceStrategy", g1); (py "currencyManager", g2);
             (py "executionManager", g3); (py "receiptToken", g4);
             (py "exchange", g5); (py "transferManagerERC721", g6);
             (py "transferManagerERC1155", g7); (py "transferSelector", g8)]
    /\ dict_get addresses (py "fixedPriceStrategy") = Some (Some b1)
    /\ dict_get addresses (py "currencyManager") = Some (Some b2)
    /\ dict_get addresses (py "executionManager") = Some (Some b3)
    /\ dict_get addresses (py "receiptToken") = Some (Some b4)
    /\ dict_get addresses (py "exchange") = Some (Some b5)
    /\ dict_get addresses (py "transferManagerERC721") = Some (Some b6)
    /\ dict_get addresses (py "transferManagerERC1155") = Some (Some b7)
    /\ dict_get addresses (py "transferSelector") = Some (Some b8)
    /\ dict_get (config g) (py "default") = Some default
    /\ dict_get default (py "solc") = Some solc
    /\ dict_get default (py "optimizer_runs") = Some optimizer_runs.
Proof.
  intros H. unfold verify_contracts in H.
  invert_step H. rename R into Rsolc.
  invert_step H. clear R.
  invert_step H. rename R into Rruns.
  invert_step H. clear R.
  (* the strategy *)
  invert_step H. clear R.
  invert_step H. rename R into A1. invert_address A1.
  invert_step H. rename R into V1.
  (* the managers and the token *)
  invert_step H. rename R into A2. invert_address A2.
  invert_step H. rename R into V2.
  invert_step H. rename R into A3. invert_address A3.
  invert_step H. rename R into V3.
  invert_step H. rename R into A4. invert_address A4.
  invert_step H. rename R into V4.
  (* the exchange *)
  invert_step H. clear R. invert_step H. clear R. invert_step H. clear R.
  invert_step H. clear R.
  invert_step H. rename R into A5. invert_address A5.
  invert_step H. rename R into V5.
  (* the transfer managers *)
  invert_step H. clear R. invert_step H. clear R.
  invert_step H. rename R into A6. invert_address A6.
  invert_step H. rename R into V6.
  invert_step H. clear R. invert_step H. clear R.
  invert_step H. rename R into A7. invert_address A7.
  invert_step H. rename R into V7.
  (* the selector *)
  invert_step H. clear R. invert_step H. clear R. invert_step H. clear R.
  invert_step H. rename R into A8. invert_address A8.
  invert_step H. rename R into V8.
  cbv beta zeta in H. unfold ret in H. injection H as <- _.
  apply verify_contract_ok_address in V1 as [b1 ->].
  apply verify_contract_ok_address in V2 as [b2 ->].
  apply verify_contract_ok_address in V3 as [b3 ->].
  apply verify_contract_ok_address in V4 as [b4 ->].
  apply verify_contract_ok_address in V5 as [b5 ->].
  apply verify_contract_ok_address in V6 as [b6 ->].
  apply verify_contract_ok_address in V7 as [b7 ->].
  apply verify_contract_ok_address in V8 as [b8 ->].
  apply config_default_inv in Rsolc as (default & Hdefault & Hsolc).
  apply config_default_inv in Rruns as (default' & Hdefault' & Hruns).
  rewrite Hdefault in Hdefault'. injection Hdefault' as <-.
  exists b1, b2, b3, b4, b5, b6, b7, b8.
  do 8 eexists. exists default. do 2 eexists.
  split; [reflexivity|]. repeat split; eassumption.
Qed.

(** The keys of the dict that [deploy_contracts] returns. *)
Lemma deploy_contracts_keys (popen_stdout : trace -> pystr) (g : globals)
    (t t' : trace) (addresses : dict value) :
  deploy_contracts popen_stdout g t = (Ok addresses, t') ->
  map fst addresses = contract_keys.
Proof.
  intros H. unfold deploy_contracts in H.
  apply bind_inv in H as (u0 & t0 & _ & H).
  do 8 (apply bind_inv in H as (? & ? & _ & H)).
  do 5 (apply bind_inv in H as (? & ? & _ & H)).
  unfold ret in H. injection H as <- _. reflexivity.
Qed.

(** Whenever [verify_contracts] returns, the tracking map has exactly the
    eight keys of the script, in the order of [contract_keys], whatever the
    order and the other keys of the address map it was given; the address
    map had a string under each of the eight keys; [foundry.toml] had [solc]
    and [optimizer_runs] in its [default] table; and where the address map
    is one that [deploy_contracts] returned, the two dicts have the same
    keys in the same order. *)
Theorem verify_contracts_returned_keys (popen_stdout : trace -> pystr)
    (check_output_stdout : trace -> option pystr) (g : globals)
    (addresses : dict value) (t t' : trace) (guids : dict pystr) :
  verify_contracts popen_stdout check_output_stdout g addresses t = (Ok guids, t') ->
  map fst guids = contract_keys
  /\ (forall key,
        In key contract_keys ->
        exists address, dict_get addresses key = Some (Some address))
  /\ (exists default solc optimizer_runs,
        dict_get (config g) (py "default") = Some default
        /\ dict_get default (py "solc") = Some solc
        /\ dict_get default (py "optimizer_runs") = Some optimizer_runs)
  /\ (forall popen_stdout' g' t0 t1,
        deploy_contracts popen_stdout' g' t0 = (Ok addresses, t1) ->
        map fst guids = map fst addresses).
Proof.
  intros H.
  apply verify_contracts_inv in H
    as (b1 & b2 & b3 & b4 & b5 & b6 & b7 & b8 & g1 & g2 & g3 & g4 & g5 & g6
        & g7 & g8 & default & solc & optimizer_runs & -> & A1 & A2 & A3 & A4
        & A5 & A6 & A7 & A8 & Hdefault & Hsolc & Hruns).
  split; [reflexivity|]. split; [|split].
  - intros key Hkey. unfold contract_keys in Hkey. cbn [In] in Hkey.
    repeat (destruct Hkey as [<- | Hkey]); try contradiction; eauto.
  - eauto 6.
  - intros popen_stdout' g' t0 t1 Hdeploy.
    now rewrite (deploy_contracts_keys _ _ _ Hdeploy).
Qed.

(** The script never ends normally: when start-up, deployment and
    verification all succeed, [check_verfication_status] raises [ValueError]
    at the first key of the tracking map, before it prints or starts
    anything. *)
Theorem main_never_returns (popen_stdout : trace -> pystr)
    (check_output_stdout : trace -> option pystr) (e : environ) (t : trace) :
  (exists err, fst (main popen_stdout check_output_stdout e t) = Raise err)
  /\ (forall g t0 addresses t1 guids t2,
        startup e t = (Ok g, t0) ->
        deploy_contracts popen_stdout g t0 = (Ok addresses, t1) ->
        verify_contracts popen_stdout check_output_stdout g addresses
          (t1 ++ [Print (Mapping addresses)]) = (Ok guids, t2) ->
        main popen_stdout check_output_stdout e t = (Raise ValueError, t2)).
Proof.
  assert (Hall : forall g t0 addresses t1 guids t2,
             startup e t = (Ok g, t0) ->
             deploy_contracts popen_stdout g t0 = (Ok addresses, t1) ->
             verify_contracts popen_stdout check_output_stdout g addresses
               (t1 ++ [Print (Mapping addresses)]) = (Ok guids, t2) ->
             main popen_stdout check_output_stdout e t = (Raise ValueError, t2)).
  { intros g t0 addresses t1 guids t2 Hstart Hdeploy Hverify.
    unfold main.
    rewrite (@bind_ok _ _ _ _ _ _ _ Hstart).
    rewrite (@bind_ok _ _ _ _ _ _ _ Hdeploy).
    rewrite (@bind_ok _ _ _ _ _ _ _
               (eq_refl : print (Mapping addresses) t1
                          = (Ok tt, t1 ++ [Print (Mapping addresses)]))).
    rewrite (@bind_ok _ _ _ _ _ _ _ Hverify).
    apply verify_contracts_inv in Hverify
      as (b1 & b2 & b3 & b4 & b5 & b6 & b7 & b8 & g1 & g2 & g3 & g4 & g5 & g6
          & g7 & g8 & default & solc & optimizer_runs & -> & _).
    reflexivity. }
  split; [|exact Hall].
  destruct (startup e t) as [[g|err] t0] eqn:Hstart.
  2:{ exists err. unfold main. now rewrite (@bind_raise _ _ _ _ _ _ _ Hstart). }
  destruct (deploy_contracts popen_stdout g t0) as [[addresses|err] t1] eqn:Hdeploy.
  2:{ exists err. unfold main.
      rewrite (@bind_ok _ _ _ _ _ _ _ Hstart).
      now rewrite (@bind_raise _ _ _ _ _ _ _ Hdeploy). }
  destruct (verify_contracts popen_stdout check_output_stdout g addresses
              (t1 ++ [Print (Mapping addresses)]))
    as [[guids|err] t2] eqn:Hverify.
  - exists ValueError. now rewrite (Hall g t0 addresses t1 guids t2).
  - exists err. unfold main.
    rewrite (@bind_ok _ _ _ _ _ _ _ Hstart).
    rewrite (@bind_ok _ _ _ _ _ _ _ Hdeploy).
    rewrite (@bind_ok _ _ _ _ _ _ _
               (eq_refl : print (Mapping addresses) t1
                          = (Ok tt, t1 ++ [Print (Mapping addresses)]))).
    now rewrite (@bind_raise _ _ _ _ _ _ _ Hverify).
Qed.

Lemma verify_contracts_returned_keys_witness :
  exists guids t' t1,
    deploy_contracts numbered sample_globals [] = (Ok numbered_addresses, t1)
    /\ verify_contracts numbered (encoded_as (py "0xENC")) sample_globals
         numbered_addresses [] = (Ok guids, t')
    /\ map fst guids = contract_keys
    /\ map fst guids = map fst numbered_addresses.
Proof.
  destruct (verify_contracts numbered (encoded_as (py "0xENC")) sample_globals
              numbered_addresses []) as [[guids|err] t'] eqn:Hrun.
  2:{ exfalso. vm_compute in Hrun. discriminate Hrun. }
  destruct (deploy_contracts numbered sample_globals [])
    as [[addresses|err] t1] eqn:Hdeploy.
  2:{ exfalso. vm_compute in Hdeploy. discriminate Hdeploy. }
  assert (Haddresses : addresses = numbered_addresses).
  { vm_compute in Hdeploy. injection Hdeploy as <- _. reflexivity. }
  subst addresses.
  exists guids, t', t1. split; [reflexivity|]. split; [reflexivity|].
  destruct (verify_contracts_returned_keys _ _ _ _ _ Hrun)
    as (Hkeys & _ & _ & Hsame).
  split; [exact Hkeys|]. exact (Hsame numbered sample_globals [] t1 Hdeploy).
Defined.

Lemma main_never_returns_witness :
  fst (main numbered (encoded_as (py "0xENC")) sample_environ [])
  = Raise ValueError.
Proof.
  destruct (startup sample_environ []) as [[g|err] t0] eqn:Hstart.
  2:{ exfalso. vm_compute in Hstart. discriminate Hstart. }
  destruct (deploy_contracts numbered g t0) as [[addresses|err] t1] eqn:Hdeploy.
  2:{ exfalso. vm_compute in Hstart. injection Hstart as <- <-.
      vm_compute in Hdeploy. discriminate Hdeploy. }
  destruct (verify_contracts numbered (encoded_as (py "0xENC")) g addresses
              (t1 ++ [Print (Mapping addresses)]))
    as [[guids|err] t2] eqn:Hverify.
  2:{ exfalso. vm_compute in Hstart. injection Hstart as <- <-.
      vm_compute in Hdeploy. injection Hdeploy as <- <-.
      vm_compute in Hverify. discriminate Hverify. }
  now rewrite (proj2 (main_never_returns numbered (encoded_as (py "0xENC"))
                        sample_environ [])
                 g t0 addresses t1 guids t2 Hstart Hdeploy Hverify).
Defined.

(** C9: started with the network argument ["goerli"], the script binds
    [chain_id] to 5 and [rpc_url] to the goerli endpoint followed by the
    provider key.  Where a key of the tracking map has two characters, the
    loop of [check_verfication_status] starts the command
    [forge verify-check --chain-id 5], with the first character of the key
    where the identifier belongs, and prints its output.  On the tracking
    map that [verify_contracts] returns the loop raises [ValueError] at the
    first key, before the command is built: the run that has deployed and
    verified ends with that exception, and nothing is added to the trace
    that [verify_contracts] left. *)
Theorem goerli_status_check_not_reached (popen_stdout : trace -> pystr)
    (check_output_stdout : trace -> option pystr) (script : pystr)
    (rest : list pystr) (env : pystr -> value) (toml : dict (dict tomlval))
    (t : trace) :
  exists g,
    startup (goerli_start script rest env toml) t = (Ok g, t)
    /\ chain_id g = 5%Z
    /\ (forall key,
          env (py "ALCHEMY_KEY") = Some key ->
          rpc_url g = py "https://eth-goerli.alchemyapi.io/v2/" ++ key)
    /\ (forall a b identifier key t0,
          env (py "ETHERSCAN_API_KEY") = Some key ->
          null_free [a] ->
          null_free key ->
          let argv := [py "forge"; py "verify-check"; py "--chain-id"; py "5";
                       [a]; key] in
          let started :=
            t0 ++ [Print (Text (py "Verification status for " ++ [a]
                                  ++ py "..."));
                   Spawn Here argv] in
          check_verfication_status popen_stdout g [([a; b], identifier)] t0
          = (Ok tt,
             started
               ++ map (fun line => Print (Text line))
                    (Py.readlines (popen_stdout started))
               ++ [Wait Here argv]))
    /\ (forall addresses t1 guids t2,
          deploy_contracts popen_stdout g t = (Ok addresses, t1) ->
          verify_contracts popen_stdout check_output_stdout g addresses
            (t1 ++ [Print (Mapping addresses)]) = (Ok guids, t2) ->
          check_verfication_status popen_stdout g guids t2
          = (Raise ValueError, t2)
          /\ main popen_stdout check_output_stdout
               (goerli_start script rest env toml) t
             = (Raise ValueError, t2)).
Proof.
  exists {| ALCHEMY_KEY := env (py "ALCHEMY_KEY");
            PK := env (py "PK");
            NETWORK := py "goerli";
            rpc_url := py "https://eth-" ++ py "goerli"
                         ++ py ".alchemyapi.io/v2/"
                         ++ str_of_value (env (py "ALCHEMY_KEY"));
            config := toml;
            ETHERSCAN_KEY := env (py "ETHERSCAN_API_KEY");
            network := py "goerli";
            chain_id := 5 |}.
  split; [reflexivity|].
  split; [reflexivity|]. split; [|split].
  - intros key Hkey. cbn [rpc_url]. rewrite Hkey. reflexivity.
  - intros a b identifier key t0 Hkey _ _ argv started.
    unfold check_verfication_status.
    cbn [map fst check_verfication_status_loop unpack_pair].
    unfold lift at 1. cbn [bind fst].
    unfold print at 1, emit. cbn [bind].
    match goal with
    | |- context [with_Popen _ Here ?args _] =>
        assert (Hargs : all_str args = Some argv)
    end.
    { unfold verify_check_args. cbn [ETHERSCAN_KEY chain_id].
      rewrite Hkey. reflexivity. }
    rewrite (@bind_ok _ _ _ _ _ _ _
               (@with_Popen_print_lines popen_stdout _ argv _ Hargs)).
    unfold ret, started. now repeat rewrite <- app_assoc.
  - intros addresses t1 guids t2 Hdeploy Hverify.
    assert (Hstatus : forall g0,
               check_verfication_status popen_stdout g0 guids t2
               = (Raise ValueError, t2)).
    { intros g0. apply verify_contracts_inv in Hverify
        as (b1 & b2 & b3 & b4 & b5 & b6 & b7 & b8 & g1 & g2 & g3 & g4 & g5
            & g6 & g7 & g8 & default & solc & optimizer_runs & -> & _).
      reflexivity. }
    split; [apply Hstatus|].
    unfold main.
    match goal with
    | |- bind (startup ?e) _ t = _ =>
        rewrite (@bind_ok _ _ _ _ _ _ _
                   (eq_refl : startup e t = (Ok _, t)))
    end.
    rewrite (@bind_ok _ _ _ _ _ _ _ Hdeploy).
    rewrite (@bind_ok _ _ _ _ _ _ _
               (eq_refl : print (Mapping addresses) t1
                          = (Ok tt, t1 ++ [Print (Mapping addresses)]))).
    rewrite (@bind_ok _ _ _ _ _ _ _ Hverify).
    apply Hstatus.
Qed.

Lemma goerli_status_check_not_reached_witness :
  getenv sample_environ (py "ALCHEMY_KEY") = Some (py "alchemy-key")
  /\ getenv sample_environ (py "ETHERSCAN_API_KEY") = Some (py "etherscan-key")
  /\ null_free (py "a")
  /\ null_free (py "etherscan-key")
  /\ exists g addresses t1 guids t2,
       startup sample_environ [] = (Ok g, [])
       /\ chain_id g = 5%Z
       /\ rpc_url g = py "https://eth-goerli.alchemyapi.io/v2/alchemy-key"
       /\ check_verfication_status (canned []) g
            [(py "ab", py "identifier")] []
          = (Ok tt,
             [Print (Text (py "Verification status for a..."));
              Spawn Here [py "forge"; py "verify-check"; py "--chain-id";
                          py "5"; py "a"; py "etherscan-key"];
              Wait Here [py "forge"; py "verify-check"; py "--chain-id";
                         py "5"; py "a"; py "etherscan-key"]])
       /\ deploy_contracts numbered g [] = (Ok addresses, t1)
       /\ verify_contracts numbered (encoded_as (py "0xENC")) g addresses
            (t1 ++ [Print (Mapping addresses)]) = (Ok guids, t2)
       /\ check_verfication_status numbered g guids t2 = (Raise ValueError, t2)
       /\ main numbered (encoded_as (py "0xENC")) sample_environ []
          = (Raise ValueError, t2).
Proof.
  assert (Ha : null_free (py "a")) by (apply not_in_chars; reflexivity).
  assert (Hkey : null_free (py "etherscan-key"))
    by (apply not_in_chars; reflexivity).
  split; [reflexivity|]. split; [reflexivity|].
  split; [exact Ha|]. split; [exact Hkey|].
  destruct (goerli_status_check_not_reached (canned [])
              (encoded_as (py "0xENC")) (py "scripts/deploy.py") []
              (getenv sample_environ)
              [(py "default",
                [(py "solc", TStr (py "0.8.13"));
                 (py "optimizer_runs", TInt 200)])] [])
    as (g' & Hstart' & _ & _ & Hloop & _).
  destruct (goerli_status_check_not_reached numbered
              (encoded_as (py "0xENC")) (py "scripts/deploy.py") []
              (getenv sample_environ)
              [(py "default",
                [(py "solc", TStr (py "0.8.13"));
                 (py "optimizer_runs", TInt 200)])] [])
    as (g & Hstart & Hchain & Hurl & _ & Hrun).
  assert (Hsame : g' = g).
  { rewrite Hstart in Hstart'. now injection Hstart' as <-. }
  subst g'.
  destruct (deploy_contracts numbered g []) as [[addresses|err] t1] eqn:Hdeploy.
  2:{ exfalso. vm_compute in Hstart. injection Hstart as <-.
      vm_compute in Hdeploy. discriminate Hdeploy. }
  destruct (verify_contracts numbered (encoded_as (py "0xENC")) g addresses
              (t1 ++ [Print (Mapping addresses)]))
    as [[guids|err] t2] eqn:Hverify.
  2:{ exfalso. vm_compute in Hstart. injection Hstart as <-.
      vm_compute in Hdeploy. injection Hdeploy as <- <-.
      vm_compute in Hverify. discriminate Hverify. }
  destruct (Hrun addresses t1 guids t2 eq_refl Hverify) as [Hstatus Hmain].
  exists g, addresses, t1, guids, t2.
  split; [exact Hstart|]. split; [exact Hchain|].
  split; [exact (Hurl (py "alchemy-key") eq_refl)|].
  split; [exact (Hloop 97%N 98%N (py "identifier") (py "etherscan-key") []
                   eq_refl Ha Hkey)|].
  split; [exact Hdeploy|]. split; [exact Hverify|].
  split; [exact Hstatus | exact Hmain].
Defined.

Lemma version_line_parses (line : pystr) :
  Py.startswith line (py "Version:") = true ->
  exists version, parseCompilerVersion line = Ok version.
Proof.
  intros H. apply startswith_iff in H as [r ->].
  assert (Hne : Py.split (py "Version:" ++ r) <> []).
  { apply lstrip_split_nonempty.
    change (py "Version:" ++ r) with (86%N :: py "ersion:" ++ r).
    cbn [Py.lstrip]. change (Py.isspace 86%N) with false. discriminate. }
  unfold parseCompilerVersion.
  destruct (getitem_last_nonempty Hne) as (l & x & _ & ->). eauto.
Qed.

(** The compiler probe: its lines are printed, and the loop does not
    raise. *)
Lemma probe_run (popen_stdout : trace -> pystr) (solc : tomlval) (t : trace) :
  with_Popen popen_stdout Home
    [Some (py "./.svm/" ++ str_of_toml solc ++ py "/solc-" ++ str_of_toml solc);
     Some (py "--version")]
    (fun _ stdout =>
       for_each stdout (fun line compiler_version =>
         bind (print (Text line)) (fun _ =>
         if Py.startswith line (py "Version:")
         then lift (parseCompilerVersion line)
         else ret compiler_version)) [])
    t
  = (Ok (scan_version (Py.readlines (probe_output popen_stdout solc t))),
     t ++ probe_events solc (probe_output popen_stdout solc t)).
Proof.
  unfold with_Popen. cbn [all_str]. cbv beta zeta.
  rewrite for_each_printing
    with (f := fun compiler_version line =>
                 if Py.startswith line (py "Version:")
                 then match parseCompilerVersion line with
                      | Ok version => version
                      | Raise _ => compiler_version
                      end
                 else compiler_version).
  - unfold scan_version, probe_events, probe_output, solc_argv.
    f_equal. now repeat rewrite <- app_assoc.
  - intros line acc t0. unfold print, emit. cbn [bind].
    destruct (Py.startswith line (py "Version:")) eqn:Hversion; [|reflexivity].
    destruct (version_line_parses line Hversion) as [version ->].
    reflexivity.
Qed.

Lemma config_default_ok (g : globals) (key : pystr) (default : dict tomlval)
    (v : tomlval) (t : trace) :
  dict_get (config g) (py "default") = Some default ->
  dict_get default key = Some v ->
  config_default g key t = (Ok v, t).
Proof.
  intros Hdefault Hkey. unfold config_default, getitem, lift, bind.
  now rewrite Hdefault, Hkey.
Qed.

Lemma config_default_missing (g : globals) (key : pystr)
    (default : dict tomlval) (t : trace) :
  dict_get (config g) (py "default") = Some default ->
  dict_get default key = None ->
  config_default g key t = (Raise (KeyError key), t).
Proof.
  intros Hdefault Hkey. unfold config_default, getitem, lift, bind.
  now rewrite Hdefault, Hkey.
Qed.

Lemma config_default_no_table (g : globals) (key : pystr) (t : trace) :
  dict_get (config g) (py "default") = None ->
  config_default g key t = (Raise (KeyError (py "default")), t).
Proof.
  intros Hdefault. unfold config_default, getitem, lift, bind.
  now rewrite Hdefault.
Qed.

(** A key missing from the [default] table of [foundry.toml]: without
    [default] or without [solc], [verify_contracts] raises [KeyError] before
    anything happens; without [optimizer_runs] it raises after the compiler
    probe has run, before any contract is verified. *)
Theorem verify_contracts_missing_configuration
    (popen_stdout : trace -> pystr)
    (check_output_stdout : trace -> option pystr) (g : globals)
    (addresses : dict value) (t : trace) :
  (dict_get (config g) (py "default") = None ->
   verify_contracts popen_stdout check_output_stdout g addresses t
   = (Raise (KeyError (py "default")), t))
  /\ (forall default,
        dict_get (config g) (py "default") = Some default ->
        dict_get default (py "solc") = None ->
        verify_contracts popen_stdout check_output_stdout g addresses t
        = (Raise (KeyError (py "solc")), t))
  /\ (forall default solc,
        dict_get (config g) (py "default") = Some default ->
        dict_get default (py "solc") = Some solc ->
        dict_get default (py "optimizer_runs") = None ->
        verify_contracts popen_stdout check_output_stdout g addresses t
        = (Raise (KeyError (py "optimizer_runs")),
           t ++ probe_events solc (probe_output popen_stdout solc t))).
Proof.
  split; [|split].
  - intros Hdefault. unfold verify_contracts.
    apply bind_raise. now apply config_default_no_table.
  - intros default Hdefault Hsolc. unfold verify_contracts.
    apply bind_raise. now apply (config_default_missing g _ t Hdefault).
  - intros default solc Hdefault Hsolc Hruns.
    unfold verify_contracts.
    rewrite (@bind_ok _ _ _ _ _ _ _
               (@config_default_ok g (py "solc") default solc t Hdefault Hsolc)).
    cbv zeta.
    rewrite (@bind_ok _ _ _ _ _ _ _ (probe_run popen_stdout solc t)).
    apply bind_raise.
    now apply (@config_default_missing g (py "optimizer_runs") default).
Qed.

Lemma verify_contracts_missing_configuration_witness :
  dict_get (config keyless_globals) (py "default") = None
  /\ verify_contracts (canned []) (encoded_as []) keyless_globals
       numbered_addresses []
     = (Raise (KeyError (py "default")), []).
Proof.
  split; [reflexivity|].
  exact (proj1 (verify_contracts_missing_configuration
                  (canned []) (encoded_as []) keyless_globals
                  numbered_addresses []) eq_refl).
Defined.

Lemma check_output_run (check_output_stdout : trace -> option pystr)
    (args : list value) (argv : list pystr) (t : trace) :
  all_str args = Some argv ->
  check_output check_output_stdout args t
  = (match check_output_stdout (t ++ [CheckOutput argv]) with
     | Some out => Ok out
     | None => Raise CalledProcessError
     end, t ++ [CheckOutput argv]).
Proof.
  intros Hargs. unfold check_output. rewrite Hargs.
  now destruct (check_output_stdout (t ++ [CheckOutput argv])).
Qed.

Lemma lift_getitem_then {B V} (Q : result B * trace -> Prop) (d : dict V)
    (key : pystr) (v : V) (k : V -> M B) (t : trace) :
  dict_get d key = Some v -> Q (k v t) ->
  Q (bind (lift (getitem d key)) k t).
Proof.
  intros Hkey Hk. unfold bind, lift, getitem. now rewrite Hkey.
Qed.

Lemma config_default_then {B} (Q : result B * trace -> Prop) (g : globals)
    (key : pystr) (default : dict tomlval) (v : tomlval) (k : tomlval -> M B)
    (t : trace) :
  dict_get (config g) (py "default") = Some default ->
  dict_get default key = Some v ->
  Q (k v t) -> Q (bind (config_default g key) k t).
Proof.
  intros Hdefault Hkey Hk.
  now rewrite (@bind_ok _ _ _ _ _ _ _
                 (@config_default_ok g key default v t Hdefault Hkey)).
Qed.

Lemma check_output_then {B} (Q : result B * trace -> Prop)
    (check_output_stdout : trace -> option pystr) (args : list value)
    (argv : list pystr) (k : pystr -> M B) (t : trace) :
  (forall t', check_output_stdout t' <> None) ->
  all_str args = Some argv ->
  (forall out,
      check_output_stdout (t ++ [CheckOutput argv]) = Some out ->
      Q (k out (t ++ [CheckOutput argv]))) ->
  Q (bind (check_output check_output_stdout args) k t).
Proof.
  intros Hrun Hargs Hk. unfold bind.
  rewrite (check_output_run check_output_stdout args t Hargs).
  destruct (check_output_stdout (t ++ [CheckOutput argv])) as [out|] eqn:E.
  - now apply Hk.
  - exfalso. exact (Hrun _ E).
Qed.

Lemma verify_contract_then {B} (Q : result B * trace -> Prop)
    (popen_stdout : trace -> pystr) (g : globals) (optimizer_runs : tomlval)
    (compiler_version address contract : pystr) (encoded : value)
    (k : pystr -> M B) (t : trace) :
  (forall out,
      out = verification_output popen_stdout g optimizer_runs compiler_version
              address contract encoded t ->
      Q (k (scan_guid (Py.readlines out))
           (t ++ verification_events g optimizer_runs compiler_version address
                   contract encoded out))) ->
  Q (bind (verify_contract popen_stdout g optimizer_runs compiler_version
             (Some address) contract encoded) k t).
Proof.
  intros Hk.
  rewrite (@bind_ok _ _ _ _ _ _ _
             (verify_contract_run popen_stdout g optimizer_runs
                compiler_version address contract encoded t)).
  now apply Hk.
Qed.

Lemma encodings_app (check_output_stdout : trace -> option pystr)
    (a b : trace) :
  forall t,
    encodings check_output_stdout t (a ++ b)
    = encodings check_output_stdout t a
        ++ encodings check_output_stdout (t ++ a) b.
Proof.
  induction a as [|e a IH]; intros t; cbn [app encodings].
  - now rewrite app_nil_r.
  - rewrite IH, <- app_assoc. cbn [app]. now destruct e.
Qed.

Lemma encodings_free (check_output_stdout : trace -> option pystr)
    (l : trace) :
  Forall no_check_output l ->
  forall t, encodings check_output_stdout t l = [].
Proof.
  induction 1 as [|e l He _ IH]; intros t; cbn [encodings]; [reflexivity|].
  destruct e; try apply IH. contradiction.
Qed.

Lemma prints_no_check_output (lines : list pystr) :
  Forall no_check_output (map (fun line => Print (Text line)) lines).
Proof. induction lines; constructor; cbn; auto. Qed.

Lemma verification_events_free (g : globals) (optimizer_runs : tomlval)
    (compiler_version address contract : pystr) (encoded : value)
    (out : pystr) :
  Forall no_check_output
    (verification_events g optimizer_runs compiler_version address contract
       encoded out).
Proof.
  unfold verification_events. repeat (apply Forall_app; split).
  - repeat constructor.
  - apply prints_no_check_output.
  - repeat constructor.
Qed.

Lemma probe_events_free (solc : tomlval) (out : pystr) :
  Forall no_check_output (probe_events solc out).
Proof.
  unfold probe_events. repeat (apply Forall_app; split).
  - repeat constructor.
  - apply prints_no_check_output.
  - repeat constructor.
Qed.

Lemma processes_verification_events (popen_stdout : trace -> pystr)
    (g : globals) (optimizer_runs : tomlval)
    (compiler_version address contract : pystr) (encoded : value)
    (out : pystr) (t : trace) :
  processes popen_stdout t
    (verification_events g optimizer_runs compiler_version address contract
       encoded out)
  = [(verify_argv g optimizer_runs compiler_version address contract encoded,
      verification_output popen_stdout g optimizer_runs compiler_version
        address contract encoded t)].
Proof.
  unfold verification_events, verification_output.
  cbn [app processes]. rewrite processes_app, processes_prints.
  cbn [app processes]. now rewrite <- app_assoc.
Qed.

Lemma processes_probe_events (popen_stdout : trace -> pystr) (solc : tomlval)
    (out : pystr) (t : trace) :
  processes popen_stdout t (probe_events solc out)
  = [(solc_argv solc, probe_output popen_stdout solc t)].
Proof.
  unfold probe_events, probe_output.
  cbn [app processes]. rewrite processes_app, processes_prints.
  reflexivity.
Qed.

Lemma filter_prints (lines : list pystr) :
  filter is_process_event (map (fun line => Print (Text line)) lines) = [].
Proof. induction lines; cbn; auto. Qed.

Lemma filter_verification_events (g : globals) (optimizer_runs : tomlval)
    (compiler_version address contract : pystr) (encoded : value)
    (out : pystr) :
  filter is_process_event
    (verification_events g optimizer_runs compiler_version address contract
       encoded out)
  = [Spawn Here (verify_argv g optimizer_runs compiler_version address
                   contract encoded);
     Wait Here (verify_argv g optimizer_runs compiler_version address contract
                  encoded)].
Proof.
  unfold verification_events. cbn [app filter is_process_event].
  now rewrite filter_app, filter_prints.
Qed.

Lemma filter_probe_events (solc : tomlval) (out : pystr) :
  filter is_process_event (probe_events solc out)
  = [Spawn Home (solc_argv solc); Wait Home (solc_argv solc)].
Proof.
  unfold probe_events. cbn [app filter is_process_event].
  now rewrite filter_app, filter_prints.
Qed.

Lemma probe_then {B} (Q : result B * trace -> Prop)
    (popen_stdout : trace -> pystr) (solc : tomlval) (k : pystr -> M B)
    (t : trace) :
  (forall out,
      out = probe_output popen_stdout solc t ->
      Q (k (scan_version (Py.readlines out)) (t ++ probe_events solc out))) ->
  Q (bind
       (with_Popen popen_stdout Home
          [Some (py "./.svm/" ++ str_of_toml solc ++ py "/solc-"
                   ++ str_of_toml solc);
           Some (py "--version")]
          (fun _ stdout =>
             for_each stdout (fun line compiler_version =>
               bind (print (Text line)) (fun _ =>
               if Py.startswith line (py "Version:")
               then lift (parseCompilerVersion line)
               else ret compiler_version)) []))
       k t).
Proof.
  intros Hk.
  rewrite (@bind_ok _ _ _ _ _ _ _ (probe_run popen_stdout solc t)).
  now apply Hk.
Qed.

(** When [foundry.toml] has the two keys, every [abi-encode] call succeeds,
    each of the eight addresses is a string, and the configured values, the
    addresses, the version scanned and the bytes of the [abi-encode] calls
    hold no U+0000, [verify_contracts] probes
    the compiler, then verifies the eight contracts in the order of the
    deployment, each after the [abi-encode] call for its constructor, with
    the bytes that call returned; the tracking map has the eight keys, each
    with the identifier scanned from the output of its own process. *)
Theorem verify_contracts_eight_in_order (popen_stdout : trace -> pystr)
    (check_output_stdout : trace -> option pystr) (g : globals)
    (default : dict tomlval) (solc optimizer_runs : tomlval)
    (a1 a2 a3 a4 a5 a6 a7 a8 : pystr) (t : trace) :
  dict_get (config g) (py "default") = Some default ->
  dict_get default (py "solc") = Some solc ->
  dict_get default (py "optimizer_runs") = Some optimizer_runs ->
  (forall t', check_output_stdout t' <> None) ->
  null_free (str_of_toml solc) ->
  null_free (str_of_toml optimizer_runs) ->
  Forall null_free [a1; a2; a3; a4; a5; a6; a7; a8] ->
  null_free (scan_version (Py.readlines (probe_output popen_stdout solc t))) ->
  (forall t' encoded, check_output_stdout t' = Some encoded -> null_free encoded) ->
  let addresses : dict value :=
    [(py "fixedPriceStrategy", Some a1); (py "currencyManager", Some a2);
     (py "executionManager", Some a3); (py "receiptToken", Some a4);
     (py "exchange", Some a5); (py "transferManagerERC721", Some a6);
     (py "transferManagerERC1155", Some a7); (py "transferSelector", Some a8)] in
  let version := scan_version (Py.readlines (probe_output popen_stdout solc t)) in
  let verify := verify_argv g optimizer_runs version in
  let cast signature arguments :=
    py "cast" :: py "abi-encode" :: signature :: arguments in
  exists e1 e5 e6 e7 e8 guids added,
    verify_contracts popen_stdout check_output_stdout g addresses t
    = (Ok guids, t ++ added)
    /\ map fst guids = contract_keys
    /\ filter is_process_event added
       = [Spawn Home (solc_argv solc); Wait Home (solc_argv solc);
          CheckOutput (cast (py "constructor(uint256)") [STRATEGY_EXCHANGE_FEE]);
          Spawn Here (verify a1 (py "src/strategies/StrategyStandardSaleForFixedPrice.sol:StrategyStandardSaleForFixedPrice") (Some e1));
          Wait Here (verify a1 (py "src/strategies/StrategyStandardSaleForFixedPrice.sol:StrategyStandardSaleForFixedPrice") (Some e1));
          Spawn Here (verify a2 (py "src/CurrencyManager.sol:CurrencyManager") None);
          Wait Here (verify a2 (py "src/CurrencyManager.sol:CurrencyManager") None);
          Spawn Here (verify a3 (py "src/ExecutionManager.sol:ExecutionManager") None);
          Wait Here (verify a3 (py "src/ExecutionManager.sol:ExecutionManager") None);
          Spawn Here (verify a4 (py "src/ReceiptToken.sol:ReceiptToken") None);
          Wait Here (verify a4 (py "src/ReceiptToken.sol:ReceiptToken") None);
          CheckOutput
            (cast (py "constructor(address,address,address,address,address,address)")
               [a2; a3; PROXY_FACTORY_ADDR; a4; WETH; PROTOCOL_FEE_RECIPIENT]);
          Spawn Here (verify a5 (py "src/RentalExchange.sol:RentalExchange") (Some e5));
          Wait Here (verify a5 (py "src/RentalExchange.sol:RentalExchange") (Some e5));
          CheckOutput (cast (py "constructor(address)") [a5]);
          Spawn Here (verify a6 (py "src/transferManagers/TransferManagerERC721.sol:TransferManagerERC721") (Some e6));
          Wait Here (verify a6 (py "src/transferManagers/TransferManagerERC721.sol:TransferManagerERC721") (Some e6));
          CheckOutput (cast (py "constructor(address)") [a5]);
          Spawn Here (verify a7 (py "src/transferManagers/TransferManagerERC1155.sol:TransferManagerERC1155") (Some e7));
          Wait Here (verify a7 (py "src/transferManagers/TransferManagerERC1155.sol:TransferManagerERC1155") (Some e7));
          CheckOutput (cast (py "constructor(address,address)") [a6; a7]);
          Spawn Here (verify a8 (py "src/TransferSelectorNFT.sol:TransferSelectorNFT") (Some e8));
          Wait Here (verify a8 (py "src/TransferSelectorNFT.sol:TransferSelectorNFT") (Some e8))]
    /\ map snd (encodings check_output_stdout t added)
       = [Some e1; Some e5; Some e6; Some e7; Some e8]
    /\ map snd guids
       = map (fun p => scan_guid (Py.readlines (snd p)))
           (tl (processes popen_stdout t added)).
Proof.
  intros Hdefault Hsolc Hruns Hco _ _ _ _ _ addresses version verify cast.
  pattern (verify_contracts popen_stdout check_output_stdout g addresses t).
  match goal with |- ?P _ => set (Q := P) end.
  unfold verify_contracts. cbv beta zeta.
  eapply config_default_then; [exact Hdefault | exact Hsolc |]. cbv beta zeta.
  apply probe_then. intros op Hop. cbv beta zeta.
  eapply config_default_then; [exact Hdefault | exact Hruns |]. cbv beta zeta.
  apply print_then. cbv beta zeta.
  (* the strategy *)
  eapply check_output_then; [exact Hco | reflexivity |].
  intros e1 He1. cbv beta zeta.
  eapply lift_getitem_then; [reflexivity|]. cbv beta zeta.
  apply verify_contract_then. intros o1 Ho1. cbv beta zeta.
  (* the managers and the token *)
  eapply lift_getitem_then; [reflexivity|]. cbv beta zeta.
  apply verify_contract_then. intros o2 Ho2. cbv beta zeta.
  eapply lift_getitem_then; [reflexivity|]. cbv beta zeta.
  apply verify_contract_then. intros o3 Ho3. cbv beta zeta.
  eapply lift_getitem_then; [reflexivity|]. cbv beta zeta.
  apply verify_contract_then. intros o4 Ho4. cbv beta zeta.
  (* the exchange *)
  eapply lift_getitem_then; [reflexivity|]. cbv beta zeta.
  eapply lift_getitem_then; [reflexivity|]. cbv beta zeta.
  eapply lift_getitem_then; [reflexivity|]. cbv beta zeta.
  eapply check_output_then; [exact Hco | reflexivity |].
  intros e5 He5. cbv beta zeta.
  eapply lift_getitem_then; [reflexivity|]. cbv beta zeta.
  apply verify_contract_then. intros o5 Ho5. cbv beta zeta.
  (* the transfer managers *)
  eapply lift_getitem_then; [reflexivity|]. cbv beta zeta.
  eapply check_output_then; [exact Hco | reflexivity |].
  intros e6 He6. cbv beta zeta.
  eapply lift_getitem_then; [reflexivity|]. cbv beta zeta.
  apply verify_contract_then. intros o6 Ho6. cbv beta zeta.
  eapply lift_getitem_then; [reflexivity|]. cbv beta zeta.
  eapply check_output_then; [exact Hco | reflexivity |].
  intros e7 He7. cbv beta zeta.
  eapply lift_getitem_then; [reflexivity|]. cbv beta zeta.
  apply verify_contract_then. intros o7 Ho7. cbv beta zeta.
  (* the selector *)
  eapply lift_getitem_then; [reflexivity|]. cbv beta zeta.
  eapply lift_getitem_then; [reflexivity|]. cbv beta zeta.
  eapply check_output_then; [exact Hco | reflexivity |].
  intros e8 He8. cbv beta zeta.
  eapply lift_getitem_then; [reflexivity|]. cbv beta zeta.
  apply verify_contract_then. intros o8 Ho8. cbv beta zeta.
  unfold Q, ret. clear Q.
  set (guids :=
         [(py "fixedPriceStrategy", scan_guid (Py.readlines o1));
          (py "currencyManager", scan_guid (Py.readlines o2));
          (py "executionManager", scan_guid (Py.readlines o3));
          (py "receiptToken", scan_guid (Py.readlines o4));
          (py "exchange", scan_guid (Py.readlines o5));
          (py "transferManagerERC721", scan_guid (Py.readlines o6));
          (py "transferManagerERC1155", scan_guid (Py.readlines o7));
          (py "transferSelector", scan_guid (Py.readlines o8))]).
  change (dict_set _ _ _) with guids.
  assert (Hversion : scan_version (Py.readlines op) = version).
  { now rewrite Hop. }
  rewrite Hversion in *. clear Hversion.
  remember (probe_events solc op) as pe eqn:Hpe.
  remember (verification_events g optimizer_runs version _ _ _ o1) as v1 eqn:Hv1.
  remember (verification_events g optimizer_runs version _ _ _ o2) as v2 eqn:Hv2.
  remember (verification_events g optimizer_runs version _ _ _ o3) as v3 eqn:Hv3.
  remember (verification_events g optimizer_runs version _ _ _ o4) as v4 eqn:Hv4.
  remember (verification_events g optimizer_runs version _ _ _ o5) as v5 eqn:Hv5.
  remember (verification_events g optimizer_runs version _ _ _ o6) as v6 eqn:Hv6.
  remember (verification_events g optimizer_runs version _ _ _ o7) as v7 eqn:Hv7.
  remember (verification_events g optimizer_runs version _ _ _ o8) as v8 eqn:Hv8.
  set (announce :=
         Print (Text (py "chain id: " ++ Py.str_of_Z (chain_id g)
                        ++ py ", optimizer_runs: " ++ str_of_toml optimizer_runs
                        ++ py ", compiler_version: " ++ version))) in *.
  set (c1 := CheckOutput [py "cast"; py "abi-encode"; py "constructor(uint256)";
                          STRATEGY_EXCHANGE_FEE]) in *.
  set (c5 := CheckOutput
               [py "cast"; py "abi-encode";
                py "constructor(address,address,address,address,address,address)";
                a2; a3; PROXY_FACTORY_ADDR; a4; WETH; PROTOCOL_FEE_RECIPIENT])
    in *.
  set (c6 := CheckOutput [py "cast"; py "abi-encode"; py "constructor(address)";
                          a5]) in *.
  set (c8 := CheckOutput [py "cast"; py "abi-encode";
                          py "constructor(address,address)"; a6; a7]) in *.
  set (added := pe ++ [announce] ++ [c1] ++ v1 ++ v2 ++ v3 ++ v4 ++ [c5] ++ v5
                  ++ [c6] ++ v6 ++ [c6] ++ v7 ++ [c8] ++ v8).
  assert (F0 : Forall no_check_output pe)
    by (rewrite Hpe; apply probe_events_free).
  assert (F1 : Forall no_check_output v1)
    by (rewrite Hv1; apply verification_events_free).
  assert (F2 : Forall no_check_output v2)
    by (rewrite Hv2; apply verification_events_free).
  assert (F3 : Forall no_check_output v3)
    by (rewrite Hv3; apply verification_events_free).
  assert (F4 : Forall no_check_output v4)
    by (rewrite Hv4; apply verification_events_free).
  assert (F5 : Forall no_check_output v5)
    by (rewrite Hv5; apply verification_events_free).
  assert (F6 : Forall no_check_output v6)
    by (rewrite Hv6; apply verification_events_free).
  assert (F7 : Forall no_check_output v7)
    by (rewrite Hv7; apply verification_events_free).
  assert (F8 : Forall no_check_output v8)
    by (rewrite Hv8; apply verification_events_free).
  exists e1, e5, e6, e7, e8, guids, added.
  split; [|split; [|split; [|split]]].
  - f_equal. unfold added. repeat rewrite <- app_assoc. reflexivity.
  - reflexivity.
  - unfold added. repeat rewrite filter_app.
    rewrite Hpe, Hv1, Hv2, Hv3, Hv4, Hv5, Hv6, Hv7, Hv8.
    rewrite filter_probe_events. repeat rewrite filter_verification_events.
    reflexivity.
  - unfold added. repeat rewrite encodings_app.
    rewrite (encodings_free check_output_stdout F0),
      (encodings_free check_output_stdout F1),
      (encodings_free check_output_stdout F2),
      (encodings_free check_output_stdout F3),
      (encodings_free check_output_stdout F4),
      (encodings_free check_output_stdout F5),
      (encodings_free check_output_stdout F6),
      (encodings_free check_output_stdout F7),
      (encodings_free check_output_stdout F8).
    subst c1 c5 c6 c8 announce. cbn [encodings app map snd].
    rewrite He1, He5, He6, He7, He8. reflexivity.
  - unfold added. repeat rewrite processes_app.
    rewrite Hpe at 1. rewrite processes_probe_events.
    rewrite Hv1 at 1. rewrite processes_verification_events.
    rewrite Hv2 at 1. rewrite processes_verification_events.
    rewrite Hv3 at 1. rewrite processes_verification_events.
    rewrite Hv4 at 1. rewrite processes_verification_events.
    rewrite Hv5 at 1. rewrite processes_verification_events.
    rewrite Hv6 at 1. rewrite processes_verification_events.
    rewrite Hv7 at 1. rewrite processes_verification_events.
    rewrite Hv8 at 1. rewrite processes_verification_events.
    rewrite <- Ho1, <- Ho2, <- Ho3, <- Ho4, <- Ho5, <- Ho6, <- Ho7, <- Ho8.
    reflexivity.
Qed.

Lemma verify_contracts_eight_in_order_witness :
  dict_get (config sample_globals) (py "default")
  = Some [(py "solc", TStr (py "0.8.13")); (py "optimizer_runs", TInt 200)]
  /\ (forall t', encoded_as (py "0xENC") t' <> None)
  /\ null_free (str_of_toml (TStr (py "0.8.13")))
  /\ null_free (str_of_toml (TInt 200))
  /\ Forall null_free [py "0xA1"; py "0xA2"; py "0xA3"; py "0xA4"; py "0xA5";
                       py "0xA6"; py "0xA7"; py "0xA8"]
  /\ null_free (scan_version
                  (Py.readlines (probe_output numbered (TStr (py "0.8.13")) [])))
  /\ (forall t' encoded,
        encoded_as (py "0xENC") t' = Some encoded -> null_free encoded)
  /\ exists guids added,
       verify_contracts numbered (encoded_as (py "0xENC")) sample_globals
         numbered_addresses [] = (Ok guids, [] ++ added)
       /\ map fst guids = contract_keys.
Proof.
  assert (Hco : forall t', encoded_as (py "0xENC") t' <> None)
    by (intros t'; discriminate).
  assert (Hsolc : null_free (str_of_toml (TStr (py "0.8.13"))))
    by (apply not_in_chars; reflexivity).
  assert (Hruns : null_free (str_of_toml (TInt 200)))
    by (apply not_in_chars; reflexivity).
  assert (Haddresses : Forall null_free
                         [py "0xA1"; py "0xA2"; py "0xA3"; py "0xA4";
                          py "0xA5"; py "0xA6"; py "0xA7"; py "0xA8"])
    by (repeat constructor; apply not_in_chars; reflexivity).
  assert (Hversion : null_free
                       (scan_version
                          (Py.readlines
                             (probe_output numbered (TStr (py "0.8.13")) []))))
    by (apply not_in_chars; reflexivity).
  assert (Hencoded : forall t' encoded,
             encoded_as (py "0xENC") t' = Some encoded -> null_free encoded).
  { intros t' encoded [= <-]. apply not_in_chars. reflexivity. }
  split; [reflexivity|]. split; [exact Hco|].
  split; [exact Hsolc|]. split; [exact Hruns|]. split; [exact Haddresses|].
  split; [exact Hversion|]. split; [exact Hencoded|].
  destruct (@verify_contracts_eight_in_order
              numbered (encoded_as (py "0xENC")) sample_globals
              [(py "solc", TStr (py "0.8.13")); (py "optimizer_runs", TInt 200)]
              (TStr (py "0.8.13")) (TInt 200)
              (py "0xA1") (py "0xA2") (py "0xA3") (py "0xA4") (py "0xA5")
              (py "0xA6") (py "0xA7") (py "0xA8") []
              eq_refl eq_refl eq_refl Hco Hsolc Hruns Haddresses Hversion
              Hencoded)
    as (e1 & e5 & e6 & e7 & e8 & guids & added & Hrun & Hkeys & _).
  exists guids, added. split; assumption.
Defined.

(** The identifiers of the run in which the n-th process reports [g<n>]:
    the compiler probe is the first process of [verify_contracts]. *)
Example verify_contracts_numbered :
  fst (verify_contracts numbered (encoded_as (py "0xENC")) sample_globals
         numbered_addresses [])
  = Ok [(py "fixedPriceStrategy", py "g2"); (py "currencyManager", py "g3");
        (py "executionManager", py "g4"); (py "receiptToken", py "g5");
        (py "exchange", py "g6"); (py "transferManagerERC721", py "g7");
        (py "transferManagerERC1155", py "g8");
        (py "transferSelector", py "g9")].
Proof. vm_compute. reflexivity. Qed.

(** When the first [abi-encode] call exits with a non-zero status,
    [verify_contracts] ends with [CalledProcessError]: the compiler probe
    has run, and no contract is verified. *)
Theorem verify_contracts_encoder_failure (popen_stdout : trace -> pystr)
    (check_output_stdout : trace -> option pystr) (g : globals)
    (default : dict tomlval) (solc optimizer_runs : tomlval)
    (addresses : dict value) (t : trace) :
  dict_get (config g) (py "default") = Some default ->
  dict_get default (py "solc") = Some solc ->
  dict_get default (py "optimizer_runs") = Some optimizer_runs ->
  let probe := probe_events solc (probe_output popen_stdout solc t) in
  let version := scan_version (Py.readlines (probe_output popen_stdout solc t)) in
  let announce :=
    Print (Text (py "chain id: " ++ Py.str_of_Z (chain_id g)
                   ++ py ", optimizer_runs: " ++ str_of_toml optimizer_runs
                   ++ py ", compiler_version: " ++ version)) in
  let call :=
    CheckOutput [py "cast"; py "abi-encode"; py "constructor(uint256)";
                 STRATEGY_EXCHANGE_FEE] in
  check_output_stdout (t ++ probe ++ [announce; call]) = None ->
  verify_contracts popen_stdout check_output_stdout g addresses t
  = (Raise CalledProcessError, t ++ probe ++ [announce; call]).
Proof.
  intros Hdefault Hsolc Hruns probe version announce call Hfail.
  unfold verify_contracts.
  rewrite (@bind_ok _ _ _ _ _ _ _
             (@config_default_ok g (py "solc") default solc t Hdefault Hsolc)).
  cbv zeta.
  rewrite (@bind_ok _ _ _ _ _ _ _ (probe_run popen_stdout solc t)).
  fold probe version.
  rewrite (@bind_ok _ _ _ _ _ _ _
             (@config_default_ok g (py "optimizer_runs") default optimizer_runs
                (t ++ probe) Hdefault Hruns)).
  rewrite (@bind_ok _ _ _ _ _ _ _
             (eq_refl : print (Text (py "chain id: " ++ Py.str_of_Z (chain_id g)
                                       ++ py ", optimizer_runs: "
                                       ++ str_of_toml optimizer_runs
                                       ++ py ", compiler_version: " ++ version))
                          (t ++ probe)
                        = (Ok tt, (t ++ probe) ++ [announce]))).
  apply bind_raise.
  rewrite (@check_output_run check_output_stdout
             [Some (py "cast"); Some (py "abi-encode");
              Some (py "constructor(uint256)"); Some STRATEGY_EXCHANGE_FEE]
             [py "cast"; py "abi-encode"; py "constructor(uint256)";
              STRATEGY_EXCHANGE_FEE] ((t ++ probe) ++ [announce]) eq_refl).
  replace (((t ++ probe) ++ [announce]) ++ [call])
    with (t ++ probe ++ [announce; call])
    by (repeat rewrite <- app_assoc; reflexivity).
  fold call.
  replace (((t ++ probe) ++ [announce]) ++ [call])
    with (t ++ probe ++ [announce; call])
    by (repeat rewrite <- app_assoc; reflexivity).
  now rewrite Hfail.
Qed.

Lemma verify_contracts_encoder_failure_witness :
  fst (verify_contracts numbered (fun _ => None) sample_globals
         numbered_addresses [])
  = Raise CalledProcessError
  /\ length (filter is_process_event
               (snd (verify_contracts numbered (fun _ => None) sample_globals
                       numbered_addresses []))) = 3%nat.
Proof.
  rewrite (@verify_contracts_encoder_failure
             numbered (fun _ => None) sample_globals
             [(py "solc", TStr (py "0.8.13")); (py "optimizer_runs", TInt 200)]
             (TStr (py "0.8.13")) (TInt 200) numbered_addresses []
             eq_refl eq_refl eq_refl eq_refl).
  split; reflexivity.
Defined.
